(** * Burkina Tourisme Chatbot: retrieval, answer generation and HTTP handlers

    A shallow embedding of [src/backend/rag_system.py], [src/backend/main.py],
    [src/backend/data_loader.py] and [src/backend/chat_service.py], and the
    properties of the retrieval and answer pipeline proved over it.

    Conventions of the embedding:
    - a Python [str] is the list of its Unicode code points;
    - a Python [float] (distances, similarities, the threshold 0.3) is an
      exact rational: the code only subtracts a distance from 1 and compares
      with [>=];
    - exceptions are values of [exn], the subclasses of [Exception] the
      program meets; code that may raise returns a [result];
      code that also logs, touches the vector collection, the file system or
      the module globals runs in the monad [M] over [World];
    - the sentence-transformers encoder, the ChromaDB client and collection
      and the text-generation pipeline are third-party objects: they are
      fields of [RAGSystem], functions chosen by the environment;
    - the file system gives, for a path, what [open] followed by
      [json.load] gives: the exception raised or the JSON value loaded; what
      writing a file raises is chosen by the environment too. *)

From Stdlib Require Import ZArith NArith QArith List String Ascii Bool Lia.
From Stdlib Require Import Sorted DecimalString.
Import ListNotations.

(** ** Python strings *)

Module Py.

Definition str := list N.

(** Code points of a literal written in this (UTF-8) file. *)
Fixpoint utf8_decode (bs : list N) : str :=
  match bs with
  | [] => []
  | b0 :: t0 =>
    if (b0 <? 0x80)%N then b0 :: utf8_decode t0
    else if (b0 <? 0xE0)%N then
      match t0 with
      | b1 :: t1 =>
        N.lor (N.shiftl (N.land b0 0x1F) 6) (N.land b1 0x3F) :: utf8_decode t1
      | _ => []
      end
    else if (b0 <? 0xF0)%N then
      match t0 with
      | b1 :: b2 :: t2 =>
        N.lor (N.shiftl (N.land b0 0x0F) 12)
          (N.lor (N.shiftl (N.land b1 0x3F) 6) (N.land b2 0x3F))
        :: utf8_decode t2
      | _ => []
      end
    else
      match t0 with
      | b1 :: b2 :: b3 :: t3 =>
        N.lor (N.shiftl (N.land b0 0x07) 18)
          (N.lor (N.shiftl (N.land b1 0x3F) 12)
             (N.lor (N.shiftl (N.land b2 0x3F) 6) (N.land b3 0x3F)))
        :: utf8_decode t3
      | _ => []
      end
  end.

Definition lit (s : string) : str :=
  utf8_decode (map N_of_ascii (list_ascii_of_string s)).

Definition NL : N := 10%N.

Fixpoint str_eqb (a b : str) : bool :=
  match a, b with
  | [], [] => true
  | x :: a', y :: b' => (x =? y)%N && str_eqb a' b'
  | _, _ => false
  end.

(** [len(s)] *)
Definition len (s : str) : Z := Z.of_nat (List.length s).

(** Truth value of a string: [if s], [not s]. *)
Definition truthy (s : str) : bool :=
  match s with [] => false | _ => true end.

(** [str.isspace] on one code point (the interpreter's whitespace table);
    it is also what [str.strip()], [str.split()] and the regex class [\s]
    use. *)
Definition isspace (c : N) : bool :=
  ((0x09 <=? c) && (c <=? 0x0D) || (0x1C <=? c) && (c <=? 0x20)
   || (c =? 0x85) || (c =? 0xA0) || (c =? 0x1680)
   || (0x2000 <=? c) && (c <=? 0x200A)
   || (c =? 0x2028) || (c =? 0x2029) || (c =? 0x202F) || (c =? 0x205F)
   || (c =? 0x3000))%N.

Fixpoint lstrip (s : str) : str :=
  match s with
  | c :: t => if isspace c then lstrip t else s
  | [] => []
  end.

Definition rstrip (s : str) : str := rev (lstrip (rev s)).

(** [s.strip()] *)
Definition strip (s : str) : str := lstrip (rstrip s).

Fixpoint startswith (pre s : str) : bool :=
  match pre, s with
  | [], _ => true
  | p :: pre', c :: s' => (p =? c)%N && startswith pre' s'
  | _ :: _, [] => false
  end.

(** [sub in s] *)
Fixpoint contains (sub s : str) : bool :=
  startswith sub s ||
  match s with
  | [] => false
  | _ :: t => contains sub t
  end.

(** [s.replace(old, new)] for a non-empty [old]: the non-overlapping
    occurrences, leftmost first; [skip] counts the code points of the
    occurrence being consumed. *)
Fixpoint replace_from (old new s : str) (skip : nat) : str :=
  match s with
  | [] => []
  | c :: t =>
    match skip with
    | S k => replace_from old new t k
    | O =>
      if startswith old s then new ++ replace_from old new t (List.length old - 1)
      else c :: replace_from old new t 0
    end
  end.

(** [s.replace(old, new)]; an empty [old] matches before every code point
    and at the end. *)
Definition replace (old new s : str) : str :=
  match old with
  | [] => new ++ flat_map (fun c => c :: new) s
  | _ => replace_from old new s 0
  end.

(** [sep.join(parts)] *)
Fixpoint join (sep : str) (parts : list str) : str :=
  match parts with
  | [] => []
  | [p] => p
  | p :: rest => p ++ sep ++ join sep rest
  end.

(** [s[:n]] for [n >= 0] *)
Definition slice_to (n : nat) (s : str) : str := firstn n s.

(** [str(z)], the decimal form an f-string gives an [int]. *)
Definition str_of_Z (z : Z) : str := lit (NilZero.string_of_int (Z.to_int z)).

(** [s.split()]: the maximal runs of non-whitespace; [cur] is the run being
    read, reversed. *)
Fixpoint split_from (s : str) (cur : str) : list str :=
  match s with
  | [] => match cur with [] => [] | _ => [rev cur] end
  | c :: t =>
    if isspace c
    then match cur with [] => split_from t [] | _ => rev cur :: split_from t [] end
    else split_from t (c :: cur)
  end.

Definition split (s : str) : list str := split_from s [].

(** The part of the interpreter's Unicode database that the program reaches
    through [str.lower] and the regex class [\w]. [lower] is a function of
    the whole string (the mapping of a letter may depend on its
    neighbours); [isalnum] is [str.isalnum] on one code point. *)
Class Unicode := {
  lower : str -> str;
  isalnum : N -> bool
}.

(** The database restricted to Basic Latin and Latin-1 Supplement
    (U+0000..U+00FF); code points above are left unchanged and are not
    word characters. *)
Definition latin1_lower (c : N) : N :=
  if ((0x41 <=? c) && (c <=? 0x5A)
      || (0xC0 <=? c) && (c <=? 0xDE) && negb (c =? 0xD7))%N
  then (c + 32)%N else c.

Definition latin1_isalnum (c : N) : bool :=
  ((0x30 <=? c) && (c <=? 0x39) || (0x41 <=? c) && (c <=? 0x5A)
   || (0x61 <=? c) && (c <=? 0x7A)
   || (c =? 0xAA) || (c =? 0xB2) || (c =? 0xB3) || (c =? 0xB5)
   || (c =? 0xB9) || (c =? 0xBA) || (0xBC <=? c) && (c <=? 0xBE)
   || (0xC0 <=? c) && (c <=? 0xD6) || (0xD8 <=? c) && (c <=? 0xF6)
   || (0xF8 <=? c) && (c <=? 0xFF))%N.

#[export] Instance Latin1 : Unicode := {
  lower := map latin1_lower;
  isalnum := latin1_isalnum
}.

(** A word character of the regex class [\w]. *)
Definition isword `{Unicode} (c : N) : bool := isalnum c || (c =? 0x5F)%N.

(** [re.findall(r"\w{3,}", s)]: the maximal runs of word characters that
    have at least three of them; [cur] is the run being read, reversed. *)
Definition emit_run (cur : str) : list str :=
  if (3 <=? List.length cur)%nat then [rev cur] else [].

Fixpoint findall_words_from `{Unicode} (s : str) (cur : str) : list str :=
  match s with
  | [] => emit_run cur
  | c :: t =>
    if isword c then findall_words_from t (c :: cur)
    else emit_run cur ++ findall_words_from t []
  end.

Definition findall_words `{Unicode} (s : str) : list str :=
  findall_words_from s [].

(** A line boundary of [str.splitlines]. *)
Definition is_linebreak (c : N) : bool :=
  ((0x0A <=? c) && (c <=? 0x0D) || (0x1C <=? c) && (c <=? 0x1E)
   || (c =? 0x85) || (c =? 0x2028) || (c =? 0x2029))%N.

(** [s.splitlines()]: the lines without their boundaries, a carriage return
    followed by a line feed being one boundary; [cur] is the line being
    read, reversed. *)
Fixpoint splitlines_from (s : str) (cur : str) : list str :=
  match s with
  | [] => match cur with [] => [] | _ => [rev cur] end
  | c :: t =>
    if (c =? 0x0D)%N then
      match t with
      | c' :: t' =>
        if (c' =? 0x0A)%N then rev cur :: splitlines_from t' []
        else rev cur :: splitlines_from t []
      | [] => [rev cur]
      end
    else if is_linebreak c then rev cur :: splitlines_from t []
    else splitlines_from t (c :: cur)
  end.

Definition splitlines (s : str) : list str := splitlines_from s [].

(** [s.split(sep)] for a non-empty [sep]: the pieces between the
    non-overlapping occurrences of [sep], leftmost first; [cur] is the piece
    being read, reversed, and [skip] counts the code points of the
    occurrence being consumed. *)
Fixpoint split_sep_from (sep s cur : str) (skip : nat) : list str :=
  match s with
  | [] => [rev cur]
  | c :: t =>
    match skip with
    | S k => split_sep_from sep t cur k
    | O =>
      if startswith sep s
      then rev cur :: split_sep_from sep t [] (List.length sep - 1)
      else split_sep_from sep t (c :: cur) 0
    end
  end.

Definition split_sep (sep s : str) : list str := split_sep_from sep s [] 0.

End Py.
Import Py.

(** ** Exceptions and results *)

Inductive error_class :=
| IndexError | KeyError | TypeError | ValueError | ZeroDivisionError
| AttributeError | FileNotFoundError | NotADirectoryError | PermissionError
| OSError | JSONDecodeError | UnicodeDecodeError | UnicodeEncodeError
| RecursionError | RuntimeError.

(** The exceptions of the program, all of them subclasses of [Exception]:
    built-in and library errors carry their message, [HTTPException] its
    status code and detail. *)
Inductive exn :=
| Error (cls : error_class) (msg : str)
| HTTPException (status_code : Z) (detail : str).

Definition error_class_eqb (a b : error_class) : bool :=
  match a, b with
  | IndexError, IndexError | KeyError, KeyError | TypeError, TypeError
  | ValueError, ValueError | ZeroDivisionError, ZeroDivisionError
  | AttributeError, AttributeError | FileNotFoundError, FileNotFoundError
  | NotADirectoryError, NotADirectoryError
  | PermissionError, PermissionError | OSError, OSError
  | JSONDecodeError, JSONDecodeError
  | UnicodeDecodeError, UnicodeDecodeError
  | UnicodeEncodeError, UnicodeEncodeError
  | RecursionError, RecursionError | RuntimeError, RuntimeError => true
  | _, _ => false
  end.

(** [isinstance(e, cls)] for the classes the handlers name,
    [FileNotFoundError] and [json.JSONDecodeError]: neither has a subclass
    among the classes above. *)
Definition is_error (cls : error_class) (e : exn) : bool :=
  match e with
  | Error c _ => error_class_eqb c cls
  | HTTPException _ _ => false
  end.

Definition is_http (e : exn) : bool :=
  match e with HTTPException _ _ => true | Error _ _ => false end.

(** [str(e)] *)
Definition exn_str (e : exn) : str :=
  match e with
  | Error _ msg => msg
  | HTTPException code detail => str_of_Z code ++ lit ": " ++ detail
  end.

Inductive result (A : Type) :=
| Ok (a : A)
| Raise (e : exn).
Arguments Ok {A} a.
Arguments Raise {A} e.

Definition rbind {A B} (c : result A) (k : A -> result B) : result B :=
  match c with
  | Ok a => k a
  | Raise e => Raise e
  end.

Declare Scope py_scope.
Delimit Scope py_scope with py.
Notation "'let?' x ':=' c 'in' k" := (rbind c (fun x => k))
  (at level 10, x name, c at level 100, k at level 200) : py_scope.
Open Scope py_scope.

(** [xs[i]] on a list *)
Definition getitem {A} (xs : list A) (i : nat) : result A :=
  match nth_error xs i with
  | Some x => Ok x
  | None => Raise (Error IndexError (lit "list index out of range"))
  end.

(** [xs[i]] where [xs] may be [None] *)
Definition getitem_opt {A} (xs : option (list A)) (i : nat) : result A :=
  match xs with
  | Some l => getitem l i
  | None => Raise (Error TypeError (lit "'NoneType' object is not subscriptable"))
  end.

(** [a // b] on integers *)
Definition floordiv (a b : Z) : result Z :=
  if (b =? 0)%Z
  then Raise (Error ZeroDivisionError (lit "integer division or modulo by zero"))
  else Ok (a / b)%Z.

(** [traverse f xs]: the list comprehension [[f(x) for x in xs]], which
    raises what the first failing element raises. *)
Fixpoint traverse {A B} (f : A -> result B) (xs : list A) : result (list B) :=
  match xs with
  | [] => Ok []
  | x :: rest =>
    let? y := f x in
    let? ys := traverse f rest in
    Ok (y :: ys)
  end.

(** ** JSON values *)

#[local] Unset Elimination Schemes.

(** A value as [json.load] returns it: [None], a bool, an int, a float, a
    str, a list or a dict with its keys in the order of the file. *)
Inductive json :=
| JNull
| JBool (b : bool)
| JInt (n : Z)
| JFloat (x : Q)
| JString (s : str)
| JArray (items : list json)
| JObject (members : list (str * json)).

#[local] Set Elimination Schemes.

(** [type(v).__name__] *)
Definition type_name (v : json) : str :=
  match v with
  | JNull => lit "NoneType"
  | JBool _ => lit "bool"
  | JInt _ => lit "int"
  | JFloat _ => lit "float"
  | JString _ => lit "str"
  | JArray _ => lit "list"
  | JObject _ => lit "dict"
  end.

(** [len(v)] *)
Definition py_len (v : json) : result nat :=
  match v with
  | JString s => Ok (List.length s)
  | JArray items => Ok (List.length items)
  | JObject members => Ok (List.length members)
  | _ => Raise (Error TypeError
                  (lit "object of type '" ++ type_name v ++ lit "' has no len()"))
  end.

(** The values [for doc in v] goes through: the items of a list, the keys
    of a dict, the characters of a str. *)
Definition py_iter (v : json) : result (list json) :=
  match v with
  | JString s => Ok (map (fun c => JString [c]) s)
  | JArray items => Ok items
  | JObject members => Ok (map (fun kv => JString (fst kv)) members)
  | _ => Raise (Error TypeError
                  (lit "'" ++ type_name v ++ lit "' object is not iterable"))
  end.

(** [members[key]] of a dict *)
Fixpoint member (key : str) (members : list (str * json)) : option json :=
  match members with
  | [] => None
  | (k, v) :: rest => if str_eqb k key then Some v else member key rest
  end.

(** [v[key]] for a str [key], with the messages of CPython 3.11; the
    message of a [KeyError] is the key as [repr] shows it, and the keys the
    program uses hold no quote. *)
Definition py_getitem (key : str) (v : json) : result json :=
  match v with
  | JObject members =>
    match member key members with
    | Some x => Ok x
    | None => Raise (Error KeyError (lit "'" ++ key ++ lit "'"))
    end
  | JString _ =>
    Raise (Error TypeError (lit "string indices must be integers, not 'str'"))
  | JArray _ =>
    Raise (Error TypeError
             (lit "list indices must be integers or slices, not str"))
  | _ => Raise (Error TypeError
                  (lit "'" ++ type_name v ++ lit "' object is not subscriptable"))
  end.

(** [v.get(key, default)] *)
Definition py_get (key : str) (default : json) (v : json) : result json :=
  match v with
  | JObject members =>
    Ok (match member key members with Some x => x | None => default end)
  | _ => Raise (Error AttributeError
                  (lit "'" ++ type_name v ++ lit "' object has no attribute 'get'"))
  end.

(** ** Data model *)

(** A [Dict[str, str]], in insertion order. *)
Definition dict := list (str * str).

(** [d.get(k, default)] *)
Fixpoint dict_get (k : str) (d : dict) (default : str) : str :=
  match d with
  | [] => default
  | (k', v) :: rest => if str_eqb k' k then v else dict_get k rest default
  end.

(** A corpus document [{"id", "text", "metadata"}]. The code reads "id"
    and "text" with [doc[...]]: every document the program builds has them.
    It reads the metadata with [.get("metadata", {})], so that key may be
    absent. *)
Record Document := {
  doc_id : str;
  doc_text : str;
  doc_metadata : option dict
}.

(** The documents as [json.dump] writes them and [json.load] reads them
    back. *)
Definition json_of_document (doc : Document) : json :=
  JObject
    ([ (lit "id", JString (doc_id doc)); (lit "text", JString (doc_text doc)) ]
     ++ match doc_metadata doc with
        | Some m =>
          [ (lit "metadata",
             JObject (map (fun kv => (fst kv, JString (snd kv))) m)) ]
        | None => []
        end).

Definition json_of_documents (docs : list Document) : json :=
  JArray (map json_of_document docs).

(** A retrieved match [{"id", "text", "metadata", "similarity"}];
    [generate_response] reads the last two with [.get]. *)
Record RetrievedDoc := {
  r_id : str;
  r_text : str;
  r_metadata : option dict;
  r_similarity : option Q
}.

Definition embedding := list Q.

(** What [collection.query] returns: one row per query embedding. *)
Record QueryResult := {
  ids : list (list str);
  distances : option (list (list Q));
  documents : option (list (list str));
  metadatas : option (list (list dict))
}.

(** One stored entry of the ChromaDB collection. *)
Record Entry := {
  e_id : str;
  e_embedding : embedding;
  e_metadata : dict;
  e_document : str
}.

(** The collection [self.collection] refers to: its entries, or nothing
    once the client has deleted it and the attribute still names it. *)
Inductive Collection :=
| Live (entries : list Entry)
| Deleted.

(** Values of a [Dict[str, Any]] source entry. *)
Inductive jval :=
| JStr (s : str)
| JNum (q : Q).

Definition jobject := list (str * jval).

(** The dict built by [generate_response] and completed by
    [RAGSystem.chat]; [None] is an absent key. *)
Record ChatResult := {
  cr_response : str;
  cr_sources : list jobject;
  cr_context_used : bool;
  cr_query : option str;
  cr_num_sources : option Z
}.

(** Keyword arguments of the text-generation call. *)
Record GenerationArgs := {
  max_length : Z;
  num_return_sequences : Z;
  temperature : Q;
  top_p : Q
}.

(** config.py *)
Module Config.

Record RagConfig := {
  chunk_size : Z;
  chunk_overlap : Z;
  top_k : Z;
  similarity_threshold : Q
}.

Definition RAG_CONFIG : RagConfig := {|
  chunk_size := 500;
  chunk_overlap := 50;
  top_k := 5;
  similarity_threshold := 3 # 10
|}.

(** [DATA_DIR / "corpus.json"], relative to the project directory. *)
Definition CORPUS_PATH : str := lit "data/corpus.json".

End Config.

(** The attributes of a [RAGSystem] object. The encoder, the collection
    and client operations and the generation pipeline are the third-party
    objects the constructor creates, with whatever they do on the values
    they are given; the state of the collection is in [World].
    [collection_add] takes the ids, embeddings, metadatas and texts and
    gives the collection after the call; [delete_collection] and
    [create_collection] are the two calls on the client. [llm_pipeline] is
    [None] when the model could not be loaded. *)
Record RAGSystem := {
  encode : list json -> result (list embedding);
  collection_query : Collection -> embedding -> Z -> result QueryResult;
  collection_add :
    Collection -> list json -> list embedding -> list json -> list json ->
    result Collection;
  delete_collection : Collection -> result unit;
  create_collection : result Collection;
  llm_pipeline : option (str -> GenerationArgs -> result (list dict))
}.

(** [self.embedding_model.encode] on strings. *)
Definition embedding_model (self : RAGSystem) (texts : list str)
    : result (list embedding) :=
  encode self (map JString texts).

(** The attributes of a [DataLoader] object ([sources] is a set). *)
Record DataLoader := {
  corpus_path : str;
  dl_documents : list Document;
  dl_sources : list str
}.

(** What is stored under a path, as [open] for reading followed by
    [json.load] sees it: the exception one of them raises
    ([FileNotFoundError], [NotADirectoryError], [PermissionError],
    [UnicodeDecodeError], [json.JSONDecodeError], [RecursionError], ...) or
    the value loaded. *)
Inductive FileState :=
| Unreadable (e : exn)
| Json (v : json).

(** A file that holds the documents. *)
Definition JsonDocuments (docs : list Document) : FileState :=
  Json (json_of_documents docs).

Inductive level := DEBUG | INFO | WARNING | ERROR.

(** The state of the process: the module globals of main.py, the lines kept
    in [app.state.sources], the state of the vector collection, the file
    system, the clock and the records passed to the loggers.
    [write_refused path] is what creating the directory or opening [path]
    for writing raises, if anything ([PermissionError],
    [NotADirectoryError], ...); [write_interrupted path docs] is what
    [json.dump] of [docs] into the open file raises, if anything
    ([UnicodeEncodeError] for a lone surrogate in a string, [OSError] from
    the device), with what the truncated file is left as. *)
Record World := {
  rag_system : option RAGSystem;
  data_loader : option DataLoader;
  app_sources : option (list str);
  collection : Collection;
  files : str -> FileState;
  write_refused : str -> option exn;
  write_interrupted : str -> list Document -> option (exn * FileState);
  now_isoformat : str;
  log : list (level * str)
}.

Definition set_log (w : World) (l : list (level * str)) : World :=
  {| rag_system := rag_system w; data_loader := data_loader w;
     app_sources := app_sources w; collection := collection w;
     files := files w; write_refused := write_refused w;
     write_interrupted := write_interrupted w;
     now_isoformat := now_isoformat w; log := l |}.

Definition set_collection (w : World) (c : Collection) : World :=
  {| rag_system := rag_system w; data_loader := data_loader w;
     app_sources := app_sources w; collection := c;
     files := files w; write_refused := write_refused w;
     write_interrupted := write_interrupted w;
     now_isoformat := now_isoformat w; log := log w |}.

Definition set_files (w : World) (f : str -> FileState) : World :=
  {| rag_system := rag_system w; data_loader := data_loader w;
     app_sources := app_sources w; collection := collection w;
     files := f; write_refused := write_refused w;
     write_interrupted := write_interrupted w;
     now_isoformat := now_isoformat w; log := log w |}.

Definition set_data_loader (w : World) (d : option DataLoader) : World :=
  {| rag_system := rag_system w; data_loader := d;
     app_sources := app_sources w; collection := collection w;
     files := files w; write_refused := write_refused w;
     write_interrupted := write_interrupted w;
     now_isoformat := now_isoformat w; log := log w |}.

(** ** The monad of effectful code: state and exceptions. A raised
    exception keeps the changes made before it. *)

Definition M (A : Type) := World -> result A * World.

Definition ret {A} (a : A) : M A := fun w => (Ok a, w).

Definition raise {A} (e : exn) : M A := fun w => (Raise e, w).

Definition bind {A B} (c : M A) (k : A -> M B) : M B :=
  fun w =>
    match c w with
    | (Ok a, w') => k a w'
    | (Raise e, w') => (Raise e, w')
    end.

Notation "x <- c ;; k" := (bind c (fun x => k))
  (at level 100, c at next level, right associativity) : py_scope.
Notation "c ;; k" := (bind c (fun _ => k))
  (at level 100, right associativity) : py_scope.

Definition lift {A} (r : result A) : M A := fun w => (r, w).

Definition get_world : M World := fun w => (Ok w, w).

(** [try: body / except ...: handler]; [handler e] is [None] when no
    [except] clause names the class of [e]. *)
Definition try_except {A} (body : M A) (handler : exn -> option (M A)) : M A :=
  fun w =>
    match body w with
    | (Ok a, w') => (Ok a, w')
    | (Raise e, w') =>
      match handler e with
      | Some h => h w'
      | None => (Raise e, w')
      end
    end.

(** [logger.debug / info / warning / error]; [logger.exception] records at
    level [ERROR]. *)
Definition logger (lv : level) (msg : str) : M unit :=
  fun w => (Ok tt, set_log w (log w ++ [(lv, msg)])).

(** ** rag_system.py *)

Section RagSystem.

Context `{Unicode}.

Variable self : RAGSystem.

Definition get_collection : M Collection := fun w => (Ok (collection w), w).

Definition put_collection (c : Collection) : M unit :=
  fun w => (Ok tt, set_collection w c).

(** [add_documents], on whatever value it is given: [load_corpus] passes
    it the value read from the corpus file. *)
Definition add_documents (documents : json) : M unit :=
  n <- lift (py_len documents) ;;
  logger INFO (lit "Ajout de " ++ str_of_Z (Z.of_nat n)
               ++ lit " documents à la base de données...") ;;
  docs <- lift (py_iter documents) ;;
  texts <- lift (traverse (py_getitem (lit "text")) docs) ;;
  ids <- lift (traverse (py_getitem (lit "id")) docs) ;;
  metadatas <- lift (traverse (py_get (lit "metadata") (JObject [])) docs) ;;
  embeddings <- lift (encode self texts) ;;
  stored <- get_collection ;;
  stored' <- lift (collection_add self stored ids embeddings metadatas texts) ;;
  put_collection stored' ;;
  logger INFO (lit "✓ " ++ str_of_Z (Z.of_nat n)
               ++ lit " documents ajoutés avec succès").

(** Truth value of [results["distances"]]. *)
Definition distances_truthy (results : QueryResult) : bool :=
  match distances results with
  | Some (_ :: _) => true
  | _ => false
  end.

(** The loop over [enumerate(results["ids"][0])]: [i] is the index of the
    head of [row], [retrieved_docs] the list built so far. *)
Fixpoint format_results_from (results : QueryResult) (i : nat)
    (row : list str) (retrieved_docs : list RetrievedDoc)
    : result (list RetrievedDoc) :=
  match row with
  | [] => Ok retrieved_docs
  | doc_id :: rest =>
    let? distance :=
      (if distances_truthy results
       then let? d0 := getitem_opt (distances results) 0 in getitem d0 i
       else Ok 0%Q) in
    let similarity := (1 - distance)%Q in
    if Qle_bool (Config.similarity_threshold Config.RAG_CONFIG) similarity then
      let? t0 := getitem_opt (documents results) 0 in
      let? text := getitem t0 i in
      let? m0 := getitem_opt (metadatas results) 0 in
      let? metadata := getitem m0 i in
      format_results_from results (S i) rest
        (retrieved_docs ++
         [{| r_id := doc_id; r_text := text; r_metadata := Some metadata;
             r_similarity := Some similarity |}])
    else format_results_from results (S i) rest retrieved_docs
  end.

(** "Formater les résultats" *)
Definition format_results (results : QueryResult) : result (list RetrievedDoc) :=
  match ids results with
  | row :: _ => format_results_from results 0 row []
  | [] => Ok []
  end.

(** [if top_k is None: top_k = RAG_CONFIG["top_k"]] *)
Definition top_k_or_default (top_k : option Z) : Z :=
  match top_k with
  | None => Config.top_k Config.RAG_CONFIG
  | Some k => k
  end.

Definition retrieve_documents (query : str) (top_k : option Z)
    : M (list RetrievedDoc) :=
  let top_k := top_k_or_default top_k in
  encoded <- lift (embedding_model self [query]) ;;
  query_embedding <- lift (getitem encoded 0) ;;
  stored <- get_collection ;;
  results <- lift (collection_query self stored query_embedding top_k) ;;
  retrieved_docs <- lift (format_results results) ;;
  logger INFO (lit "Documents récupérés: "
               ++ str_of_Z (Z.of_nat (List.length retrieved_docs))
               ++ lit "/" ++ str_of_Z top_k) ;;
  ret retrieved_docs.

(** The context string: "Document i:" and the text of each document,
    numbered from [i]. *)
Fixpoint context_parts (i : nat) (docs : list RetrievedDoc) : list str :=
  match docs with
  | [] => []
  | doc :: rest =>
    (lit "Document " ++ str_of_Z (Z.of_nat i) ++ lit ":" ++ [NL] ++ r_text doc)
    :: context_parts (S i) rest
  end.

Definition _build_context (docs : list RetrievedDoc) : str :=
  match docs with
  | [] => []
  | _ => join [NL; NL] (context_parts 1 docs)
  end.

(** The fixed answers of the last tier. *)
Definition general_responses : list (str * str) :=
  [ (lit "bonjour", lit "Bonjour! Je suis votre assistant touristique pour le Burkina Faso. Comment puis-je vous aider?");
    (lit "salut", lit "Salut! Bienvenue. Je suis ici pour répondre à vos questions sur le tourisme au Burkina Faso.");
    (lit "merci", lit "De rien! N'hésitez pas à me poser d'autres questions.");
    (lit "au revoir", lit "Au revoir! Bon voyage au Burkina Faso!") ].

Definition NO_INFORMATION : str :=
  lit "Je ne dispose pas d'informations spécifiques sur ce sujet. Pouvez-vous poser une question relative au tourisme au Burkina Faso?".

(** The loop over [general_responses.items()]. *)
Fixpoint first_trigger (responses : list (str * str)) (query_lower : str)
    : option str :=
  match responses with
  | [] => None
  | (key, response) :: rest =>
    if contains key query_lower then Some response
    else first_trigger rest query_lower
  end.

Definition _generate_fallback_response (query : str) : str :=
  let query_lower := strip (lower query) in
  match first_trigger general_responses query_lower with
  | Some response => response
  | None => NO_INFORMATION
  end.

Definition _generate_with_template (query context : str) : str :=
  if negb (truthy context) then _generate_fallback_response query
  else lit "Basé sur les informations disponibles: "
       ++ slice_to 200 context ++ lit "...".

(** [RAG_CONFIG.get("max_tokens", 512)]: the key is not in [RAG_CONFIG];
    [LLM_GENERATION_CONFIG] has temperature 0.7 and top_p 0.9. *)
Definition generation_args : GenerationArgs := {|
  max_length := 512;
  num_return_sequences := 1;
  temperature := 7 # 10;
  top_p := 9 # 10
|}.

(** [output[0]["generated_text"]] *)
Definition generated_text (output : list dict) : result str :=
  let? first := getitem output 0 in
  match find (fun kv => str_eqb (fst kv) (lit "generated_text")) first with
  | Some kv => Ok (snd kv)
  | None => Raise (Error KeyError (lit "'generated_text'"))
  end.

(** The f-string [prompt]. *)
Definition prompt (query context : str) : str :=
  lit "Contexte:" ++ [NL] ++ context ++ [NL; NL]
  ++ lit "Question: " ++ query ++ [NL; NL]
  ++ lit "Réponse basée sur le contexte:".

(** The body of the [try] block of [_generate_with_llm]. *)
Definition llm_attempt
    (pipeline : str -> GenerationArgs -> result (list dict))
    (query context : str) : M str :=
  output <- lift (pipeline (prompt query context) generation_args) ;;
  text <- lift (generated_text output) ;;
  ret (strip (replace (prompt query context) [] text)).

Definition _generate_with_llm
    (pipeline : str -> GenerationArgs -> result (list dict))
    (query context : str) : M str :=
  try_except
    (llm_attempt pipeline query context)
    (fun e => Some (
       logger ERROR (lit "Erreur lors de la génération LLM: " ++ exn_str e) ;;
       ret (_generate_with_template query context))).

(** The [{"title", "url", "similarity"}] projection of a context document. *)
Definition source_of (doc : RetrievedDoc) : jobject :=
  let metadata := match r_metadata doc with Some m => m | None => [] end in
  [ (lit "title", JStr (dict_get (lit "title") metadata (lit "Source")));
    (lit "url", JStr (dict_get (lit "url") metadata []));
    (lit "similarity",
     JNum (match r_similarity doc with Some s => s | None => 0%Q end)) ].

Definition generate_response (query : str) (context_docs : list RetrievedDoc)
    : M ChatResult :=
  let context := _build_context context_docs in
  response <-
    match llm_pipeline self with
    | Some pipeline => _generate_with_llm pipeline query context
    | None => ret (_generate_with_template query context)
    end ;;
  let sources := map source_of context_docs in
  ret {| cr_response := response;
         cr_sources := sources;
         cr_context_used := (0 <? List.length context_docs)%nat;
         cr_query := None;
         cr_num_sources := None |}.

(** [RAGSystem.chat] *)
Definition rag_chat (query : str) : M ChatResult :=
  logger INFO (lit "Traitement de la requête: " ++ query) ;;
  retrieved_docs <- retrieve_documents query None ;;
  result <- generate_response query retrieved_docs ;;
  let result :=
    {| cr_response := cr_response result;
       cr_sources := cr_sources result;
       cr_context_used := cr_context_used result;
       cr_query := Some query;
       cr_num_sources := Some (Z.of_nat (List.length retrieved_docs)) |} in
  logger INFO (lit "Réponse générée avec "
               ++ str_of_Z (Z.of_nat (List.length retrieved_docs))
               ++ lit " sources") ;;
  ret result.

(** What [open(corpus_path)] followed by [json.load] gives. *)
Definition read_json (path : str) : M json :=
  fun w =>
    match files w path with
    | Unreadable e => (Raise e, w)
    | Json v => (Ok v, w)
    end.

Definition load_corpus (corpus_path : str) : M unit :=
  try_except
    (documents <- read_json corpus_path ;;
     n <- lift (py_len documents) ;;
     logger INFO (lit "Corpus chargé: " ++ str_of_Z (Z.of_nat n)
                  ++ lit " documents") ;;
     add_documents documents)
    (fun e =>
       if is_error FileNotFoundError e
       then Some (logger WARNING (lit "Corpus non trouvé à " ++ corpus_path))
       else if is_error JSONDecodeError e
       then Some (logger ERROR (lit "Erreur de décodage JSON dans " ++ corpus_path))
       else None).

(** [clear_database]: once [delete_collection] has returned the entries
    are gone, and [self.collection] names the deleted collection until
    [create_collection] has returned. *)
Definition clear_database : M unit :=
  try_except
    (stored <- get_collection ;;
     lift (delete_collection self stored) ;;
     put_collection Deleted ;;
     fresh <- lift (create_collection self) ;;
     put_collection fresh ;;
     logger INFO (lit "Base de données vidée avec succès"))
    (fun e => Some (
       logger ERROR (lit "Erreur lors du vidage de la base de données: "
                     ++ exn_str e))).

End RagSystem.

(** ** data_loader.py *)

Module DataLoaderM.

(** [re.sub(r'\s+', ' ', text)]; [in_run] holds inside a run of whitespace
    already replaced. *)
Fixpoint collapse_whitespace (text : str) (in_run : bool) : str :=
  match text with
  | [] => []
  | c :: t =>
    if isspace c
    then if in_run then collapse_whitespace t true
         else 0x20%N :: collapse_whitespace t true
    else c :: collapse_whitespace t false
  end.

(** The class [[\x00-\x1f\x7f-\x9f]] *)
Definition is_control (c : N) : bool :=
  ((c <=? 0x1F) || (0x7F <=? c) && (c <=? 0x9F))%N.

(** Code points up to and including the first ['>'] of [s], if there is one. *)
Fixpoint upto_gt (s : str) : option nat :=
  match s with
  | [] => None
  | c :: t =>
    if (c =? 0x3E)%N then Some 1%nat
    else match upto_gt t with Some n => Some (S n) | None => None end
  end.

(** Length of a match of [[^>]+>] at the start of [s]. *)
Definition tag_body (s : str) : option nat :=
  match s with
  | [] => None
  | c :: t =>
    if (c =? 0x3E)%N then None
    else match upto_gt t with Some n => Some (S n) | None => None end
  end.

(** [re.sub(r'<[^>]+>', '', text)]; [skip] counts what is left of the tag
    being removed. *)
Fixpoint remove_tags_from (text : str) (skip : nat) : str :=
  match text with
  | [] => []
  | c :: t =>
    match skip with
    | S k => remove_tags_from t k
    | O =>
      if (c =? 0x3C)%N then
        match tag_body t with
        | Some n => remove_tags_from t n
        | None => c :: remove_tags_from t 0
        end
      else c :: remove_tags_from t 0
    end
  end.

Definition clean_text (text : str) : str :=
  let text := collapse_whitespace text false in
  let text := filter (fun c => negb (is_control c)) text in
  let text := remove_tags_from text 0 in
  strip text.

(** [self.sources.add(url)] *)
Definition set_add (url : str) (sources : list str) : list str :=
  if existsb (str_eqb url) sources then sources else sources ++ [url].

Definition add_document (self : DataLoader)
    (text title url category source_type : str) : M DataLoader :=
  let cleaned_text := clean_text text in
  if (len cleaned_text <? 50)%Z then
    logger DEBUG (lit "Document trop court ignoré: " ++ title) ;;
    ret self
  else
    w <- get_world ;;
    let doc_id :=
      lit "doc_" ++ str_of_Z (Z.of_nat (List.length (dl_documents self)) + 1) in
    let document := {|
      doc_id := doc_id;
      doc_text := cleaned_text;
      doc_metadata := Some
        [ (lit "title", title); (lit "url", url); (lit "category", category);
          (lit "source_type", source_type);
          (lit "added_date", now_isoformat w) ] |} in
    let self' := {|
      corpus_path := corpus_path self;
      dl_documents := dl_documents self ++ [document];
      dl_sources := if truthy url then set_add url (dl_sources self)
                    else dl_sources self |} in
    logger DEBUG (lit "Document ajouté: " ++ title) ;;
    ret self'.

(** [(text, title, category)] of the demonstration documents. *)
Definition sample_documents : list (str * str * str) :=
  [ (lit "Ouagadougou est la capitale du Burkina Faso. La ville est le centre politique, économique et culturel du pays. Elle abrite le Palais de Koulouba, résidence officielle du président, et de nombreux musées importants comme le Musée National du Burkina Faso qui présente l'histoire et la culture du pays.",
     lit "Ouagadougou - Capitale du Burkina Faso", lit "tourisme");
    (lit "Bobo-Dioulasso est la deuxième plus grande ville du Burkina Faso. Connue comme la ville des arts et de la culture, elle est un important centre touristique avec ses mosquées anciennes, ses marchés colorés et son architecture traditionnelle. La ville est aussi un carrefour commercial important.",
     lit "Bobo-Dioulasso - Ville des Arts", lit "tourisme");
    (lit "La Cascade de Karfiguéla est l'une des plus belles cascades du Burkina Faso, située dans la région de Cascades. Elle offre un paysage spectaculaire avec ses chutes d'eau de 60 mètres de hauteur. C'est une destination populaire pour les randonneurs et les amateurs de nature.",
     lit "Cascade de Karfiguéla", lit "tourisme");
    (lit "Le Parc W est une réserve naturelle transfrontalière partagée par le Burkina Faso, le Niger et le Bénin. C'est l'un des plus grands parcs nationaux d'Afrique de l'Ouest, riche en faune sauvage incluant des éléphants, des lions et des antilopes. C'est un paradis pour les safaris.",
     lit "Parc W - Réserve Naturelle", lit "tourisme");
    (lit "La Fête de la Musique de Dédougou est un événement culturel annuel qui célèbre la musique traditionnelle et contemporaine du Burkina Faso. Elle attire des musiciens et des visiteurs du monde entier pour découvrir la richesse musicale du pays.",
     lit "Fête de la Musique de Dédougou", lit "culture");
    (lit "Les tissus traditionnels du Burkina Faso, en particulier le bogolan (tissu teint avec de la boue), sont mondialement reconnus. Ces tissus sont produits par des artisans locaux utilisant des techniques ancestrales et sont des symboles importants de la culture burkinabè.",
     lit "Artisanat Textile Burkinabè", lit "culture");
    (lit "Le Musée National du Burkina Faso à Ouagadougou présente une collection complète d'artefacts historiques et culturels. Les visiteurs peuvent explorer l'histoire du pays à travers des expositions permanentes et temporaires couvrant l'archéologie, l'ethnographie et l'art.",
     lit "Musée National du Burkina Faso", lit "tourisme");
    (lit "Banfora est une ville pittoresque dans la région des Cascades, connue pour ses lacs colorés et ses formations rocheuses spectaculaires. Les Lacs Colorés de Banfora sont une attraction touristique majeure avec leurs eaux teintées de différentes couleurs dues aux minéraux.",
     lit "Banfora et ses Lacs Colorés", lit "tourisme");
    (lit "La cuisine burkinabè est riche et variée, basée sur des ingrédients locaux comme le mil, le sorgho, les arachides et les légumes. Les plats populaires incluent le riz gras, le tô, et les brochettes. La gastronomie locale reflète la diversité culturelle du pays.",
     lit "Gastronomie Burkinabè", lit "tourisme");
    (lit "Le Festival Panafricain du Cinéma et de la Télévision (FESPACO) est l'un des plus grands festivals de cinéma d'Afrique, organisé tous les deux ans à Ouagadougou. Il célèbre le cinéma africain et attire des cinéastes et des visiteurs du monde entier.",
     lit "FESPACO - Festival de Cinéma", lit "culture") ].

(** The loop of [add_sample_data] over the documents left in [docs]. *)
Fixpoint add_each (self : DataLoader) (docs : list (str * str * str))
    : M DataLoader :=
  match docs with
  | [] => ret self
  | (text, title, category) :: rest =>
    self' <- add_document self text title [] category (lit "manual") ;;
    add_each self' rest
  end.

Definition add_sample_data (self : DataLoader) : M DataLoader :=
  self' <- add_each self sample_documents ;;
  logger INFO (lit "✓ " ++ str_of_Z (Z.of_nat (List.length sample_documents))
               ++ lit " documents d'exemple ajoutés") ;;
  ret self'.

(** [files[path] = state] *)
Definition put_file (path : str) (state : FileState) : M unit :=
  fun w =>
    (Ok tt, set_files w (fun p => if str_eqb p path then state else files w p)).

(** Creating the directory, opening the file for writing and
    [json.dump]: when the first two raise nothing is written; when the
    third raises the file is left truncated. *)
Definition write_json (path : str) (docs : list Document) : M unit :=
  w <- get_world ;;
  match write_refused w path with
  | Some e => raise e
  | None =>
    match write_interrupted w path docs with
    | Some (e, truncated) => put_file path truncated ;; raise e
    | None => put_file path (JsonDocuments docs)
    end
  end.

Definition save_corpus (self : DataLoader) : M unit :=
  write_json (corpus_path self) (dl_documents self) ;;
  logger INFO (lit "Corpus sauvegardé: "
               ++ str_of_Z (Z.of_nat (List.length (dl_documents self)))
               ++ lit " documents").

Record Statistics := {
  total_documents : Z;
  total_characters : Z;
  total_words : Z;
  average_doc_length : Z;
  categories : list (str * Z);
  sources : Z
}.

(** [sum(...)] of integers *)
Definition sum (xs : list Z) : Z := fold_left Z.add xs 0%Z.

(** [categories[category] = categories.get(category, 0) + 1] *)
Fixpoint count_category (category : str) (categories : list (str * Z))
    : list (str * Z) :=
  match categories with
  | [] => [(category, (0 + 1)%Z)]
  | (k, n) :: rest =>
    if str_eqb k category then (k, (n + 1)%Z) :: rest
    else (k, n) :: count_category category rest
  end.

Definition category_of (doc : Document) : str :=
  dict_get (lit "category")
    (match doc_metadata doc with Some m => m | None => [] end)
    (lit "unknown").

Definition get_statistics (self : DataLoader) : result Statistics :=
  let total_docs := Z.of_nat (List.length (dl_documents self)) in
  let total_chars := sum (map (fun doc => len (doc_text doc)) (dl_documents self)) in
  let total_words :=
    sum (map (fun doc => Z.of_nat (List.length (split (doc_text doc))))
             (dl_documents self)) in
  let categories :=
    fold_left (fun categories doc => count_category (category_of doc) categories)
              (dl_documents self) [] in
  let? average :=
    (if (0 <? total_docs)%Z then floordiv total_chars total_docs else Ok 0%Z) in
  Ok {| total_documents := total_docs;
        total_characters := total_chars;
        total_words := total_words;
        average_doc_length := average;
        categories := categories;
        sources := Z.of_nat (List.length (dl_sources self)) |}.

End DataLoaderM.

(** ** main.py *)

Module ChatRequest.
Record t := {
  query : str;
  top_k : option Z
}.
End ChatRequest.

Module ChatResponse.
Record t := {
  response : str;
  message : str;
  sources : list jobject;
  context_used : bool;
  query : str;
  num_sources : Z
}.
End ChatResponse.

Module InitResponse.
Record t := {
  status : str;
  documents_loaded : Z;
  message : str
}.
End InitResponse.

Section Main.

Context `{Unicode}.

(** The loop over [sources]: [results] is the list built so far. *)
Fixpoint scan_sources (words : list str) (sources : list str)
    (max_results : Z) (results : list str) : list str :=
  match sources with
  | [] => results
  | line :: rest =>
    let lw := lower line in
    if existsb (fun w => contains w lw) words then
      let results := results ++ [line] in
      if (max_results <=? Z.of_nat (List.length results))%Z then results
      else scan_sources words rest max_results results
    else scan_sources words rest max_results results
  end.

Definition find_relevant_snippets (query : str) (sources : list str)
    (max_results : Z) : list str :=
  let words := map lower (findall_words query) in
  scan_sources words sources max_results [].

(** [request.top_k or 5] *)
Definition top_k_or_5 (top_k : option Z) : Z :=
  match top_k with
  | None => 5
  | Some k => if (k =? 0)%Z then 5 else k
  end.

(** The variables [response_text], [sources], [context_used] and
    [num_sources] of the handler. *)
Record Answer := {
  response_text : str;
  a_sources : list jobject;
  a_context_used : bool;
  a_num_sources : Z
}.

(** "Fallback : recherche simple dans app.state.sources" *)
Definition keyword_fallback (query : str) (top_k : option Z) : M Answer :=
  w <- get_world ;;
  let sources_lines := match app_sources w with Some l => l | None => [] end in
  let snippets := find_relevant_snippets query sources_lines (top_k_or_5 top_k) in
  match snippets with
  | _ :: _ =>
    ret {| response_text :=
             lit "Informations trouvées :" ++ [NL; NL] ++ join [NL] snippets;
           a_sources := map (fun s => [(lit "text", JStr s)]) snippets;
           a_context_used := false;
           a_num_sources := Z.of_nat (List.length snippets) |}
  | [] =>
    ret {| response_text :=
             lit "Désolé, je n'ai pas trouvé d'information précise dans mes sources pour votre question."
             ++ [NL]
             ++ lit "Essayez de reformuler avec des mots-clés (ex: 'Banfora', 'FESPACO', 'hébergement Ouagadougou').";
           a_sources := [];
           a_context_used := false;
           a_num_sources := 0 |}
  end.

(** The delegation to [rag_system.chat]: [None] stands for
    [rag_fallback = True]. *)
Definition delegate (query : str) : M (option Answer) :=
  w <- get_world ;;
  match rag_system w with
  | Some rag =>
    try_except
      (result <- rag_chat rag query ;;
       ret (Some {|
         response_text := cr_response result;
         a_sources := cr_sources result;
         a_context_used := cr_context_used result;
         a_num_sources :=
           match cr_num_sources result with
           | Some n => n
           | None => Z.of_nat (List.length (cr_sources result))
           end |}))
      (fun e => Some (
         logger ERROR (lit "Erreur RAG, bascule vers recherche locale: "
                       ++ exn_str e) ;;
         ret None))
  | None => ret None
  end.

(** [POST /api/chat] *)
Definition chat (request : ChatRequest.t) : M ChatResponse.t :=
  try_except
    ((if negb (truthy (ChatRequest.query request))
         || (len (strip (ChatRequest.query request)) =? 0)%Z
      then raise (HTTPException 400 (lit "La requête ne peut pas être vide"))
      else ret tt) ;;
     let query := strip (ChatRequest.query request) in
     delegated <- delegate query ;;
     answer <-
       match delegated with
       | Some a => ret a
       | None => keyword_fallback query (ChatRequest.top_k request)
       end ;;
     ret {| ChatResponse.response := response_text answer;
            ChatResponse.message := response_text answer;
            ChatResponse.sources := a_sources answer;
            ChatResponse.context_used := a_context_used answer;
            ChatResponse.query := query;
            ChatResponse.num_sources := a_num_sources answer |})
    (fun e =>
       if is_http e then None
       else Some (
         logger ERROR (lit "Erreur lors du traitement de la requête: "
                       ++ exn_str e) ;;
         raise (HTTPException 500 (lit "Erreur lors du traitement de la requête")))).

Definition put_data_loader (d : DataLoader) : M unit :=
  fun w => (Ok tt, set_data_loader w (Some d)).

(** [POST /api/init]; the methods of the global [data_loader] change the
    object in place. *)
Definition initialize_corpus : M InitResponse.t :=
  w <- get_world ;;
  match rag_system w, data_loader w with
  | Some rag, Some loader =>
    try_except
      (clear_database rag ;;
       loader <- DataLoaderM.add_sample_data loader ;;
       put_data_loader loader ;;
       DataLoaderM.save_corpus loader ;;
       load_corpus rag Config.CORPUS_PATH ;;
       stats <- lift (DataLoaderM.get_statistics loader) ;;
       ret {| InitResponse.status := lit "success";
              InitResponse.documents_loaded := DataLoaderM.total_documents stats;
              InitResponse.message :=
                lit "Corpus initialisé avec "
                ++ str_of_Z (DataLoaderM.total_documents stats)
                ++ lit " documents" |})
      (fun e => Some (
         logger ERROR (lit "Erreur lors de l'initialisation: " ++ exn_str e) ;;
         raise (HTTPException 500 (lit "Erreur lors de l'initialisation du corpus"))))
  | _, _ => raise (HTTPException 503 (lit "Le système n'est pas initialisé"))
  end.

End Main.

(** ** main.py: the startup handler *)

(** [DATA_FILE], relative to the project directory. *)
Definition DATA_FILE : str := lit "data/sources.txt".

Definition set_app_sources (w : World) (l : option (list str)) : World :=
  {| rag_system := rag_system w; data_loader := data_loader w;
     app_sources := l; collection := collection w;
     files := files w; write_refused := write_refused w;
     write_interrupted := write_interrupted w;
     now_isoformat := now_isoformat w; log := log w |}.

(** The lines kept from the text of the sources file. *)
Definition source_lines (text : str) : list str :=
  map strip (filter (fun line => truthy (strip line)) (splitlines text)).

(** [startup_event]; [read_text] is what [DATA_FILE.read_text] gives. *)
Definition startup_event (read_text : str -> result str) : M unit :=
  logger INFO (lit "Startup: initialisation des sources.") ;;
  sources <-
    try_except
      (text <- lift (read_text DATA_FILE) ;;
       let sources := source_lines text in
       logger INFO (str_of_Z (Z.of_nat (List.length sources))
                    ++ lit " lignes de sources chargées depuis " ++ DATA_FILE) ;;
       ret sources)
      (fun e => Some (
         logger ERROR (lit "Impossible de lire le fichier de sources, démarrage sans sources.") ;;
         ret [])) ;;
  fun w => (Ok tt, set_app_sources w (Some sources)).

(** ** chat_service.py *)

Module ChatServiceM.

(** The attributes of a [ChatService] object; [model] is the
    text-generation pipeline, called with [max_length] and
    [num_return_sequences]. *)
Record ChatService := {
  context : str;
  conversation_history : list str;
  model : str -> Z -> Z -> result (list dict)
}.

(** [self.conversation_history[-3:]] *)
Definition last_three (history : list str) : list str :=
  skipn (List.length history - 3) history.

(** The prompt [full_context]. *)
Definition full_context (self : ChatService) (user_message : str) : str :=
  (context self ++ [NL] ++ lit "Historique:" ++ [NL])
  ++ flat_map (fun msg => msg ++ [NL]) (last_three (conversation_history self))
  ++ (lit "User: " ++ user_message ++ [NL] ++ lit "Assistant:").

(** [get_response]: the answer and the service after the call; when the
    call raises, the service is as it was. *)
Definition get_response (self : ChatService) (user_message : str)
    : result (str * ChatService) :=
  let? output := model self (full_context self user_message) 150 1 in
  let? response := generated_text output in
  let assistant_response :=
    strip (last (split_sep (lit "Assistant:") response) []) in
  Ok (assistant_response,
      {| context := context self;
         conversation_history :=
           conversation_history self
           ++ [lit "User: " ++ user_message;
               lit "Assistant: " ++ assistant_response];
         model := model self |}).

End ChatServiceM.

(** ** Vocabulary of the statements *)

(** [doc.get("similarity", 0)] *)
Definition similarity_of (d : RetrievedDoc) : Q :=
  match r_similarity d with Some s => s | None => 0%Q end.

(** The distance the retrieval loop reads for row [i] of an answer of the
    vector index. *)
Definition distance_at (results : QueryResult) (i : nat) : result Q :=
  if distances_truthy results
  then let? d0 := getitem_opt (distances results) 0 in getitem d0 i
  else Ok 0%Q.

(** Row [i] of the answer of the vector index, in the shape of a match:
    the raw nearest neighbour number [i]. *)
Definition neighbor (results : QueryResult) (i : nat) : result RetrievedDoc :=
  let? row := getitem (ids results) 0 in
  let? doc_id := getitem row i in
  let? distance := distance_at results i in
  let? t0 := getitem_opt (documents results) 0 in
  let? text := getitem t0 i in
  let? m0 := getitem_opt (metadatas results) 0 in
  let? metadata := getitem m0 i in
  Ok {| r_id := doc_id; r_text := text; r_metadata := Some metadata;
        r_similarity := Some (1 - distance)%Q |}.

(** [docs] are the raw neighbours at the positions [idxs], which increase:
    an order-preserving subsequence of the answer of the index. *)
Definition kept_rows (results : QueryResult) (docs : list RetrievedDoc)
    (idxs : list nat) : Prop :=
  StronglySorted lt idxs /\
  Forall2 (fun d j => neighbor results j = Ok d) docs idxs.

(** The neighbours the index answered with for the query: the first row
    of ids, none when there is no row. *)
Definition first_row (results : QueryResult) : list str :=
  match ids results with
  | row :: _ => row
  | [] => []
  end.

(** The index answered by ascending distance. *)
Definition ascending_distances (results : QueryResult) : Prop :=
  match distances results with
  | Some (row :: _) => Sorted Qle row
  | _ => True
  end.

(** The record [retrieve_documents] logs. *)
Definition retrieved_log (docs : list RetrievedDoc) (k : Z) : level * str :=
  (INFO, lit "Documents récupérés: " ++ str_of_Z (Z.of_nat (List.length docs))
         ++ lit "/" ++ str_of_Z k).

(** The record [_generate_with_llm] logs when the generation raised. *)
Definition llm_error_log (e : exn) : level * str :=
  (ERROR, lit "Erreur lors de la génération LLM: " ++ exn_str e).

(** What [open] raises for a path under which there is nothing. *)
Definition no_such_file (path : str) : exn :=
  Error FileNotFoundError
    (lit "[Errno 2] No such file or directory: '" ++ path ++ lit "'").

(** The two classes [load_corpus] names in its [except] clauses. *)
Definition tolerated (e : exn) : bool :=
  is_error FileNotFoundError e || is_error JSONDecodeError e.

(** The errors of [POST /api/init]. *)
Definition init_error : exn :=
  HTTPException 500 (lit "Erreur lors de l'initialisation du corpus").

Definition not_initialized : exn :=
  HTTPException 503 (lit "Le système n'est pas initialisé").

(** The record [POST /api/init] logs before it answers 500. *)
Definition init_error_log (e : exn) : level * str :=
  (ERROR, lit "Erreur lors de l'initialisation: " ++ exn_str e).

(** The records [load_corpus] logs for a missing and for a malformed file. *)
Definition not_found_log (path : str) : level * str :=
  (WARNING, lit "Corpus non trouvé à " ++ path).

Definition decode_error_log (path : str) : level * str :=
  (ERROR, lit "Erreur de décodage JSON dans " ++ path).

(** The answers of the last tier: the trigger responses and the
    "no information" message. *)
Definition fixed_responses : list str :=
  map snd general_responses ++ [NO_INFORMATION].

(** The same system with no generation pipeline loaded. *)
Definition without_llm (self : RAGSystem) : RAGSystem := {|
  encode := encode self;
  collection_query := collection_query self;
  collection_add := collection_add self;
  delete_collection := delete_collection self;
  create_collection := create_collection self;
  llm_pipeline := None
|}.

(** A query made of whitespace only (the empty query included). *)
Definition blank (s : str) : bool := forallb isspace s.

(** A computation that changes nothing of the world but the log. *)
Definition logs_only {A} (c : M A) : Prop :=
  forall w, set_log (snd (c w)) [] = set_log w [].

Section Vocabulary.

Context `{Unicode}.

(** A line is selected when it contains one of the words. *)
Definition selected (words : list str) (line : str) : bool :=
  existsb (fun w => contains w (lower line)) words.

(** The lines kept at startup, none when there are none. *)
Definition stored_lines (w : World) : list str :=
  match app_sources w with Some l => l | None => [] end.

(** How many matched lines a request is answered with: [top_k] of them,
    5 when [top_k] is unset or 0, and 1 when it is negative. *)
Definition line_limit (top_k : option Z) : nat :=
  match top_k with
  | None => 5
  | Some 0%Z => 5
  | Some (Z.pos k) => Pos.to_nat k
  | Some (Z.neg _) => 1
  end.

(** The matched lines of a request: the stored lines that contain, in
    lowercase, a lowercased word of three word characters or more of the
    stripped query, in stored order, cut after the first [line_limit]. *)
Definition matched_lines (w : World) (request : ChatRequest.t) : list str :=
  firstn (line_limit (ChatRequest.top_k request))
    (filter (selected (map lower
                         (findall_words (strip (ChatRequest.query request)))))
            (stored_lines w)).

(** The chat request is served without the RAG pipeline: there is no
    system, or its [chat] raised. *)
Definition degraded (w : World) (query : str) : Prop :=
  rag_system w = None \/
  exists rag e, rag_system w = Some rag /\ fst (rag_chat rag query w) = Raise e.

End Vocabulary.

(** ** Vocabulary of the further statements *)

(** The matches built from the rows of an answer of the index: ids,
    similarities, texts and metadata, position by position. *)
Fixpoint matches_of (row : list str) (sims : list Q) (ts : list str)
    (ms : list dict) : list RetrievedDoc :=
  match row, sims, ts, ms with
  | i :: row', s :: sims', t :: ts', m :: ms' =>
    {| r_id := i; r_text := t; r_metadata := Some m; r_similarity := Some s |}
    :: matches_of row' sims' ts' ms'
  | _, _, _, _ => []
  end.

(** The test of the retrieval loop, on a match. *)
Definition passes (d : RetrievedDoc) : bool :=
  Qle_bool (Config.similarity_threshold Config.RAG_CONFIG) (similarity_of d).

(** A cited source carries a similarity that is at least the threshold. *)
Definition source_similarity_ok (o : jobject) : Prop :=
  exists s, In (lit "similarity", JNum s) o /\
            (Config.similarity_threshold Config.RAG_CONFIG <= s)%Q.

(** The records [RAGSystem.chat] logs. *)
Definition processing_log (query : str) : level * str :=
  (INFO, lit "Traitement de la requête: " ++ query).

Definition generated_log (n : nat) : level * str :=
  (INFO, lit "Réponse générée avec " ++ str_of_Z (Z.of_nat n) ++ lit " sources").

(** The record the chat endpoint logs when the pipeline raised. *)
Definition rag_error_log (e : exn) : level * str :=
  (ERROR, lit "Erreur RAG, bascule vers recherche locale: " ++ exn_str e).

(** The variables of the chat endpoint read from the result of the
    pipeline, and the response built from them. *)
Definition answer_of (r : ChatResult) : Answer := {|
  response_text := cr_response r;
  a_sources := cr_sources r;
  a_context_used := cr_context_used r;
  a_num_sources :=
    match cr_num_sources r with
    | Some n => n
    | None => Z.of_nat (List.length (cr_sources r))
    end
|}.

Definition response_of (query : str) (a : Answer) : ChatResponse.t := {|
  ChatResponse.response := response_text a;
  ChatResponse.message := response_text a;
  ChatResponse.sources := a_sources a;
  ChatResponse.context_used := a_context_used a;
  ChatResponse.query := query;
  ChatResponse.num_sources := a_num_sources a
|}.

(** A key that neither starts nor ends with whitespace. *)
Definition edges_nonspace (k : str) : bool :=
  match k, rev k with
  | c :: _, d :: _ => negb (isspace c) && negb (isspace d)
  | _, _ => false
  end.

(** The test of [add_document] on the cleaned text. *)
Definition long_enough (text : str) : bool :=
  negb (len (DataLoaderM.clean_text text) <? 50)%Z.

(** What [add_document] appends to [n] documents for a text that is long
    enough once cleaned. *)
Definition new_document (n : nat) (now text title url category source_type : str)
    : Document := {|
  doc_id := lit "doc_" ++ str_of_Z (Z.of_nat n + 1);
  doc_text := DataLoaderM.clean_text text;
  doc_metadata := Some
    [ (lit "title", title); (lit "url", url); (lit "category", category);
      (lit "source_type", source_type); (lit "added_date", now) ]
|}.

(** A computation that changes nothing of the world but the collection and
    the log. *)
Definition index_only {A} (c : M A) : Prop :=
  forall w, set_log (set_collection (snd (c w)) Deleted) []
            = set_log (set_collection w Deleted) [].

(** ** Concrete systems and worlds *)

Module Demo.

Definition doc_1 : str := lit "Ouagadougou est la capitale du Burkina Faso.".
Definition doc_8 : str :=
  lit "Banfora est une ville pittoresque dans la région des Cascades.".
Definition doc_3 : str :=
  lit "La Cascade de Karfiguéla est l'une des plus belles cascades du Burkina Faso.".

Definition metadata_of (title : str) : dict :=
  [(lit "title", title); (lit "category", lit "tourisme")].

(** An answer of the index with three neighbours, by ascending distance. *)
Definition neighbours : QueryResult := {|
  ids := [[lit "doc_1"; lit "doc_8"; lit "doc_3"]];
  distances := Some [[1 # 10; 1 # 2; 9 # 10]];
  documents := Some [[doc_1; doc_8; doc_3]];
  metadatas := Some [[metadata_of (lit "Ouagadougou");
                      metadata_of (lit "Banfora");
                      metadata_of (lit "Karfiguéla")]]
|}.

(** The two neighbours above the threshold 0.3. *)
Definition matches : list RetrievedDoc :=
  [ {| r_id := lit "doc_1"; r_text := doc_1;
       r_metadata := Some (metadata_of (lit "Ouagadougou"));
       r_similarity := Some (1 - (1 # 10))%Q |};
    {| r_id := lit "doc_8"; r_text := doc_8;
       r_metadata := Some (metadata_of (lit "Banfora"));
       r_similarity := Some (1 - (1 # 2))%Q |} ].

Fixpoint entries_of (ids : list str) (embeddings : list embedding)
    (metadatas : list dict) (texts : list str) : list Entry :=
  match ids, embeddings, metadatas, texts with
  | i :: ids', e :: embeddings', m :: metadatas', t :: texts' =>
    {| e_id := i; e_embedding := e; e_metadata := m; e_document := t |}
    :: entries_of ids' embeddings' metadatas' texts'
  | _, _, _, _ => []
  end.

Definition stored : list Entry :=
  entries_of [lit "doc_1"; lit "doc_8"; lit "doc_3"]
    [[1; 0]%Q; [0; 1]%Q; [1; 1]%Q]
    [metadata_of (lit "Ouagadougou"); metadata_of (lit "Banfora");
     metadata_of (lit "Karfiguéla")]
    [doc_1; doc_8; doc_3].

(** The strings and the dicts of strings among JSON values. *)
Definition strings_of (values : list json) : list str :=
  flat_map (fun v => match v with JString s => [s] | _ => [] end) values.

Definition dict_of (v : json) : dict :=
  match v with
  | JObject members =>
    flat_map (fun kv => match snd kv with
                        | JString s => [(fst kv, s)]
                        | _ => []
                        end) members
  | _ => []
  end.

Definition no_collection : exn :=
  Error ValueError (lit "Collection burkina_tourisme does not exist.").

(** A system with no generation pipeline. *)
Definition rag : RAGSystem := {|
  encode := fun values => Ok (map (fun _ => [1; 0]%Q) values);
  collection_query := fun _ _ _ => Ok neighbours;
  collection_add := fun stored ids embeddings metadatas texts =>
    match stored with
    | Live entries =>
      Ok (Live (entries ++ entries_of (strings_of ids) embeddings
                             (map dict_of metadatas) (strings_of texts)))
    | Deleted => Raise no_collection
    end;
  delete_collection := fun stored =>
    match stored with
    | Live _ => Ok tt
    | Deleted => Raise no_collection
    end;
  create_collection := Ok (Live []);
  llm_pipeline := None
|}.

(** The same over an index that refuses a request for no neighbour or
    fewer, with the error of ChromaDB. *)
Definition rag_strict : RAGSystem := {|
  encode := encode rag;
  collection_query := fun _ _ k =>
    if (k <=? 0)%Z
    then Raise (Error TypeError
                  (lit "Number of requested results " ++ str_of_Z k
                   ++ lit ", cannot be negative, or zero."))
    else Ok neighbours;
  collection_add := collection_add rag;
  delete_collection := delete_collection rag;
  create_collection := create_collection rag;
  llm_pipeline := None
|}.

(** The same with a pipeline that raises. *)
Definition failing_pipeline : str -> GenerationArgs -> result (list dict) :=
  fun _ _ => Raise (Error RuntimeError (lit "CUDA out of memory")).

Definition rag_failing_llm : RAGSystem := {|
  encode := encode rag;
  collection_query := collection_query rag;
  collection_add := collection_add rag;
  delete_collection := delete_collection rag;
  create_collection := create_collection rag;
  llm_pipeline := Some failing_pipeline
|}.

(** The same with a pipeline that continues the prompt. *)
Definition continuing_pipeline : str -> GenerationArgs -> result (list dict) :=
  fun prompt _ =>
    Ok [[(lit "generated_text", prompt ++ lit " Ouagadougou est une ville.")]].

Definition rag_llm : RAGSystem := {|
  encode := encode rag;
  collection_query := collection_query rag;
  collection_add := collection_add rag;
  delete_collection := delete_collection rag;
  create_collection := create_collection rag;
  llm_pipeline := Some continuing_pipeline
|}.

Definition lines : list str :=
  [lit "Festival FESPACO à Ouagadougou"; lit "Cascade de Banfora"].

(** A process with the system loaded; the loader keeps its corpus under
    another path and nothing is stored under [CORPUS_PATH]. *)
Definition world : World := {|
  rag_system := Some rag;
  data_loader := Some {| corpus_path := lit "data/backup.json";
                         dl_documents := []; dl_sources := [] |};
  app_sources := Some lines;
  collection := Live stored;
  files := fun path => Unreadable (no_such_file path);
  write_refused := fun _ => None;
  write_interrupted := fun _ _ => None;
  now_isoformat := lit "2025-01-01T00:00:00";
  log := []
|}.

(** A process whose globals were never set. *)
Definition offline : World := {|
  rag_system := None;
  data_loader := None;
  app_sources := Some lines;
  collection := Live [];
  files := fun path => Unreadable (no_such_file path);
  write_refused := fun _ => None;
  write_interrupted := fun _ _ => None;
  now_isoformat := lit "2025-01-01T00:00:00";
  log := []
|}.

(** A system whose index cannot be reached, and a process that runs it. *)
Definition rag_unreachable : RAGSystem := {|
  encode := encode rag;
  collection_query := fun _ _ _ =>
    Raise (Error RuntimeError (lit "index unreachable"));
  collection_add := collection_add rag;
  delete_collection := delete_collection rag;
  create_collection := create_collection rag;
  llm_pipeline := None
|}.

Definition world_unreachable : World := {|
  rag_system := Some rag_unreachable;
  data_loader := None;
  app_sources := Some lines;
  collection := Live stored;
  files := fun path => Unreadable (no_such_file path);
  write_refused := fun _ => None;
  write_interrupted := fun _ _ => None;
  now_isoformat := lit "2025-01-01T00:00:00";
  log := []
|}.

(** The answer of an index that has no neighbour to give. *)
Definition no_neighbours : QueryResult :=
  {| ids := [[]]; distances := Some [[]]; documents := Some [[]];
     metadatas := Some [[]] |}.

(** A system over an empty collection, with no generation pipeline. *)
Definition rag_empty : RAGSystem := {|
  encode := encode rag;
  collection_query := fun _ _ _ => Ok no_neighbours;
  collection_add := collection_add rag;
  delete_collection := delete_collection rag;
  create_collection := create_collection rag;
  llm_pipeline := None
|}.

Definition blank_request : ChatRequest.t :=
  {| ChatRequest.query := [32; 9; 10; 0xA0]%N; ChatRequest.top_k := Some 5%Z |}.

Definition banfora_request : ChatRequest.t :=
  {| ChatRequest.query := lit " banfora cascade ";
     ChatRequest.top_k := Some 5%Z |}.

Definition one_match : RetrievedDoc :=
  {| r_id := lit "doc_1"; r_text := doc_1;
     r_metadata := Some (metadata_of (lit "Ouagadougou"));
     r_similarity := Some (9 # 10) |}.

(** An answer of the index with an empty list of distances. *)
Definition neighbours_without_distances : QueryResult := {|
  ids := [[lit "doc_1"; lit "doc_8"; lit "doc_3"]];
  distances := Some [];
  documents := Some [[doc_1; doc_8; doc_3]];
  metadatas := Some [[metadata_of (lit "Ouagadougou");
                      metadata_of (lit "Banfora");
                      metadata_of (lit "Karfiguéla")]]
|}.

Definition rag_without_distances : RAGSystem := {|
  encode := encode rag;
  collection_query := fun _ _ _ => Ok neighbours_without_distances;
  collection_add := collection_add rag;
  delete_collection := delete_collection rag;
  create_collection := create_collection rag;
  llm_pipeline := None
|}.

Definition capital_request : ChatRequest.t :=
  {| ChatRequest.query := lit "Quelle est la capitale?";
     ChatRequest.top_k := Some 1%Z |}.

(** A chat service whose model continues the prompt. *)
Definition echo_model : str -> Z -> Z -> result (list dict) :=
  fun prompt _ _ => Ok [[(lit "generated_text", prompt ++ lit " Bienvenue! ")]].

Definition older_messages : list str :=
  [lit "User: Bonjour"; lit "Assistant: Bonjour!"].

Definition recent_messages : list str :=
  [lit "User: Et Banfora?"; lit "Assistant: Une ville."; lit "User: Merci"].

(** A system whose collection refuses what it is given, and a process
    with a corpus file for it. *)
Definition duplicate_ids : exn :=
  Error ValueError (lit "Expected IDs to be unique").

Definition rag_rejecting : RAGSystem := {|
  encode := encode rag;
  collection_query := collection_query rag;
  collection_add := fun _ _ _ _ _ => Raise duplicate_ids;
  delete_collection := delete_collection rag;
  create_collection := create_collection rag;
  llm_pipeline := None
|}.

Definition world_with_corpus : World := {|
  rag_system := Some rag_rejecting;
  data_loader := None;
  app_sources := None;
  collection := Live stored;
  files := fun _ =>
    JsonDocuments [{| doc_id := lit "doc_1"; doc_text := doc_1;
                      doc_metadata := None |}];
  write_refused := fun _ => None;
  write_interrupted := fun _ _ => None;
  now_isoformat := lit "2025-01-01T00:00:00";
  log := []
|}.

(** The demonstration process with [state] under [CORPUS_PATH]. *)
Definition world_with_file (state : FileState) : World := {|
  rag_system := Some rag;
  data_loader := Some {| corpus_path := lit "data/backup.json";
                         dl_documents := []; dl_sources := [] |};
  app_sources := Some lines;
  collection := Live stored;
  files := fun path =>
    if str_eqb path Config.CORPUS_PATH then state
    else Unreadable (no_such_file path);
  write_refused := fun _ => None;
  write_interrupted := fun _ _ => None;
  now_isoformat := lit "2025-01-01T00:00:00";
  log := []
|}.

End Demo.

(** * Properties *)

(** ** Retrieval *)

Section Retrieval.

Variable self : RAGSystem.

Lemma skipn_cons_nth {A} (l : list A) : forall i x rest,
  x :: rest = skipn i l -> nth_error l i = Some x /\ rest = skipn (S i) l.
Proof.
  induction l as [|a l IH]; intros i x rest E.
  - destruct i; discriminate.
  - destruct i as [|i]; simpl in *.
    + injection E as -> ->. split; reflexivity.
    + apply IH in E. destruct E as [E1 E2]. split; [exact E1|].
      destruct l; exact E2.
Qed.

(** One pass of the loop keeps, in order, rows that pass the threshold. *)
Lemma format_results_from_spec results row0 others :
  ids results = row0 :: others ->
  forall row i acc docs,
    row = skipn i row0 ->
    format_results_from results i row acc = Ok docs ->
    exists kept idxs,
      docs = acc ++ kept /\
      Forall2 (fun d j =>
                 neighbor results j = Ok d /\
                 (Config.similarity_threshold Config.RAG_CONFIG
                  <= similarity_of d)%Q) kept idxs /\
      StronglySorted lt idxs /\ Forall (fun j => (i <= j)%nat) idxs.
Proof.
  intros Hids row. induction row as [|doc_id rest IH]; intros i acc docs Hrow Hrun.
  - simpl in Hrun. injection Hrun as <-. exists [], []. rewrite app_nil_r.
    repeat split; constructor.
  - apply skipn_cons_nth in Hrow. destruct Hrow as [Hnth Hrest].
    cbn [format_results_from] in Hrun. fold (distance_at results i) in Hrun.
    assert (Hn : neighbor results i =
      (let? distance := distance_at results i in
       let? t0 := getitem_opt (documents results) 0 in
       let? text := getitem t0 i in
       let? m0 := getitem_opt (metadatas results) 0 in
       let? metadata := getitem m0 i in
       Ok {| r_id := doc_id; r_text := text; r_metadata := Some metadata;
             r_similarity := Some (1 - distance)%Q |})).
    { unfold neighbor. rewrite Hids. cbn [getitem nth_error rbind].
      unfold getitem at 1. rewrite Hnth. reflexivity. }
    destruct (distance_at results i) as [distance|e]; [|discriminate].
    cbn [rbind] in Hrun, Hn.
    destruct (Qle_bool (Config.similarity_threshold Config.RAG_CONFIG)
                       (1 - distance)) eqn:Hthr.
    + destruct (getitem_opt (documents results) 0) as [t0|]; [|discriminate].
      cbn [rbind] in Hrun, Hn.
      destruct (getitem t0 i) as [text|]; [|discriminate].
      cbn [rbind] in Hrun, Hn.
      destruct (getitem_opt (metadatas results) 0) as [m0|]; [|discriminate].
      cbn [rbind] in Hrun, Hn.
      destruct (getitem m0 i) as [metadata|]; [|discriminate].
      cbn [rbind] in Hrun, Hn.
      apply IH in Hrun; [|exact Hrest].
      destruct Hrun as (kept & idxs & -> & Hall & Hsorted & Hge).
      eexists (_ :: kept), (i :: idxs). rewrite <- app_assoc.
      split; [reflexivity|]. split; [|split].
      * constructor; [|exact Hall]. split; [exact Hn|].
        apply Qle_bool_iff in Hthr. exact Hthr.
      * constructor; [exact Hsorted|].
        eapply Forall_impl; [|exact Hge]. intros j Hj. exact Hj.
      * constructor; [lia|].
        eapply Forall_impl; [|exact Hge]. intros j Hj; simpl in Hj; lia.
    + apply IH in Hrun; [|exact Hrest].
      destruct Hrun as (kept & idxs & -> & Hall & Hsorted & Hge).
      exists kept, idxs. repeat split; try assumption.
      eapply Forall_impl; [|exact Hge]. intros j Hj; simpl in Hj; lia.
Qed.

Lemma format_results_spec results docs :
  format_results results = Ok docs ->
  Forall (fun d => (Config.similarity_threshold Config.RAG_CONFIG
                    <= similarity_of d)%Q) docs /\
  exists idxs, kept_rows results docs idxs.
Proof.
  unfold format_results. destruct (ids results) as [|row0 others] eqn:Hids.
  - intros [= <-]. split; [constructor|]. exists []. split; constructor.
  - intros Hrun.
    apply (format_results_from_spec results row0 others Hids row0 0) in Hrun;
      [|reflexivity].
    destruct Hrun as (kept & idxs & -> & Hall & Hsorted & _). simpl.
    split.
    + clear Hsorted. induction Hall as [|d j kept idxs [_ Hd] _ IH];
        constructor; assumption.
    + exists idxs. split; [exact Hsorted|].
      clear Hsorted. induction Hall as [|d j kept idxs [Hd _] _ IH];
        constructor; assumption.
Qed.

(** The loop never builds more matches than there are rows. *)
Lemma format_results_from_length results : forall row i acc docs,
  format_results_from results i row acc = Ok docs ->
  (List.length docs <= List.length acc + List.length row)%nat.
Proof.
  induction row as [|doc_id rest IH]; intros i acc docs Hrun.
  - injection Hrun as <-. simpl. lia.
  - cbn [format_results_from] in Hrun.
    destruct (if distances_truthy results then _ else _) as [distance|];
      [|discriminate].
    cbn [rbind] in Hrun.
    destruct (Qle_bool _ _).
    + repeat match type of Hrun with
      | rbind ?c _ = _ => destruct c; cbn [rbind] in Hrun; try discriminate
      end.
      apply IH in Hrun. rewrite length_app in Hrun. simpl in *. lia.
    + apply IH in Hrun. simpl. lia.
Qed.

(** [retrieve_documents] step by step: the encoder, the index, the loop,
    one log record. *)
Lemma retrieve_documents_run query top_k w :
  retrieve_documents self query top_k w =
  match embedding_model self [query] with
  | Raise e => (Raise e, w)
  | Ok encoded =>
    match getitem encoded 0 with
    | Raise e => (Raise e, w)
    | Ok emb =>
      match collection_query self (collection w) emb (top_k_or_default top_k) with
      | Raise e => (Raise e, w)
      | Ok results =>
        match format_results results with
        | Raise e => (Raise e, w)
        | Ok docs =>
          (Ok docs,
           set_log w (log w ++ [retrieved_log docs (top_k_or_default top_k)]))
        end
      end
    end
  end.
Proof.
  unfold retrieve_documents, bind, lift, get_collection, logger, ret.
  destruct (embedding_model self [query]) as [encoded|e]; [|reflexivity].
  destruct (getitem encoded 0) as [emb|e]; [|reflexivity].
  destruct (collection_query self (collection w) emb _) as [results|e];
    [|reflexivity].
  destruct (format_results results) as [docs|e]; reflexivity.
Qed.

Lemma retrieve_documents_inv query top_k w w' docs :
  retrieve_documents self query top_k w = (Ok docs, w') ->
  exists encoded emb results,
    embedding_model self [query] = Ok encoded /\
    getitem encoded 0 = Ok emb /\
    collection_query self (collection w) emb (top_k_or_default top_k)
      = Ok results /\
    format_results results = Ok docs.
Proof.
  rewrite retrieve_documents_run.
  destruct (embedding_model self [query]) as [encoded|e]; [|discriminate].
  destruct (getitem encoded 0) as [emb|e] eqn:Hemb; [|discriminate].
  destruct (collection_query self (collection w) emb _) as [results|e] eqn:Hq;
    [|discriminate].
  destruct (format_results results) as [docs'|e] eqn:Hf; [|discriminate].
  intros [= <- _]. exists encoded, emb, results. auto.
Qed.

Lemma neighbor_distance results j d :
  neighbor results j = Ok d ->
  exists dist, distance_at results j = Ok dist /\
               r_similarity d = Some (1 - dist)%Q.
Proof.
  unfold neighbor.
  destruct (getitem (ids results) 0) as [row|]; cbn [rbind]; [|discriminate].
  destruct (getitem row j); cbn [rbind]; [|discriminate].
  destruct (distance_at results j) as [dist|]; cbn [rbind]; [|discriminate].
  repeat match goal with
  | |- context [rbind ?c _] => destruct c; cbn [rbind]; try discriminate
  end.
  intros [= <-]. exists dist. split; reflexivity.
Qed.

(** C1. Every match [retrieve_documents] returns carries a similarity that
    is at least the configured [similarity_threshold], whatever the query
    and [top_k]; no returned match has a similarity below it. *)
Theorem retrieve_documents_threshold query top_k w w' docs :
  retrieve_documents self query top_k w = (Ok docs, w') ->
  Forall (fun d => exists s, r_similarity d = Some s /\
                   (Config.similarity_threshold Config.RAG_CONFIG <= s)%Q) docs
  /\ (forall d s, In d docs -> r_similarity d = Some s ->
      ~ (s < Config.similarity_threshold Config.RAG_CONFIG)%Q).
Proof.
  intros Hrun. apply retrieve_documents_inv in Hrun.
  destruct Hrun as (encoded & emb & results & _ & _ & _ & Hf).
  apply format_results_spec in Hf. destruct Hf as [Hthr [idxs [_ Hrows]]].
  assert (Hall : Forall (fun d => exists s, r_similarity d = Some s /\
                   (Config.similarity_threshold Config.RAG_CONFIG <= s)%Q) docs).
  { clear -Hthr Hrows. induction Hrows as [|d j docs idxs Hd _ IH].
    - constructor.
    - inversion Hthr as [|? ? Hd' Hrest]; subst. constructor; [|auto].
      apply neighbor_distance in Hd. destruct Hd as (dist & _ & Hs).
      exists (1 - dist)%Q. split; [exact Hs|]. unfold similarity_of in Hd'.
      rewrite Hs in Hd'. exact Hd'. }
  split; [exact Hall|].
  intros d s Hin Hs Hlt. rewrite Forall_forall in Hall.
  destruct (Hall d Hin) as [s' [Hs' Hle]]. rewrite Hs in Hs'.
  injection Hs' as <-. apply Qle_not_lt in Hle. contradiction.
Qed.

(** C4, as the code has it. [retrieve_documents] hands [top_k] to the
    index as it is. When the index answers, a list that is returned has no
    more matches than the index gave neighbours, so at most [top_k] when the
    index gave at most that many; and when it gave none, as for an empty
    index, the call returns the empty list, with one record logged. When
    the index raises, as ChromaDB does for a request of 0 neighbours, the
    call raises the same exception and returns no list. *)
Theorem retrieve_documents_length query top_k w emb rest :
  embedding_model self [query] = Ok (emb :: rest) ->
  match collection_query self (collection w) emb (top_k_or_default top_k) with
  | Ok results =>
    (forall docs w',
       retrieve_documents self query top_k w = (Ok docs, w') ->
       (List.length docs <= List.length (first_row results))%nat /\
       ((Z.of_nat (List.length (first_row results)) <= top_k_or_default top_k)%Z
        -> (Z.of_nat (List.length docs) <= top_k_or_default top_k)%Z))
    /\ (first_row results = [] ->
        retrieve_documents self query top_k w
        = (Ok [], set_log w (log w ++ [retrieved_log []
                                         (top_k_or_default top_k)])))
  | Raise e => retrieve_documents self query top_k w = (Raise e, w)
  end.
Proof.
  intros Henc.
  assert (Hrun := retrieve_documents_run query top_k w).
  rewrite Henc in Hrun. cbn [getitem nth_error] in Hrun.
  destruct (collection_query self (collection w) emb _) as [results|e];
    [|exact Hrun].
  assert (Hlen : forall docs, format_results results = Ok docs ->
                 (List.length docs <= List.length (first_row results))%nat).
  { intros docs Hf. unfold format_results in Hf. unfold first_row.
    destruct (ids results) as [|row0 others].
    - injection Hf as <-. simpl. lia.
    - apply format_results_from_length in Hf. simpl in Hf. lia. }
  split.
  - intros docs w' Hdocs. rewrite Hrun in Hdocs.
    destruct (format_results results) as [docs'|e] eqn:Hf; [|discriminate].
    injection Hdocs as <- _. specialize (Hlen docs' eq_refl).
    split; [exact Hlen|lia].
  - intros Hrow. rewrite Hrun. unfold format_results, first_row in *.
    destruct (ids results) as [|row0 others]; [reflexivity|].
    rewrite Hrow. reflexivity.
Qed.

Lemma StronglySorted_nth {A} (R : A -> A -> Prop) (l : list A) :
  StronglySorted R l ->
  forall i j a b, (i < j)%nat ->
    nth_error l i = Some a -> nth_error l j = Some b -> R a b.
Proof.
  induction 1 as [|x l Hl IH Hx]; intros i j a b Hij Hi Hj.
  - destruct i; discriminate.
  - destruct j as [|j]; [lia|]. simpl in Hj. destruct i as [|i].
    + injection Hi as <-. rewrite Forall_forall in Hx. apply Hx.
      eapply nth_error_In; eassumption.
    + simpl in Hi. apply (IH i j); [lia|assumption|assumption].
Qed.

Lemma distance_at_ascending results i j a b :
  ascending_distances results -> (i < j)%nat ->
  distance_at results i = Ok a -> distance_at results j = Ok b ->
  (a <= b)%Q.
Proof.
  unfold ascending_distances, distance_at, distances_truthy.
  destruct (distances results) as [[|row others]|].
  - intros _ _ [= <-] [= <-]. apply Qle_refl.
  - cbn [getitem_opt getitem nth_error rbind]. intros Hs Hij Hi Hj.
    apply Sorted_StronglySorted in Hs; [|intros x y z; apply Qle_trans].
    unfold getitem in Hi, Hj.
    destruct (nth_error row i) as [a'|] eqn:Ei; [|discriminate].
    destruct (nth_error row j) as [b'|] eqn:Ej; [|discriminate].
    injection Hi as <-. injection Hj as <-.
    exact (StronglySorted_nth Qle row Hs i j a' b' Hij Ei Ej).
  - intros _ _ [= <-] [= <-]. apply Qle_refl.
Qed.

(** C5. When the index answers by ascending distance, the list
    [retrieve_documents] returns is sorted by non-increasing similarity,
    and it is an order-preserving subsequence of the raw neighbours: the
    rows of the answer at increasing positions. *)
Theorem retrieve_documents_order query top_k w emb rest results w' docs :
  embedding_model self [query] = Ok (emb :: rest) ->
  collection_query self (collection w) emb (top_k_or_default top_k)
    = Ok results ->
  ascending_distances results ->
  retrieve_documents self query top_k w = (Ok docs, w') ->
  StronglySorted (fun a b => (similarity_of b <= similarity_of a)%Q) docs /\
  exists idxs, kept_rows results docs idxs.
Proof.
  intros Henc Hq Hasc Hrun. rewrite retrieve_documents_run in Hrun.
  rewrite Henc in Hrun. cbn [getitem nth_error] in Hrun. rewrite Hq in Hrun.
  destruct (format_results results) as [docs'|e] eqn:Hf; [|discriminate].
  injection Hrun as <- _. apply format_results_spec in Hf.
  destruct Hf as [_ [idxs [Hsorted Hrows]]].
  split; [|exists idxs; split; assumption].
  revert Hsorted. induction Hrows as [|d j docs idxs Hd Hrows IH]; intros Hsorted.
  - constructor.
  - inversion Hsorted as [|? ? Hs Hlt]; subst. constructor; [auto|].
    clear IH Hsorted Hs. induction Hrows as [|d' j' docs idxs Hd' _ IH'].
    + constructor.
    + inversion Hlt as [|? ? Hjj' Hlt']; subst. constructor; [|auto].
      apply neighbor_distance in Hd, Hd'.
      destruct Hd as (a & Ha & Hsa), Hd' as (b & Hb & Hsb).
      unfold similarity_of. rewrite Hsa, Hsb.
      assert (Hab := distance_at_ascending results j j' a b Hasc Hjj' Ha Hb).
      unfold Qminus. apply Qplus_le_compat; [apply Qle_refl|].
      apply Qopp_le_compat. exact Hab.
Qed.

End Retrieval.

Lemma retrieve_documents_threshold_witness :
  Forall (fun d => exists s, r_similarity d = Some s /\
                   (Config.similarity_threshold Config.RAG_CONFIG <= s)%Q)
         Demo.matches
  /\ (forall d s, In d Demo.matches -> r_similarity d = Some s ->
      ~ (s < Config.similarity_threshold Config.RAG_CONFIG)%Q).
Proof.
  apply (retrieve_documents_threshold Demo.rag (lit "cascades") (Some 3%Z)
           Demo.world
           (snd (retrieve_documents Demo.rag (lit "cascades") (Some 3%Z)
                   Demo.world))).
  reflexivity.
Defined.

Lemma retrieve_documents_length_witness :
  (forall docs w',
     retrieve_documents Demo.rag_empty (lit "cascades") None Demo.offline
       = (Ok docs, w') ->
     (List.length docs <= List.length (first_row Demo.no_neighbours))%nat /\
     ((Z.of_nat (List.length (first_row Demo.no_neighbours))
       <= top_k_or_default None)%Z ->
      (Z.of_nat (List.length docs) <= top_k_or_default None)%Z))
  /\ (first_row Demo.no_neighbours = [] ->
      retrieve_documents Demo.rag_empty (lit "cascades") None Demo.offline
      = (Ok [], set_log Demo.offline
                  (log Demo.offline
                   ++ [retrieved_log [] (top_k_or_default None)]))).
Proof.
  apply (retrieve_documents_length Demo.rag_empty (lit "cascades") None
           Demo.offline [1; 0]%Q []).
  reflexivity.
Defined.

(** An index that refuses a request for no neighbour, as ChromaDB does:
    for [top_k = 0] the call raises and returns no list. *)
Lemma retrieve_documents_zero_refused :
  retrieve_documents Demo.rag_strict (lit "cascades") (Some 0%Z) Demo.world
  = (Raise (Error TypeError
              (lit "Number of requested results 0, cannot be negative, or zero.")),
     Demo.world)
  /\ fst (retrieve_documents Demo.rag_strict (lit "cascades") (Some 0%Z)
            Demo.world) <> Ok [].
Proof. split; [vm_compute; reflexivity|vm_compute; discriminate]. Qed.

(** The same index answers a request for three neighbours, and two of
    them pass the threshold. *)
Lemma retrieve_documents_three :
  fst (retrieve_documents Demo.rag_strict (lit "cascades") (Some 3%Z)
         Demo.world) = Ok Demo.matches.
Proof. vm_compute. reflexivity. Qed.

Lemma retrieve_documents_order_witness :
  StronglySorted (fun a b => (similarity_of b <= similarity_of a)%Q)
                 Demo.matches /\
  exists idxs, kept_rows Demo.neighbours Demo.matches idxs.
Proof.
  apply (retrieve_documents_order Demo.rag (lit "cascades") (Some 3%Z)
           Demo.world [1; 0]%Q [] Demo.neighbours
           (snd (retrieve_documents Demo.rag (lit "cascades") (Some 3%Z)
                   Demo.world))).
  - reflexivity.
  - reflexivity.
  - simpl. repeat constructor; unfold Qle; simpl; lia.
  - reflexivity.
Defined.

(** Over an index that answers every request with no neighbour, a
    request for none included, the call returns the empty list and logs
    one record. *)
Lemma retrieve_documents_empty_index :
  fst (retrieve_documents Demo.rag_empty (lit "cascades") None Demo.offline)
  = Ok []
  /\ fst (retrieve_documents Demo.rag_empty (lit "cascades") (Some 0%Z)
            Demo.offline)
     = Ok []
  /\ List.length
       (log (snd (retrieve_documents Demo.rag_empty (lit "cascades") (Some 0%Z)
                    Demo.offline)))
     = 1%nat.
Proof. repeat split. Qed.

(** ** Answer generation *)

Section Generation.

Context `{Unicode}.

Lemma llm_attempt_world pipeline query context w :
  snd (llm_attempt pipeline query context w) = w.
Proof.
  unfold llm_attempt, bind, lift, ret.
  destruct (pipeline _ _); [|reflexivity].
  destruct (generated_text _); reflexivity.
Qed.

(** The LLM tier: its own text when the attempt returns, the template
    tier and one error record when it raises. *)
Lemma _generate_with_llm_run pipeline query context w :
  _generate_with_llm pipeline query context w =
  match fst (llm_attempt pipeline query context w) with
  | Ok response => (Ok response, w)
  | Raise e => (Ok (_generate_with_template query context),
                set_log w (log w ++ [llm_error_log e]))
  end.
Proof.
  unfold _generate_with_llm, try_except.
  assert (Hw := llm_attempt_world pipeline query context w).
  destruct (llm_attempt pipeline query context w) as [[response|e] w1];
    simpl in Hw; subst w1; reflexivity.
Qed.

Lemma first_trigger_in responses query_lower response :
  first_trigger responses query_lower = Some response ->
  In response (map snd responses).
Proof.
  induction responses as [|[key r] rest IH]; simpl; [discriminate|].
  destruct (contains key query_lower).
  - intros [= <-]. left. reflexivity.
  - intros Hr. right. auto.
Qed.

Lemma _generate_fallback_response_fixed query :
  In (_generate_fallback_response query) fixed_responses.
Proof.
  unfold _generate_fallback_response, fixed_responses.
  destruct (first_trigger general_responses _) as [response|] eqn:Ht.
  - apply in_or_app. left. eapply first_trigger_in. exact Ht.
  - apply in_or_app. right. left. reflexivity.
Qed.

Lemma document_label : lit "Document " = 68%N :: lit "ocument ".
Proof. reflexivity. Qed.

(** The context string is empty exactly when there is no document. *)
Lemma _build_context_nonempty docs :
  docs <> [] <-> _build_context docs <> [].
Proof.
  destruct docs as [|doc rest]; [simpl; tauto|].
  split; [intros _|intros _; discriminate].
  unfold _build_context. cbn [context_parts]. rewrite document_label.
  destruct rest; cbn [context_parts join]; discriminate.
Qed.

(** C2. When the LLM tier raises during [generate_response], the call
    returns normally; its result is the one the system gives with no
    pipeline loaded, its text is the text of the template tier for the same
    query and context, and [context_used] holds exactly when the context is
    not empty. *)
Theorem generate_response_llm_failure self pipeline query context_docs w e :
  llm_pipeline self = Some pipeline ->
  fst (llm_attempt pipeline query (_build_context context_docs) w) = Raise e ->
  exists r w',
    generate_response self query context_docs w = (Ok r, w') /\
    fst (generate_response (without_llm self) query context_docs w) = Ok r /\
    cr_response r
      = _generate_with_template query (_build_context context_docs) /\
    (cr_context_used r = true <-> context_docs <> []) /\
    (context_docs <> [] <-> _build_context context_docs <> []).
Proof.
  intros Hllm Hraise. unfold generate_response. rewrite Hllm.
  cbn [without_llm llm_pipeline]. unfold bind at 1.
  rewrite _generate_with_llm_run, Hraise. unfold bind, ret. cbn [fst].
  eexists. eexists. split; [reflexivity|]. split; [reflexivity|].
  split; [reflexivity|]. split; [|apply _build_context_nonempty].
  cbn [cr_context_used]. destruct context_docs; simpl.
  - split; [discriminate|intros C; contradiction C; reflexivity].
  - split; [discriminate|reflexivity].
Qed.

(** C3, as the code has it. With no context document [generate_response]
    returns with [context_used] false; when no pipeline is loaded, or the
    LLM tier raises, the text is one of the fixed trigger responses or the
    fixed "no information" message. When a pipeline is loaded and its call
    returns a generated text, the response is that text with the prompt
    removed and the surrounding whitespace stripped. *)
Theorem generate_response_without_context self query w :
  exists r w',
    generate_response self query [] w = (Ok r, w') /\
    cr_context_used r = false /\
    (llm_pipeline self = None \/
     (exists pipeline e,
        llm_pipeline self = Some pipeline /\
        fst (llm_attempt pipeline query [] w) = Raise e) ->
     In (cr_response r) fixed_responses) /\
    (forall pipeline output text,
       llm_pipeline self = Some pipeline ->
       pipeline (prompt query []) generation_args = Ok output ->
       generated_text output = Ok text ->
       cr_response r = strip (replace (prompt query []) [] text)).
Proof.
  unfold generate_response. cbn [_build_context].
  destruct (llm_pipeline self) as [pipeline|] eqn:Hllm.
  - unfold bind at 1. rewrite _generate_with_llm_run.
    destruct (fst (llm_attempt pipeline query [] w)) as [response|e] eqn:Hrun.
    + unfold ret. eexists. eexists. split; [reflexivity|].
      split; [reflexivity|]. split.
      * intros [Hnone|(p & e & Hp & He)]; [discriminate|].
        injection Hp as <-. rewrite Hrun in He. discriminate.
      * intros p output text [= <-] Hout Htext. cbn [cr_response].
        unfold llm_attempt, bind, lift, ret in Hrun.
        rewrite Hout, Htext in Hrun. cbn [fst] in Hrun.
        injection Hrun as <-. reflexivity.
    + unfold ret. eexists. eexists. split; [reflexivity|].
      split; [reflexivity|]. split.
      * intros _. cbn [cr_response]. apply _generate_fallback_response_fixed.
      * intros p output text [= <-] Hout Htext.
        unfold llm_attempt, bind, lift, ret in Hrun.
        rewrite Hout, Htext in Hrun. discriminate.
  - unfold bind, ret. eexists. eexists. split; [reflexivity|].
    split; [reflexivity|]. split.
    + intros _. cbn [cr_response]. apply _generate_fallback_response_fixed.
    + intros p output text Hp. discriminate.
Qed.

End Generation.

Lemma generate_response_llm_failure_witness :
  exists r w',
    generate_response Demo.rag_failing_llm (lit "Quelle est la capitale?")
      [Demo.one_match] Demo.world = (Ok r, w') /\
    fst (generate_response (without_llm Demo.rag_failing_llm)
           (lit "Quelle est la capitale?") [Demo.one_match] Demo.world) = Ok r /\
    cr_response r
      = _generate_with_template (lit "Quelle est la capitale?")
          (_build_context [Demo.one_match]) /\
    (cr_context_used r = true <-> [Demo.one_match] <> []) /\
    ([Demo.one_match] <> [] <-> _build_context [Demo.one_match] <> []).
Proof.
  apply (generate_response_llm_failure Demo.rag_failing_llm
           Demo.failing_pipeline (lit "Quelle est la capitale?")
           [Demo.one_match] Demo.world
           (Error RuntimeError (lit "CUDA out of memory"))).
  - reflexivity.
  - reflexivity.
Defined.

(** With a pipeline loaded and answering, an empty context gives the text
    of the pipeline, which is none of the fixed responses. *)
Lemma generate_response_without_context_llm :
  exists r w',
    generate_response Demo.rag_llm (lit "Bonjour") [] Demo.world = (Ok r, w') /\
    cr_response r = lit "Ouagadougou est une ville." /\
    ~ In (cr_response r) fixed_responses.
Proof.
  eexists. eexists. split; [vm_compute; reflexivity|].
  split; [vm_compute; reflexivity|].
  vm_compute. intros Hin.
  repeat (destruct Hin as [Hin|Hin]; [discriminate Hin|]). exact Hin.
Qed.

Lemma generate_response_without_context_witness :
  exists r w',
    generate_response Demo.rag (lit "Bonjour") [] Demo.world = (Ok r, w') /\
    cr_context_used r = false /\
    In (cr_response r) fixed_responses.
Proof.
  destruct (generate_response_without_context Demo.rag (lit "Bonjour")
              Demo.world) as (r & w' & Hrun & Hctx & Hfixed & _).
  exists r, w'. split; [exact Hrun|]. split; [exact Hctx|].
  apply Hfixed. left. reflexivity.
Defined.

(** A greeting over an empty collection, with no pipeline loaded: the fixed
    greeting, no source, [context_used] false. *)
Lemma rag_chat_greeting :
  exists r w',
    rag_chat Demo.rag_empty (lit "Bonjour") Demo.offline = (Ok r, w') /\
    cr_response r
      = lit "Bonjour! Je suis votre assistant touristique pour le Burkina Faso. Comment puis-je vous aider?" /\
    cr_sources r = [] /\
    cr_context_used r = false /\
    cr_num_sources r = Some 0%Z.
Proof.
  eexists. eexists. split; [vm_compute; reflexivity|].
  repeat split.
Qed.

(** ** Stripping *)

Lemma lstrip_blank s : blank s = true -> lstrip s = [].
Proof.
  unfold blank. induction s as [|c t IH]; simpl; [reflexivity|].
  destruct (isspace c); simpl; [exact IH|discriminate].
Qed.

Lemma blank_rev s : blank (rev s) = blank s.
Proof.
  unfold blank. apply eq_true_iff_eq. rewrite !forallb_forall.
  split; intros Hs c Hc; apply Hs; [apply in_rev in Hc|apply in_rev]; exact Hc.
Qed.

Lemma strip_blank s : blank s = true -> strip s = [].
Proof.
  intros Hs. unfold strip, rstrip.
  rewrite (lstrip_blank (rev s)); [reflexivity|]. rewrite blank_rev. exact Hs.
Qed.

Lemma lstrip_nil s : lstrip s = [] -> blank s = true.
Proof.
  unfold blank. induction s as [|c t IH]; simpl; [reflexivity|].
  destruct (isspace c); simpl; [exact IH|discriminate].
Qed.

Lemma lstrip_head s c t : lstrip s = c :: t -> isspace c = false.
Proof.
  induction s as [|a s IH]; simpl; [discriminate|].
  destruct (isspace a) eqn:Ha; [exact IH|].
  intros [= <- _]. exact Ha.
Qed.

Lemma strip_nil s : strip s = [] -> blank s = true.
Proof.
  unfold strip, rstrip. intros Hs. apply lstrip_nil in Hs.
  rewrite blank_rev in Hs. rewrite <- blank_rev.
  destruct (lstrip (rev s)) as [|c t] eqn:Hl.
  - apply lstrip_nil. exact Hl.
  - apply lstrip_head in Hl. simpl in Hs. rewrite Hl in Hs. discriminate.
Qed.

(** ** Computations that only log *)

Create HintDb logs.

Lemma logs_only_ret {A} (a : A) : logs_only (ret a).
Proof. intros w. reflexivity. Qed.

Lemma logs_only_lift {A} (r : result A) : logs_only (lift r).
Proof. intros w. reflexivity. Qed.

Lemma logs_only_logger lv msg : logs_only (logger lv msg).
Proof. intros w. reflexivity. Qed.

Lemma logs_only_get_collection : logs_only get_collection.
Proof. intros w. reflexivity. Qed.

Lemma logs_only_bind {A B} (c : M A) (k : A -> M B) :
  logs_only c -> (forall a, logs_only (k a)) -> logs_only (bind c k).
Proof.
  intros Hc Hk w. unfold bind. specialize (Hc w).
  destruct (c w) as [[a|e] w1]; simpl in Hc |- *.
  - rewrite Hk. exact Hc.
  - exact Hc.
Qed.

Lemma logs_only_try_except {A} (c : M A) (h : exn -> option (M A)) :
  logs_only c -> (forall e k, h e = Some k -> logs_only k) ->
  logs_only (try_except c h).
Proof.
  intros Hc Hh w. unfold try_except. specialize (Hc w).
  destruct (c w) as [[a|e] w1]; simpl in Hc |- *; [exact Hc|].
  destruct (h e) as [k|] eqn:Hk; [|exact Hc].
  rewrite (Hh e k Hk). exact Hc.
Qed.

#[local] Hint Resolve logs_only_ret logs_only_lift logs_only_logger
  logs_only_get_collection logs_only_bind : logs.

Lemma logs_only_sources {A} (c : M A) w :
  logs_only c -> app_sources (snd (c w)) = app_sources w.
Proof.
  intros Hc. specialize (Hc w).
  change (app_sources (set_log (snd (c w)) []) = app_sources (set_log w [])).
  rewrite Hc. reflexivity.
Qed.

Lemma logs_only_collection {A} (c : M A) w :
  logs_only c -> collection (snd (c w)) = collection w.
Proof.
  intros Hc. specialize (Hc w).
  change (collection (set_log (snd (c w)) []) = collection (set_log w [])).
  rewrite Hc. reflexivity.
Qed.

(** ** The chat endpoint and the keyword search *)

Section MainProps.

Context `{Unicode}.

Lemma logs_only_retrieve_documents self query top_k :
  logs_only (retrieve_documents self query top_k).
Proof. unfold retrieve_documents. cbv zeta. auto 20 with logs. Qed.

Lemma logs_only_generate_response self query docs :
  logs_only (generate_response self query docs).
Proof.
  unfold generate_response. cbv zeta.
  apply logs_only_bind; [|auto with logs].
  destruct (llm_pipeline self) as [pipeline|]; [|auto with logs].
  unfold _generate_with_llm. apply logs_only_try_except.
  - unfold llm_attempt. auto 20 with logs.
  - intros e k [= <-]. auto with logs.
Qed.

(** The whole RAG pipeline reads the collection and writes log records. *)
Lemma logs_only_rag_chat self query : logs_only (rag_chat self query).
Proof.
  unfold rag_chat.
  apply logs_only_bind; [auto with logs|intros _].
  apply logs_only_bind; [apply logs_only_retrieve_documents|intros docs].
  apply logs_only_bind; [apply logs_only_generate_response|intros r].
  cbv zeta. auto with logs.
Qed.

(** C6. A chat request whose query is empty or whitespace only is answered
    with the client error 400, and the world is left as it was: nothing was
    retrieved, generated or logged, and the collection is untouched. *)
Theorem chat_rejects_blank_query request w :
  blank (ChatRequest.query request) = true ->
  chat request w
  = (Raise (HTTPException 400 (lit "La requête ne peut pas être vide")), w).
Proof.
  intros Hblank. unfold chat, try_except, bind at 1.
  rewrite (strip_blank _ Hblank). cbn [len List.length Z.of_nat Z.eqb].
  rewrite orb_true_r. unfold raise. cbn [is_http]. reflexivity.
Qed.

(** While fewer than [max_results] lines are held, the scan adds the
    selected lines up to that number. *)
Lemma scan_sources_firstn words : forall sources max_results results,
  (Z.of_nat (List.length results) < max_results)%Z ->
  scan_sources words sources max_results results
  = results ++ firstn (Z.to_nat max_results - List.length results)
                      (filter (selected words) sources).
Proof.
  induction sources as [|line rest IH]; intros max_results results Hlt.
  - simpl. rewrite firstn_nil, app_nil_r. reflexivity.
  - cbn [scan_sources filter]. fold (selected words line).
    destruct (selected words line).
    + rewrite length_app. cbn [List.length].
      destruct (Z.leb_spec max_results (Z.of_nat (List.length results + 1)))
        as [Hle|Hgt].
      * assert (Hn : (Z.to_nat max_results - List.length results = 1)%nat)
          by lia.
        rewrite Hn. cbn [firstn]. reflexivity.
      * rewrite IH by (rewrite length_app; cbn [List.length]; lia).
        rewrite length_app. cbn [List.length]. rewrite <- app_assoc.
        assert (Hn : (Z.to_nat max_results - List.length results
                      = S (Z.to_nat max_results - (List.length results + 1)))%nat)
          by lia.
        rewrite Hn. cbn [firstn app]. reflexivity.
    + apply IH. exact Hlt.
Qed.

(** For [max_results >= 1] the keyword search returns the first
    [max_results] lines, in stored order, that contain a lowercased word of
    the query. *)
Lemma find_relevant_snippets_firstn query sources max_results :
  (1 <= max_results)%Z ->
  find_relevant_snippets query sources max_results
  = firstn (Z.to_nat max_results)
      (filter (selected (map lower (findall_words query))) sources).
Proof.
  intros Hpos. unfold find_relevant_snippets.
  rewrite scan_sources_firstn by (simpl; lia).
  simpl. rewrite Nat.sub_0_r. reflexivity.
Qed.

Lemma scan_sources_one words : forall sources max_results,
  (max_results <= 1)%Z ->
  scan_sources words sources max_results []
  = firstn 1 (filter (selected words) sources).
Proof.
  induction sources as [|line rest IH]; intros max_results Hle;
    [reflexivity|].
  cbn [scan_sources filter]. fold (selected words line).
  destruct (selected words line).
  - cbn [app List.length].
    destruct (Z.leb_spec max_results (Z.of_nat 1)) as [_|Hgt];
      [reflexivity|simpl in Hgt; lia].
  - apply IH. exact Hle.
Qed.

(** For every [max_results] the keyword search returns the first
    [max(1, max_results)] selected lines. *)
Lemma find_relevant_snippets_filter query sources max_results :
  find_relevant_snippets query sources max_results
  = firstn (Nat.max 1 (Z.to_nat max_results))
      (filter (selected (map lower (findall_words query))) sources).
Proof.
  destruct (Z.le_gt_cases 1 max_results) as [Hpos|Hneg].
  - rewrite find_relevant_snippets_firstn by exact Hpos.
    f_equal. lia.
  - unfold find_relevant_snippets. rewrite scan_sources_one by lia.
    f_equal. lia.
Qed.

(** The number of lines [request.top_k or 5] lets the search return. *)
Lemma line_limit_top_k top_k :
  Nat.max 1 (Z.to_nat (top_k_or_5 top_k)) = line_limit top_k.
Proof.
  destruct top_k as [[|k|k]|]; cbn [top_k_or_5 line_limit Z.eqb];
    try reflexivity.
  rewrite Z2Nat.inj_pos. destruct (Pos2Nat.is_succ k) as [n ->]. reflexivity.
Qed.

Lemma keyword_fallback_run query top_k w :
  exists a,
    keyword_fallback query top_k w = (Ok a, w) /\
    let snippets :=
      find_relevant_snippets query
        (match app_sources w with Some l => l | None => [] end)
        (top_k_or_5 top_k) in
    a_context_used a = false /\
    a_num_sources a = Z.of_nat (List.length snippets) /\
    a_sources a = map (fun s => [(lit "text", JStr s)]) snippets.
Proof.
  unfold keyword_fallback, bind, get_world.
  destruct (find_relevant_snippets _ _ _) as [|s rest]; unfold ret;
    eexists; (split; [reflexivity|]); cbv zeta; repeat split.
Qed.

(** C9. A valid chat request served in degraded mode is answered with
    [context_used] false, also when lines were found; [num_sources] is the
    number of matched lines, and the sources are the objects that hold
    nothing but the text of one matched line each, under the key "text", in
    order. Every matched line is a stored line and contains a word of the
    query. *)
Theorem chat_degraded_response request w :
  blank (ChatRequest.query request) = false ->
  degraded w (strip (ChatRequest.query request)) ->
  exists resp w',
    chat request w = (Ok resp, w') /\
    ChatResponse.context_used resp = false /\
    ChatResponse.num_sources resp
      = Z.of_nat (List.length (matched_lines w request)) /\
    ChatResponse.sources resp
      = map (fun s => [(lit "text", JStr s)]) (matched_lines w request) /\
    Forall (fun line =>
              In line (stored_lines w) /\
              exists word,
                In word (findall_words (strip (ChatRequest.query request))) /\
                contains (lower word) (lower line) = true)
           (matched_lines w request).
Proof.
  intros Hblank Hdeg.
  assert (Hstrip : strip (ChatRequest.query request) <> []).
  { intros E. apply strip_nil in E. rewrite E in Hblank. discriminate. }
  assert (Hvalid : negb (truthy (ChatRequest.query request))
                   || (len (strip (ChatRequest.query request)) =? 0)%Z = false).
  { destruct (ChatRequest.query request) as [|c t] eqn:Eq.
    - contradiction Hstrip. reflexivity.
    - cbn [truthy negb orb]. unfold len.
      destruct (strip (c :: t)); [contradiction Hstrip; reflexivity|].
      reflexivity. }
  unfold chat, try_except. unfold bind at 1. rewrite Hvalid. unfold ret at 1.
  unfold bind at 1.
  assert (Hdel : exists w1,
    delegate (strip (ChatRequest.query request)) w = (Ok None, w1) /\
    app_sources w1 = app_sources w).
  { unfold delegate, bind at 1, get_world.
    destruct Hdeg as [Hnone|(rag & e & Hsome & Hraise)].
    - rewrite Hnone. exists w. split; reflexivity.
    - rewrite Hsome. unfold try_except, bind at 1.
      assert (Hsrc := logs_only_sources
        (rag_chat rag (strip (ChatRequest.query request))) w
        (logs_only_rag_chat rag _)).
      destruct (rag_chat rag (strip (ChatRequest.query request)) w)
        as [r w1]. simpl in Hraise, Hsrc. subst r.
      unfold bind, logger, ret. eexists. split; [reflexivity|]. exact Hsrc. }
  destruct Hdel as (w1 & Hdel & Hsrc). rewrite Hdel. unfold bind at 1.
  destruct (keyword_fallback_run (strip (ChatRequest.query request))
              (ChatRequest.top_k request) w1)
    as (a & Hrun & Hctx & Hnum & Hsources).
  rewrite Hrun. unfold ret. eexists. eexists. split; [reflexivity|].
  cbn [ChatResponse.context_used ChatResponse.num_sources ChatResponse.sources].
  rewrite find_relevant_snippets_filter, Hsrc, line_limit_top_k
    in Hnum, Hsources.
  split; [exact Hctx|]. split; [exact Hnum|]. split; [exact Hsources|].
  apply Forall_forall. intros line Hin. unfold matched_lines in Hin.
  assert (Hin' : In line
    (filter (selected (map lower
                         (findall_words (strip (ChatRequest.query request)))))
            (stored_lines w))).
  { rewrite <- (firstn_skipn (line_limit (ChatRequest.top_k request))
                             (filter _ _)).
    apply in_or_app. left. exact Hin. }
  apply filter_In in Hin'. destruct Hin' as [Hstored Hsel].
  split; [exact Hstored|]. unfold selected in Hsel.
  apply existsb_exists in Hsel. destruct Hsel as (lw & Hlw & Hc).
  apply in_map_iff in Hlw. destruct Hlw as (word & <- & Hword).
  exists word. split; [exact Hword|exact Hc].
Qed.

End MainProps.

Lemma chat_rejects_blank_query_witness :
  chat Demo.blank_request Demo.world
  = (Raise (HTTPException 400 (lit "La requête ne peut pas être vide")),
     Demo.world).
Proof.
  apply (chat_rejects_blank_query Demo.blank_request Demo.world).
  reflexivity.
Defined.

(** The scenario of the keyword search: of the two lines, the query
    "banfora cascade" selects the second. *)
Lemma find_relevant_snippets_scenario :
  find_relevant_snippets (lit "banfora cascade") Demo.lines 5
  = [lit "Cascade de Banfora"].
Proof. vm_compute. reflexivity. Qed.

(** C7 at [max_results = 0]: the search returns one line, where at most
    [max_results] lines are to be returned; the test that ends the scan
    comes after a line has been added. *)
Theorem find_relevant_snippets_zero :
  find_relevant_snippets (lit "banfora") [lit "Cascade de Banfora"] 0
  = [lit "Cascade de Banfora"].
Proof. vm_compute. reflexivity. Qed.

Lemma chat_degraded_response_witness :
  exists resp w',
    chat Demo.banfora_request Demo.world_unreachable = (Ok resp, w') /\
    ChatResponse.context_used resp = false /\
    ChatResponse.num_sources resp
      = Z.of_nat (List.length (matched_lines Demo.world_unreachable
                                 Demo.banfora_request)) /\
    ChatResponse.sources resp
      = map (fun s => [(lit "text", JStr s)])
            (matched_lines Demo.world_unreachable Demo.banfora_request) /\
    Forall (fun line =>
              In line (stored_lines Demo.world_unreachable) /\
              exists word,
                In word (findall_words
                           (strip (ChatRequest.query Demo.banfora_request))) /\
                contains (lower word) (lower line) = true)
           (matched_lines Demo.world_unreachable Demo.banfora_request).
Proof.
  apply (chat_degraded_response Demo.banfora_request Demo.world_unreachable).
  - reflexivity.
  - right. exists Demo.rag_unreachable.
    exists (Error RuntimeError (lit "index unreachable")).
    split; reflexivity.
Defined.

(** In the demonstration process the matched lines of the request are the
    one line about Banfora; a query with no word of the lines matches
    none, and a query that both lines match is answered with the first
    [top_k] of them. *)
Lemma matched_lines_scenario :
  matched_lines Demo.world_unreachable Demo.banfora_request
  = [lit "Cascade de Banfora"]
  /\ matched_lines Demo.world_unreachable
       {| ChatRequest.query := lit "zzzzzz"; ChatRequest.top_k := Some 1%Z |}
     = []
  /\ matched_lines Demo.world_unreachable
       {| ChatRequest.query := lit "fespaco banfora";
          ChatRequest.top_k := Some 1%Z |}
     = [lit "Festival FESPACO à Ouagadougou"]
  /\ matched_lines Demo.world_unreachable
       {| ChatRequest.query := lit "fespaco banfora";
          ChatRequest.top_k := None |}
     = Demo.lines.
Proof. repeat split; vm_compute; reflexivity. Qed.

(** The same request in a process whose globals were never set: one line
    is found and cited, and [context_used] is false. *)
Lemma chat_offline_scenario :
  exists resp w',
    chat Demo.banfora_request Demo.offline = (Ok resp, w') /\
    ChatResponse.response resp
      = lit "Informations trouvées :" ++ [NL; NL] ++ lit "Cascade de Banfora" /\
    ChatResponse.sources resp = [[(lit "text", JStr (lit "Cascade de Banfora"))]] /\
    ChatResponse.context_used resp = false /\
    ChatResponse.query resp = lit "banfora cascade" /\
    ChatResponse.num_sources resp = 1%Z.
Proof.
  eexists. eexists. split; [vm_compute; reflexivity|].
  repeat split.
Qed.

(** ** Corpus statistics *)

(** C10. [get_statistics] returns for every document list: the division
    is never by zero. The average length is 0 for an empty corpus, and
    otherwise the floor of the characters divided by the documents. *)
Theorem get_statistics_total self :
  exists stats,
    DataLoaderM.get_statistics self = Ok stats /\
    DataLoaderM.total_documents stats
      = Z.of_nat (List.length (dl_documents self)) /\
    DataLoaderM.total_characters stats
      = DataLoaderM.sum (map (fun doc => len (doc_text doc))
                             (dl_documents self)) /\
    (dl_documents self = [] -> DataLoaderM.average_doc_length stats = 0%Z) /\
    (dl_documents self <> [] ->
     DataLoaderM.average_doc_length stats
       = (DataLoaderM.total_characters stats
          / DataLoaderM.total_documents stats)%Z /\
     (DataLoaderM.total_documents stats * DataLoaderM.average_doc_length stats
        <= DataLoaderM.total_characters stats
        < DataLoaderM.total_documents stats
          * (DataLoaderM.average_doc_length stats + 1))%Z).
Proof.
  unfold DataLoaderM.get_statistics.
  set (n := Z.of_nat (List.length (dl_documents self))).
  set (chars := DataLoaderM.sum _).
  destruct (Z.ltb_spec 0 n) as [Hpos|Hzero].
  - unfold floordiv. destruct (Z.eqb_spec n 0) as [E|_]; [lia|].
    cbn [rbind]. eexists. split; [reflexivity|].
    cbn [DataLoaderM.total_documents DataLoaderM.total_characters
         DataLoaderM.average_doc_length].
    split; [reflexivity|]. split; [reflexivity|]. split.
    + intros E. subst n. rewrite E in Hpos. simpl in Hpos. lia.
    + intros _. split; [reflexivity|]. split.
      * apply Z.mul_div_le. exact Hpos.
      * rewrite Z.mul_add_distr_l, Z.mul_1_r.
        assert (Hm := Z.mod_pos_bound chars n Hpos).
        assert (Hd := Z.div_mod chars n). lia.
  - cbn [rbind]. eexists. split; [reflexivity|].
    cbn [DataLoaderM.total_documents DataLoaderM.total_characters
         DataLoaderM.average_doc_length].
    split; [reflexivity|]. split; [reflexivity|]. split; [reflexivity|].
    intros Hne. exfalso. apply Hne.
    destruct (dl_documents self); [reflexivity|].
    subst n. simpl in Hzero. lia.
Qed.

(** [get_statistics] returns, with the number of documents of the loader. *)
Lemma get_statistics_returns self :
  exists stats,
    DataLoaderM.get_statistics self = Ok stats /\
    DataLoaderM.total_documents stats
      = Z.of_nat (List.length (dl_documents self)).
Proof.
  unfold DataLoaderM.get_statistics.
  destruct (0 <? _)%Z eqn:Hpos.
  - unfold floordiv. destruct (Z.eqb_spec (Z.of_nat (List.length
      (dl_documents self))) 0) as [E|_].
    + rewrite E in Hpos. discriminate.
    + cbn [rbind]. eexists. split; reflexivity.
  - cbn [rbind]. eexists. split; reflexivity.
Qed.

(** ** Loading the corpus *)

(** [load_corpus] on a file that cannot be read: the two classes named
    are logged, anything else is passed on. *)
Lemma load_corpus_unreadable self path w e :
  files w path = Unreadable e ->
  load_corpus self path w
  = if is_error FileNotFoundError e
    then (Ok tt, set_log w (log w ++ [not_found_log path]))
    else if is_error JSONDecodeError e
    then (Ok tt, set_log w (log w ++ [decode_error_log path]))
    else (Raise e, w).
Proof.
  intros Hf. unfold load_corpus, try_except, bind at 1, read_json.
  rewrite Hf. destruct (is_error FileNotFoundError e); [reflexivity|].
  destruct (is_error JSONDecodeError e); reflexivity.
Qed.

Lemma load_corpus_tolerated self path w e :
  files w path = Unreadable e -> tolerated e = true ->
  exists record,
    load_corpus self path w = (Ok tt, set_log w (log w ++ [record])).
Proof.
  intros Hf Ht. rewrite (load_corpus_unreadable self path w e Hf).
  unfold tolerated in Ht.
  destruct (is_error FileNotFoundError e); [eexists; reflexivity|].
  destruct (is_error JSONDecodeError e); [eexists; reflexivity|discriminate].
Qed.

Lemma load_corpus_passed_on self path w e :
  files w path = Unreadable e -> tolerated e = false ->
  load_corpus self path w = (Raise e, w).
Proof.
  intros Hf Ht. rewrite (load_corpus_unreadable self path w e Hf).
  unfold tolerated in Ht.
  destruct (is_error FileNotFoundError e); [discriminate|].
  destruct (is_error JSONDecodeError e); [discriminate|reflexivity].
Qed.

(** [clear_database] returns whether or not the client raised; it changes
    the collection and the log only. *)
Lemma clear_database_run self w :
  exists stored records,
    clear_database self w
    = (Ok tt, set_log (set_collection w stored) (log w ++ records)).
Proof.
  unfold clear_database, try_except, bind, get_collection, lift,
    put_collection, logger.
  destruct (delete_collection self (collection w)) as [[]|e].
  - destruct (create_collection self) as [fresh|e].
    + exists fresh. eexists. reflexivity.
    + exists Deleted. eexists. reflexivity.
  - exists (collection w). eexists.
    destruct w; reflexivity.
Qed.

Lemma add_document_run self text title url category source_type w :
  exists self' record,
    DataLoaderM.add_document self text title url category source_type w
    = (Ok self', set_log w (log w ++ [record])) /\
    corpus_path self' = corpus_path self.
Proof.
  unfold DataLoaderM.add_document.
  destruct (len (DataLoaderM.clean_text text) <? 50)%Z.
  - unfold bind, logger, ret. eexists. eexists. split; reflexivity.
  - unfold bind, get_world, logger, ret. eexists. eexists. split; reflexivity.
Qed.

Lemma add_each_run docs : forall self w,
  exists self' records,
    DataLoaderM.add_each self docs w
    = (Ok self', set_log w (log w ++ records)) /\
    corpus_path self' = corpus_path self.
Proof.
  induction docs as [|[[text title] category] rest IH]; intros self w.
  - exists self, []. split; [|reflexivity]. unfold DataLoaderM.add_each, ret.
    rewrite app_nil_r. destruct w; reflexivity.
  - cbn [DataLoaderM.add_each]. unfold bind.
    destruct (add_document_run self text title [] category (lit "manual") w)
      as (self1 & record & -> & Hp1).
    destruct (IH self1 (set_log w (log w ++ [record])))
      as (self2 & records & -> & Hp2).
    exists self2, (record :: records). split; [|congruence].
    cbn [log set_log]. rewrite <- app_assoc. reflexivity.
Qed.

Lemma add_sample_data_run self w :
  exists self' records,
    DataLoaderM.add_sample_data self w
    = (Ok self', set_log w (log w ++ records)) /\
    corpus_path self' = corpus_path self.
Proof.
  unfold DataLoaderM.add_sample_data, bind.
  destruct (add_each_run DataLoaderM.sample_documents self w)
    as (self1 & records & -> & Hp).
  unfold logger, ret. eexists. eexists. split; [|exact Hp].
  cbn [log set_log]. rewrite <- app_assoc. reflexivity.
Qed.

(** The reinitialisation from the save on: [stored] is the collection
    [clear_database] left and [loader'] holds the sample documents. *)
Lemma initialize_corpus_run w rag loader :
  rag_system w = Some rag -> data_loader w = Some loader ->
  exists loader' stored records,
    corpus_path loader' = corpus_path loader /\
    collection (snd (clear_database rag w)) = stored /\
    initialize_corpus w
    = match DataLoaderM.save_corpus loader'
              (set_data_loader
                 (set_log (set_collection w stored) (log w ++ records))
                 (Some loader')) with
      | (Ok _, w2) =>
        match load_corpus rag Config.CORPUS_PATH w2 with
        | (Ok _, w3) =>
          match DataLoaderM.get_statistics loader' with
          | Ok stats =>
            (Ok {| InitResponse.status := lit "success";
                   InitResponse.documents_loaded :=
                     DataLoaderM.total_documents stats;
                   InitResponse.message :=
                     lit "Corpus initialisé avec "
                     ++ str_of_Z (DataLoaderM.total_documents stats)
                     ++ lit " documents" |}, w3)
          | Raise e =>
            (Raise init_error, set_log w3 (log w3 ++ [init_error_log e]))
          end
        | (Raise e, w3) =>
          (Raise init_error, set_log w3 (log w3 ++ [init_error_log e]))
        end
      | (Raise e, w2) =>
        (Raise init_error, set_log w2 (log w2 ++ [init_error_log e]))
      end.
Proof.
  intros Hrag Hloader.
  unfold initialize_corpus, bind at 1, get_world. rewrite Hrag, Hloader.
  unfold try_except, bind at 1.
  destruct (clear_database_run rag w) as (stored & records1 & ->).
  cbn [snd]. unfold bind at 1.
  destruct (add_sample_data_run loader
              (set_log (set_collection w stored) (log w ++ records1)))
    as (loader' & records2 & -> & Hp).
  unfold bind at 1, put_data_loader at 1. unfold bind at 1.
  exists loader', stored, (records1 ++ records2).
  split; [exact Hp|]. split; [reflexivity|].
  match goal with |- context [DataLoaderM.save_corpus loader' ?x] =>
    replace x with
      (set_data_loader
         (set_log (set_collection w stored)
                  (log w ++ records1 ++ records2))
         (Some loader'))
      by (cbn [set_log set_collection set_data_loader log collection];
          rewrite <- app_assoc; reflexivity)
  end.
  destruct (DataLoaderM.save_corpus loader' _) as [[[]|e] w2];
    [|reflexivity].
  unfold bind at 1.
  destruct (load_corpus rag Config.CORPUS_PATH w2) as [[[]|e] w3];
    [|reflexivity].
  unfold bind at 1, lift.
  destruct (DataLoaderM.get_statistics loader') as [stats|e]; reflexivity.
Qed.

(** [save_corpus] on a path that can be written: the file holds the
    documents, and nothing else changes but the log. *)
Lemma save_corpus_written self w :
  write_refused w (corpus_path self) = None ->
  write_interrupted w (corpus_path self) (dl_documents self) = None ->
  exists record,
    DataLoaderM.save_corpus self w
    = (Ok tt,
       set_log
         (set_files w (fun p => if str_eqb p (corpus_path self)
                                then JsonDocuments (dl_documents self)
                                else files w p))
         (log w ++ [record])).
Proof.
  intros Hr Hi. unfold DataLoaderM.save_corpus, DataLoaderM.write_json.
  unfold bind at 1. unfold bind at 1, get_world. rewrite Hr, Hi.
  unfold DataLoaderM.put_file, logger. eexists. reflexivity.
Qed.

(** [save_corpus] leaves the files under other paths as they were. *)
Lemma save_corpus_other_files self w r w' path :
  DataLoaderM.save_corpus self w = (r, w') ->
  str_eqb path (corpus_path self) = false ->
  files w' path = files w path.
Proof.
  unfold DataLoaderM.save_corpus, DataLoaderM.write_json.
  unfold bind at 1. unfold bind at 1, get_world.
  intros Hrun Hpath.
  destruct (write_refused w (corpus_path self)) as [e|].
  - unfold raise in Hrun. injection Hrun as _ <-. reflexivity.
  - destruct (write_interrupted w (corpus_path self) (dl_documents self))
      as [[e truncated]|].
    + unfold bind, DataLoaderM.put_file, raise in Hrun.
      injection Hrun as _ <-. cbn [files set_files]. rewrite Hpath.
      reflexivity.
    + unfold DataLoaderM.put_file, logger in Hrun.
      injection Hrun as _ <-. cbn [files set_log set_files]. rewrite Hpath.
      reflexivity.
Qed.

(** C8, as the code has it. [load_corpus] tolerates the two errors it
    names: when reading the corpus file raises [FileNotFoundError] or
    [json.JSONDecodeError] it returns normally, having logged one record and
    left the collection as it was, and the reinitialisation that meets such
    a file under [CORPUS_PATH] answers "success", with the collection that
    [clear_database] left. Any other error of reading the file is passed
    on, with nothing logged, and the reinitialisation then answers 500. *)
Theorem load_corpus_tolerates self path w e :
  files w path = Unreadable e ->
  (tolerated e = true ->
   exists record,
     load_corpus self path w = (Ok tt, set_log w (log w ++ [record])) /\
     collection (snd (load_corpus self path w)) = collection w)
  /\ (tolerated e = false -> load_corpus self path w = (Raise e, w))
  /\ (forall loader,
        path = Config.CORPUS_PATH ->
        rag_system w = Some self -> data_loader w = Some loader ->
        str_eqb Config.CORPUS_PATH (corpus_path loader) = false ->
        (tolerated e = true ->
         write_refused w (corpus_path loader) = None ->
         (forall docs,
            write_interrupted w (corpus_path loader) docs = None) ->
         exists resp w',
           initialize_corpus w = (Ok resp, w') /\
           InitResponse.status resp = lit "success" /\
           collection w' = collection (snd (clear_database self w)))
        /\ (tolerated e = false ->
            exists w', initialize_corpus w = (Raise init_error, w'))).
Proof.
  intros Hfile. split; [|split].
  - intros Ht.
    destruct (load_corpus_tolerated self path w e Hfile Ht) as (record & ->).
    eexists. split; reflexivity.
  - apply load_corpus_passed_on. exact Hfile.
  - intros loader -> Hrag Hloader Hpath.
    destruct (initialize_corpus_run w self loader Hrag Hloader)
      as (loader' & stored & records & Hp & Hcoll & ->).
    set (w1 := set_data_loader _ _). split.
    + intros Ht Hrefused Hinterrupted.
      destruct (save_corpus_written loader' w1) as (record & ->).
      { rewrite Hp. exact Hrefused. }
      { rewrite Hp. apply Hinterrupted. }
      match goal with |- context [load_corpus self Config.CORPUS_PATH ?x] =>
        set (w2 := x)
      end.
      assert (Hf2 : files w2 Config.CORPUS_PATH = Unreadable e).
      { unfold w2, w1. cbn [files set_log set_files set_data_loader
                            set_collection].
        rewrite Hp, Hpath. exact Hfile. }
      destruct (load_corpus_tolerated self _ w2 e Hf2 Ht) as (record2 & ->).
      destruct (get_statistics_returns loader') as (stats & -> & _).
      eexists. eexists. split; [reflexivity|]. split; [reflexivity|].
      rewrite Hcoll. reflexivity.
    + intros Ht.
      destruct (DataLoaderM.save_corpus loader' w1) as [[[]|e1] w2] eqn:Hsave;
        [|eexists; reflexivity].
      assert (Hf2 : files w2 Config.CORPUS_PATH = Unreadable e).
      { rewrite (save_corpus_other_files loader' w1 _ w2 Config.CORPUS_PATH
                   Hsave) by (rewrite Hp; exact Hpath).
        unfold w1. cbn [files set_log set_data_loader set_collection].
        exact Hfile. }
      rewrite (load_corpus_passed_on self _ w2 e Hf2 Ht).
      eexists. reflexivity.
Qed.

Lemma load_corpus_tolerates_witness :
  (tolerated (no_such_file Config.CORPUS_PATH) = true ->
   exists record,
     load_corpus Demo.rag Config.CORPUS_PATH Demo.world
     = (Ok tt, set_log Demo.world (log Demo.world ++ [record])) /\
     collection (snd (load_corpus Demo.rag Config.CORPUS_PATH Demo.world))
     = collection Demo.world)
  /\ (tolerated (no_such_file Config.CORPUS_PATH) = false ->
      load_corpus Demo.rag Config.CORPUS_PATH Demo.world
      = (Raise (no_such_file Config.CORPUS_PATH), Demo.world))
  /\ (forall loader,
        Config.CORPUS_PATH = Config.CORPUS_PATH ->
        rag_system Demo.world = Some Demo.rag ->
        data_loader Demo.world = Some loader ->
        str_eqb Config.CORPUS_PATH (corpus_path loader) = false ->
        (tolerated (no_such_file Config.CORPUS_PATH) = true ->
         write_refused Demo.world (corpus_path loader) = None ->
         (forall docs,
            write_interrupted Demo.world (corpus_path loader) docs = None) ->
         exists resp w',
           initialize_corpus Demo.world = (Ok resp, w') /\
           InitResponse.status resp = lit "success" /\
           collection w'
           = collection (snd (clear_database Demo.rag Demo.world)))
        /\ (tolerated (no_such_file Config.CORPUS_PATH) = false ->
            exists w',
              initialize_corpus Demo.world = (Raise init_error, w'))).
Proof.
  apply (load_corpus_tolerates Demo.rag Config.CORPUS_PATH Demo.world
           (no_such_file Config.CORPUS_PATH)).
  reflexivity.
Defined.

(** A corpus file of opening brackets only is not valid JSON, and
    [json.load] gives up on it with a [RecursionError]; a corpus path under
    a regular file has no file, and [open] raises [NotADirectoryError]; a
    corpus file in another encoding raises [UnicodeDecodeError]. None of
    them is tolerated: [load_corpus] raises, and the reinitialisation
    answers 500. *)
Lemma load_corpus_not_tolerated :
  Forall (fun e =>
    load_corpus Demo.rag Config.CORPUS_PATH (Demo.world_with_file (Unreadable e))
    = (Raise e, Demo.world_with_file (Unreadable e)) /\
    fst (initialize_corpus (Demo.world_with_file (Unreadable e)))
    = Raise init_error)
    [ Error RecursionError
        (lit "maximum recursion depth exceeded while decoding a JSON array from a unicode string");
      Error NotADirectoryError
        (lit "[Errno 20] Not a directory: 'data/corpus.json'");
      Error UnicodeDecodeError
        (lit "'utf-8' codec can't decode byte 0xe9 in position 29: invalid continuation byte") ].
Proof. repeat constructor. Qed.

(** The reinitialisation of the demonstration process: nothing is stored
    under [CORPUS_PATH], the ten demonstration documents are counted and the
    collection is left empty. *)
Lemma initialize_corpus_missing_file :
  exists resp w',
    initialize_corpus Demo.world = (Ok resp, w') /\
    InitResponse.status resp = lit "success" /\
    InitResponse.documents_loaded resp = 10%Z /\
    collection w' = Live [].
Proof.
  eexists. eexists. split; [vm_compute; reflexivity|].
  repeat split.
Qed.

(** * Further properties *)

(** ** Substrings *)

Lemma startswith_iff p s : startswith p s = true <-> exists b, s = p ++ b.
Proof.
  revert s. induction p as [|c p IH]; intros s; simpl.
  - split; [intros _; exists s; reflexivity|reflexivity].
  - destruct s as [|d s].
    + split; [discriminate|intros [b Hb]; discriminate].
    + rewrite andb_true_iff, N.eqb_eq, IH. split.
      * intros [-> [b ->]]. exists b. reflexivity.
      * intros [b Hb]. injection Hb as -> ->. split; [reflexivity|].
        exists b. reflexivity.
Qed.

(** [sub in s] holds exactly when [s] is [a ++ sub ++ b]. *)
Lemma contains_iff k s : contains k s = true <-> exists a b, s = a ++ k ++ b.
Proof.
  split.
  - induction s as [|c s IH]; simpl.
    + rewrite orb_false_r. intros Hs. apply startswith_iff in Hs.
      destruct Hs as [b Hb]. exists [], b. exact Hb.
    + rewrite orb_true_iff. intros [Hs|Hc].
      * apply startswith_iff in Hs. destruct Hs as [b Hb].
        exists [], b. exact Hb.
      * destruct (IH Hc) as (a & b & ->). exists (c :: a), b. reflexivity.
  - intros (a & b & ->). induction a as [|c a IH].
    + assert (Hs : startswith k ([] ++ k ++ b) = true)
        by (apply startswith_iff; exists b; reflexivity).
      simpl in *. destruct (k ++ b); simpl; rewrite Hs; reflexivity.
    + simpl. rewrite IH. apply orb_true_r.
Qed.

Lemma contains_rev k s : contains (rev k) (rev s) = contains k s.
Proof.
  apply eq_true_iff_eq. rewrite !contains_iff. split.
  - intros (a & b & Hs). exists (rev b), (rev a).
    apply (f_equal (@rev N)) in Hs. rewrite rev_involutive in Hs.
    rewrite Hs, !rev_app_distr, rev_involutive, app_assoc. reflexivity.
  - intros (a & b & ->). exists (rev b), (rev a).
    rewrite !rev_app_distr, app_assoc. reflexivity.
Qed.

Lemma contains_lstrip k s :
  match k with c :: _ => isspace c = false | [] => False end ->
  contains k (lstrip s) = contains k s.
Proof.
  destruct k as [|c k]; [contradiction|]. intros Hc.
  induction s as [|d s IH]; [reflexivity|].
  cbn [lstrip]. destruct (isspace d) eqn:Hd; [|reflexivity].
  rewrite IH. cbn [contains startswith].
  destruct (N.eqb_spec c d) as [->|_]; [congruence|]. reflexivity.
Qed.

(** Stripping the text does not change whether it contains a key with no
    whitespace at its ends. *)
Lemma contains_strip k s :
  edges_nonspace k = true -> contains k (strip s) = contains k s.
Proof.
  unfold edges_nonspace. intros Hk.
  destruct k as [|c k'] eqn:Ek; [discriminate|].
  destruct (rev (c :: k')) as [|d r] eqn:Er; [discriminate|].
  apply andb_true_iff in Hk. destruct Hk as [Hc Hd].
  apply negb_true_iff in Hc, Hd.
  unfold strip. rewrite contains_lstrip by exact Hc.
  unfold rstrip. rewrite <- (rev_involutive (c :: k')) at 1.
  rewrite contains_rev, Er, contains_lstrip by exact Hd.
  rewrite <- Er, contains_rev. reflexivity.
Qed.

Lemma lstrip_suffix s : exists a, s = a ++ lstrip s.
Proof.
  induction s as [|c s [a Ha]]; [exists []; reflexivity|].
  cbn [lstrip]. destruct (isspace c).
  - exists (c :: a). simpl. rewrite <- Ha. reflexivity.
  - exists []. reflexivity.
Qed.

Lemma strip_infix s : exists a b, s = a ++ strip s ++ b.
Proof.
  destruct (lstrip_suffix (rev (lstrip (rev s)))) as [a Ha].
  destruct (lstrip_suffix (rev s)) as [b Hb].
  apply (f_equal (@rev N)) in Hb. rewrite rev_involutive, rev_app_distr in Hb.
  exists a, (rev b). unfold strip, rstrip. rewrite app_assoc, <- Ha. exact Hb.
Qed.

Lemma contains_strip_any k s :
  contains k (strip s) = true -> contains k s = true.
Proof.
  rewrite !contains_iff. intros (a & b & Hs).
  destruct (strip_infix s) as (a' & b' & Hx). rewrite Hs in Hx.
  exists (a' ++ a), (b ++ b'). rewrite Hx, <- !app_assoc. reflexivity.
Qed.

Lemma contains_false k x :
  (forall u v, x = u ++ v -> startswith k v = false) -> contains k x = false.
Proof.
  induction x as [|c x IH]; intros Hx; cbn [contains].
  - rewrite (Hx [] [] eq_refl). reflexivity.
  - rewrite (Hx [] (c :: x) eq_refl). cbn [orb]. apply IH.
    intros u v ->. apply (Hx (c :: u) v). reflexivity.
Qed.

(** ** Stripping, continued *)

Lemma lstrip_idem s : lstrip (lstrip s) = lstrip s.
Proof.
  induction s as [|c s IH]; [reflexivity|]. cbn [lstrip].
  destruct (isspace c) eqn:Hc; [exact IH|]. cbn [lstrip]. rewrite Hc.
  reflexivity.
Qed.

Lemma lstrip_length s : (List.length (lstrip s) <= List.length s)%nat.
Proof.
  induction s as [|c s IH]; [simpl; lia|]. cbn [lstrip].
  destruct (isspace c); simpl; lia.
Qed.

Lemma lstrip_snoc_space a c :
  isspace c = true -> lstrip (a ++ [c]) = a ++ [c] -> lstrip a = a.
Proof.
  intros Hc. destruct a as [|d a]; cbn [app lstrip].
  - rewrite Hc. discriminate.
  - destruct (isspace d); [|reflexivity].
    intros E. assert (Hl := lstrip_length (a ++ [c])). rewrite E in Hl.
    simpl in Hl. lia.
Qed.

Lemma lstrip_keeps_end : forall y,
  lstrip (rev y) = rev y -> lstrip (rev (lstrip y)) = rev (lstrip y).
Proof.
  induction y as [|c y IH]; intros Hy; [reflexivity|].
  cbn [lstrip]. destruct (isspace c) eqn:Hc; [|exact Hy].
  apply IH. cbn [rev] in Hy. exact (lstrip_snoc_space _ _ Hc Hy).
Qed.

(** A stripped string has nothing left to strip. *)
Lemma strip_idem s : strip (strip s) = strip s.
Proof.
  unfold strip at 1. unfold rstrip.
  assert (Hend : lstrip (rev (strip s)) = rev (strip s)).
  { unfold strip. apply lstrip_keeps_end. unfold rstrip.
    rewrite rev_involutive. apply lstrip_idem. }
  rewrite Hend, rev_involutive. unfold strip. apply lstrip_idem.
Qed.

Lemma Forall_lstrip (P : N -> Prop) s : Forall P s -> Forall P (lstrip s).
Proof.
  induction 1 as [|c s Hc Hs IH]; [constructor|]. cbn [lstrip].
  destruct (isspace c); [exact IH|constructor; assumption].
Qed.

Lemma Forall_strip (P : N -> Prop) s : Forall P s -> Forall P (strip s).
Proof.
  intros Hs. unfold strip, rstrip. apply Forall_lstrip, Forall_rev,
    Forall_lstrip, Forall_rev. exact Hs.
Qed.

Lemma strip_length s : (List.length (strip s) <= List.length s)%nat.
Proof.
  unfold strip, rstrip.
  assert (H1 := lstrip_length (rev (lstrip (rev s)))).
  assert (H2 := lstrip_length (rev s)).
  rewrite !length_rev in *. lia.
Qed.

Lemma str_eqb_eq a : forall b, str_eqb a b = true <-> a = b.
Proof.
  induction a as [|x a IH]; intros [|y b]; simpl;
    try (split; [discriminate|discriminate]); [tauto|].
  rewrite andb_true_iff, N.eqb_eq, IH. split.
  - intros [-> ->]. reflexivity.
  - intros [= -> ->]. auto.
Qed.

(** ** Retrieval, continued *)

Section RetrievalMore.

Variable self : RAGSystem.

Lemma getitem_nth {A} (l : list A) j d :
  (j < List.length l)%nat -> getitem l j = Ok (nth j l d).
Proof.
  intros Hj. unfold getitem.
  rewrite (nth_error_nth' l d Hj). reflexivity.
Qed.

(** Over rows whose lookups succeed, the loop is the filter. *)
Lemma format_results_from_filter results : forall row i acc dists ts ms,
  List.length dists = List.length row ->
  List.length ts = List.length row ->
  List.length ms = List.length row ->
  (forall j, (j < List.length row)%nat ->
     distance_at results (i + j) = Ok (nth j dists 0%Q)) ->
  (forall j, (j < List.length row)%nat ->
     (let? t0 := getitem_opt (documents results) 0 in getitem t0 (i + j))
     = Ok (nth j ts [])) ->
  (forall j, (j < List.length row)%nat ->
     (let? m0 := getitem_opt (metadatas results) 0 in getitem m0 (i + j))
     = Ok (nth j ms [])) ->
  format_results_from results i row acc
  = Ok (acc ++ filter passes
                 (matches_of row (map (fun d => (1 - d)%Q) dists) ts ms)).
Proof.
  induction row as [|x row IH]; intros i acc dists ts ms Hd Ht Hm Hds Hts Hms.
  - simpl. rewrite app_nil_r. reflexivity.
  - destruct dists as [|d dists]; [discriminate|].
    destruct ts as [|t ts]; [discriminate|].
    destruct ms as [|m ms]; [discriminate|].
    simpl in Hd, Ht, Hm.
    assert (H0 : (0 < List.length (x :: row))%nat) by (simpl; lia).
    assert (Hd0 := Hds 0%nat H0). assert (Ht0 := Hts 0%nat H0).
    assert (Hm0 := Hms 0%nat H0). rewrite Nat.add_0_r in Hd0, Ht0, Hm0.
    cbn [nth] in Hd0, Ht0, Hm0.
    cbn [format_results_from]. fold (distance_at results i).
    rewrite Hd0. cbn [rbind].
    assert (IH' : forall acc',
      format_results_from results (S i) row acc'
      = Ok (acc' ++ filter passes
                      (matches_of row (map (fun d => (1 - d)%Q) dists) ts ms))).
    { intros acc'. apply IH; try lia.
      - intros j Hj. rewrite Nat.add_succ_comm. apply (Hds (S j)). simpl. lia.
      - intros j Hj. rewrite Nat.add_succ_comm. apply (Hts (S j)). simpl. lia.
      - intros j Hj. rewrite Nat.add_succ_comm. apply (Hms (S j)). simpl. lia. }
    cbn [map matches_of filter]. unfold passes at 1, similarity_of at 1.
    cbn [r_similarity].
    destruct (Qle_bool _ (1 - d)).
    + destruct (getitem_opt (documents results) 0) as [t0|]; [|discriminate].
      cbn [rbind] in Ht0 |- *. rewrite Ht0. cbn [rbind].
      destruct (getitem_opt (metadatas results) 0) as [m0|]; [|discriminate].
      cbn [rbind] in Hm0 |- *. rewrite Hm0. cbn [rbind].
      rewrite IH', <- app_assoc. reflexivity.
    + apply IH'.
Qed.

(** X1. When the index answers with rows of equal length, the call returns
    exactly the rows whose similarity [1 - distance] is at least the
    threshold, in the order of the answer: no such row is dropped. *)
Theorem retrieve_documents_complete query top_k w emb rest
    row ds ts ms o1 o2 o3 o4 :
  embedding_model self [query] = Ok (emb :: rest) ->
  collection_query self (collection w) emb (top_k_or_default top_k)
  = Ok {| ids := row :: o1; distances := Some (ds :: o2);
          documents := Some (ts :: o3); metadatas := Some (ms :: o4) |} ->
  List.length ds = List.length row ->
  List.length ts = List.length row ->
  List.length ms = List.length row ->
  fst (retrieve_documents self query top_k w)
  = Ok (filter passes (matches_of row (map (fun d => (1 - d)%Q) ds) ts ms)).
Proof.
  intros Henc Hq Hd Ht Hm. rewrite retrieve_documents_run, Henc.
  cbn [getitem nth_error]. rewrite Hq. unfold format_results. cbn [ids].
  rewrite (format_results_from_filter _ row 0 [] ds ts ms Hd Ht Hm).
  - reflexivity.
  - intros j Hj. unfold distance_at.
    cbn [distances_truthy distances getitem_opt getitem nth_error rbind].
    apply getitem_nth. lia.
  - intros j Hj. cbn [documents getitem_opt getitem nth_error rbind].
    apply getitem_nth. lia.
  - intros j Hj. cbn [metadatas getitem_opt getitem nth_error rbind].
    apply getitem_nth. lia.
Qed.

Lemma filter_passes_ones : forall row ts ms n,
  filter passes (matches_of row (map (fun d => (1 - d)%Q) (repeat 0%Q n)) ts ms)
  = matches_of row (repeat (1 - 0)%Q n) ts ms.
Proof.
  induction row as [|x row IH]; intros ts ms n; [reflexivity|].
  destruct n as [|n]; [reflexivity|].
  destruct ts as [|t ts]; [reflexivity|]. destruct ms as [|m ms]; [reflexivity|].
  cbn [repeat map matches_of filter].
  change (passes _) with true. cbn iota. rewrite IH. reflexivity.
Qed.

(** X2. When the distances of the answer of the index are falsy, [None]
    or the empty list, every distance counts as 0: every row is returned,
    with similarity 1. *)
Theorem retrieve_documents_without_distances query top_k w emb rest
    row ds ts ms o1 o3 o4 :
  embedding_model self [query] = Ok (emb :: rest) ->
  collection_query self (collection w) emb (top_k_or_default top_k)
  = Ok {| ids := row :: o1; distances := ds;
          documents := Some (ts :: o3); metadatas := Some (ms :: o4) |} ->
  ds = None \/ ds = Some [] ->
  List.length ts = List.length row ->
  List.length ms = List.length row ->
  fst (retrieve_documents self query top_k w)
  = Ok (matches_of row (repeat (1 - 0)%Q (List.length row)) ts ms).
Proof.
  intros Henc Hq Hds Ht Hm. rewrite retrieve_documents_run, Henc.
  cbn [getitem nth_error]. rewrite Hq. unfold format_results. cbn [ids].
  rewrite (format_results_from_filter _ row 0 []
             (repeat 0%Q (List.length row)) ts ms).
  - cbn [app]. rewrite filter_passes_ones. reflexivity.
  - apply repeat_length.
  - exact Ht.
  - exact Hm.
  - intros j Hj. unfold distance_at.
    destruct Hds as [-> | ->]; cbn [distances_truthy distances];
      rewrite nth_repeat; reflexivity.
  - intros j Hj. cbn [documents getitem_opt getitem nth_error rbind].
    apply getitem_nth. lia.
  - intros j Hj. cbn [metadatas getitem_opt getitem nth_error rbind].
    apply getitem_nth. lia.
Qed.

(** X3. A retrieval that raises leaves the world as it was; one that
    returns has appended one log record and changed nothing else. *)
Theorem retrieve_documents_effects query top_k w :
  match retrieve_documents self query top_k w with
  | (Ok docs, w') =>
    w' = set_log w (log w ++ [retrieved_log docs (top_k_or_default top_k)])
  | (Raise e, w') => w' = w
  end.
Proof.
  rewrite retrieve_documents_run.
  destruct (embedding_model self [query]) as [encoded|]; [|reflexivity].
  destruct (getitem encoded 0) as [emb|]; [|reflexivity].
  destruct (collection_query self (collection w) emb _) as [results|];
    [|reflexivity].
  destruct (format_results results); reflexivity.
Qed.

Lemma retrieve_documents_log_free query top_k w l :
  fst (retrieve_documents self query top_k (set_log w l))
  = fst (retrieve_documents self query top_k w).
Proof.
  rewrite !retrieve_documents_run. cbn [collection set_log].
  destruct (embedding_model self [query]) as [encoded|]; [|reflexivity].
  destruct (getitem encoded 0) as [emb|]; [|reflexivity].
  destruct (collection_query self (collection w) emb _) as [results|];
    [|reflexivity].
  destruct (format_results results); reflexivity.
Qed.

End RetrievalMore.

Lemma retrieve_documents_complete_witness :
  fst (retrieve_documents Demo.rag (lit "cascades") (Some 3%Z) Demo.world)
  = Ok (filter passes
          (matches_of [lit "doc_1"; lit "doc_8"; lit "doc_3"]
             (map (fun d => (1 - d)%Q) [1 # 10; 1 # 2; 9 # 10])
             [Demo.doc_1; Demo.doc_8; Demo.doc_3]
             [Demo.metadata_of (lit "Ouagadougou");
              Demo.metadata_of (lit "Banfora");
              Demo.metadata_of (lit "Karfiguéla")])).
Proof.
  apply (retrieve_documents_complete Demo.rag (lit "cascades") (Some 3%Z)
           Demo.world [1; 0]%Q [] _ _ _ _ [] [] [] []); reflexivity.
Defined.

Lemma retrieve_documents_without_distances_witness :
  fst (retrieve_documents Demo.rag_without_distances (lit "cascades")
         (Some 3%Z) Demo.world)
  = Ok (matches_of [lit "doc_1"; lit "doc_8"; lit "doc_3"]
          (repeat (1 - 0)%Q 3)
          [Demo.doc_1; Demo.doc_8; Demo.doc_3]
          [Demo.metadata_of (lit "Ouagadougou");
           Demo.metadata_of (lit "Banfora");
           Demo.metadata_of (lit "Karfiguéla")]).
Proof.
  apply (retrieve_documents_without_distances Demo.rag_without_distances
           (lit "cascades") (Some 3%Z) Demo.world [1; 0]%Q []
           [lit "doc_1"; lit "doc_8"; lit "doc_3"] (Some []) _ _ [] [] []);
    solve [reflexivity | right; reflexivity].
Defined.

(** ** Answer generation, continued *)

Section GenerationMore.

Context `{Unicode}.

(** X8. The fallback answer is decided by the lowercased query alone,
    stripped or not: the first of "bonjour", "salut", "merci" and
    "au revoir" it contains selects the answer, and a query that contains
    none gets the "no information" message. *)
Theorem _generate_fallback_response_triggers query :
  _generate_fallback_response query =
  if contains (lit "bonjour") (lower query) then
    lit "Bonjour! Je suis votre assistant touristique pour le Burkina Faso. Comment puis-je vous aider?"
  else if contains (lit "salut") (lower query) then
    lit "Salut! Bienvenue. Je suis ici pour répondre à vos questions sur le tourisme au Burkina Faso."
  else if contains (lit "merci") (lower query) then
    lit "De rien! N'hésitez pas à me poser d'autres questions."
  else if contains (lit "au revoir") (lower query) then
    lit "Au revoir! Bon voyage au Burkina Faso!"
  else NO_INFORMATION.
Proof.
  unfold _generate_fallback_response, general_responses.
  cbn [first_trigger].
  rewrite !contains_strip by reflexivity.
  repeat match goal with
  | |- context [contains ?k (lower query)] =>
    destruct (contains k (lower query)); try reflexivity
  end.
Qed.

Lemma join_infix sep parts p :
  In p parts -> exists a b, join sep parts = a ++ p ++ b.
Proof.
  induction parts as [|q parts IH]; [contradiction|].
  intros [->|Hin].
  - destruct parts as [|q' parts'].
    + exists [], []. simpl. rewrite app_nil_r. reflexivity.
    + exists [], (sep ++ join sep (q' :: parts')). reflexivity.
  - destruct (IH Hin) as (a & b & Hj). destruct parts as [|q' parts'].
    + contradiction.
    + exists (q ++ sep ++ a), b. cbn [join]. cbn [join] in Hj. rewrite Hj.
      rewrite <- !app_assoc. reflexivity.
Qed.

Lemma context_parts_in d docs : forall i,
  In d docs ->
  exists label, In (label ++ r_text d) (context_parts i docs).
Proof.
  induction docs as [|doc rest IH]; intros i; [contradiction|].
  intros [->|Hin]; cbn [context_parts].
  - eexists (lit "Document " ++ str_of_Z (Z.of_nat i) ++ lit ":" ++ [NL]).
    left. rewrite <- !app_assoc. reflexivity.
  - destruct (IH (S i) Hin) as [label Hl]. exists label. right. exact Hl.
Qed.

(** X6. The context string holds the whole text of every context
    document. *)
Theorem _build_context_keeps_texts docs d :
  In d docs -> contains (r_text d) (_build_context docs) = true.
Proof.
  intros Hin. apply contains_iff.
  destruct (context_parts_in d docs 1 Hin) as [label Hl].
  destruct (join_infix [NL; NL] _ _ Hl) as (a & b & Hj).
  unfold _build_context. destruct docs as [|doc rest]; [contradiction|].
  rewrite Hj. exists (a ++ label), b. rewrite <- !app_assoc. reflexivity.
Qed.

(** X7. Over a non-empty context the template answer does not depend on
    the question; it has 42 code points more than the first 200 of the
    context, so at most 242, and it holds the whole context when that has at
    most 200. *)
Theorem _generate_with_template_excerpt query context :
  context <> [] ->
  (forall query', _generate_with_template query' context
                  = _generate_with_template query context) /\
  List.length (_generate_with_template query context)
  = (42 + Nat.min 200 (List.length context))%nat /\
  (len (_generate_with_template query context) <= 242)%Z /\
  ((List.length context <= 200)%nat ->
   contains context (_generate_with_template query context) = true).
Proof.
  intros Hctx. unfold _generate_with_template, slice_to, len.
  destruct context as [|c context]; [contradiction Hctx; reflexivity|].
  cbn [truthy negb].
  assert (Hlen : List.length
            (lit "Basé sur les informations disponibles: "
             ++ firstn 200 (c :: context) ++ lit "...")
          = (42 + Nat.min 200 (List.length (c :: context)))%nat).
  { rewrite !length_app, length_firstn.
    change (List.length (lit "Basé sur les informations disponibles: "))
      with 39%nat.
    change (List.length (lit "...")) with 3%nat. lia. }
  split; [reflexivity|]. split; [exact Hlen|]. split; [rewrite Hlen; lia|].
  intros Hshort. apply contains_iff.
  rewrite firstn_all2 by exact Hshort. eexists. eexists. reflexivity.
Qed.

(** [generate_response] returns, whatever the tier that ran, and cites the
    context documents. *)
Lemma generate_response_sources self query context_docs w :
  exists r w',
    generate_response self query context_docs w = (Ok r, w') /\
    cr_sources r = map source_of context_docs /\
    cr_context_used r = negb (Nat.eqb (List.length context_docs) 0).
Proof.
  unfold generate_response. destruct (llm_pipeline self) as [pipeline|].
  - unfold bind at 1. rewrite _generate_with_llm_run.
    destruct (fst (llm_attempt pipeline query _ w)) as [response|e];
      unfold ret; eexists; eexists; (split; [reflexivity|]);
      cbn [cr_sources cr_context_used];
      (split; [reflexivity|destruct context_docs; reflexivity]).
  - unfold bind, ret. eexists. eexists. split; [reflexivity|].
    cbn [cr_sources cr_context_used].
    split; [reflexivity|destruct context_docs; reflexivity].
Qed.

(** [RAGSystem.chat] step by step. *)
Lemma rag_chat_run self query w :
  rag_chat self query w =
  match retrieve_documents self query None
          (set_log w (log w ++ [processing_log query])) with
  | (Raise e, w1) => (Raise e, w1)
  | (Ok docs, w1) =>
    match generate_response self query docs w1 with
    | (Raise e, w2) => (Raise e, w2)
    | (Ok r, w2) =>
      (Ok {| cr_response := cr_response r; cr_sources := cr_sources r;
             cr_context_used := cr_context_used r; cr_query := Some query;
             cr_num_sources := Some (Z.of_nat (List.length docs)) |},
       set_log w2 (log w2 ++ [generated_log (List.length docs)]))
    end
  end.
Proof.
  unfold rag_chat, bind at 1, logger at 1. unfold bind at 1.
  fold (processing_log query).
  destruct (retrieve_documents self query None _) as [[docs|e] w1];
    [|reflexivity].
  unfold bind at 1.
  destruct (generate_response self query docs w1) as [[r|e] w2];
    reflexivity.
Qed.

Lemma source_of_similarity d s :
  r_similarity d = Some s -> In (lit "similarity", JNum s) (source_of d).
Proof.
  intros Hs. unfold source_of. rewrite Hs. right. right. left. reflexivity.
Qed.

Lemma rag_chat_counts self query w r w' :
  rag_chat self query w = (Ok r, w') ->
  cr_num_sources r = Some (Z.of_nat (List.length (cr_sources r))).
Proof.
  rewrite rag_chat_run.
  destruct (retrieve_documents self query None _) as [[docs|e] w1];
    [|discriminate].
  destruct (generate_response_sources self query docs w1)
    as (r0 & w2 & -> & Hsrc & _).
  intros [= <- _]. cbn [cr_num_sources cr_sources].
  rewrite Hsrc, length_map. reflexivity.
Qed.

(** X5. Whenever [RAGSystem.chat] returns, the result echoes the query,
    its sources are the projections of the documents the retrieval
    returns, [num_sources] is their number, [context_used] tells whether
    there is one, every cited similarity is at least the threshold, and the
    collection is untouched. *)
Theorem rag_chat_outcome self query w r w' :
  rag_chat self query w = (Ok r, w') ->
  (exists docs,
     fst (retrieve_documents self query None w) = Ok docs /\
     cr_sources r = map source_of docs) /\
  cr_query r = Some query /\
  cr_num_sources r = Some (Z.of_nat (List.length (cr_sources r))) /\
  (cr_context_used r = true <-> cr_sources r <> []) /\
  Forall source_similarity_ok (cr_sources r) /\
  collection w' = collection w.
Proof.
  intros Hrun.
  assert (Hcoll := logs_only_collection (rag_chat self query) w
                     (logs_only_rag_chat self query)).
  rewrite Hrun in Hcoll. cbn [snd] in Hcoll.
  rewrite rag_chat_run in Hrun.
  assert (Hfst := retrieve_documents_log_free self query None w
                    (log w ++ [processing_log query])).
  destruct (retrieve_documents self query None (set_log w _))
    as [[docs|e] w1] eqn:Hret; cbn [fst] in Hfst; [|discriminate].
  destruct (generate_response_sources self query docs w1)
    as (r0 & w2 & Hgen & Hsrc & Hctx).
  assert (Hlen : List.length (cr_sources r0) = List.length docs)
    by (rewrite Hsrc; apply length_map).
  rewrite Hgen in Hrun. injection Hrun as <- _.
  cbn [cr_query cr_num_sources cr_sources cr_context_used].
  split; [exists docs; rewrite <- Hfst; split; [reflexivity|exact Hsrc]|].
  split; [reflexivity|].
  split; [rewrite Hlen; reflexivity|]. split; [|split; [|exact Hcoll]].
  - rewrite Hctx, Hsrc. destruct docs; simpl; split;
      try discriminate; try reflexivity.
    intros C. contradiction C. reflexivity.
  - rewrite Hsrc. apply retrieve_documents_inv in Hret.
    destruct Hret as (encoded & emb & results & _ & _ & _ & Hf).
    apply format_results_spec in Hf. destruct Hf as [Hthr [idxs [_ Hrows]]].
    clear -Hthr Hrows. induction Hrows as [|d j docs idxs Hd _ IH].
    + constructor.
    + inversion Hthr as [|? ? Hd' Hrest]; subst. constructor; [|auto].
      apply neighbor_distance in Hd. destruct Hd as (dist & _ & Hs).
      exists (1 - dist)%Q. split; [apply source_of_similarity; exact Hs|].
      unfold similarity_of in Hd'. rewrite Hs in Hd'. exact Hd'.
Qed.

End GenerationMore.

(** ** The chat endpoint and the keyword search, continued *)

Section MainMore.

Context `{Unicode}.

Lemma delegate_run query w :
  delegate query w =
  match rag_system w with
  | None => (Ok None, w)
  | Some rag =>
    match rag_chat rag query w with
    | (Ok r, w1) => (Ok (Some (answer_of r)), w1)
    | (Raise e, w1) => (Ok None, set_log w1 (log w1 ++ [rag_error_log e]))
    end
  end.
Proof.
  unfold delegate, bind at 1, get_world.
  destruct (rag_system w) as [rag|]; [|reflexivity].
  unfold try_except, bind at 1.
  destruct (rag_chat rag query w) as [[r|e] w1]; reflexivity.
Qed.

Lemma chat_valid request :
  blank (ChatRequest.query request) = false ->
  negb (truthy (ChatRequest.query request))
  || (len (strip (ChatRequest.query request)) =? 0)%Z = false.
Proof.
  intros Hblank.
  assert (Hstrip : strip (ChatRequest.query request) <> []).
  { intros E. apply strip_nil in E. rewrite E in Hblank. discriminate. }
  destruct (ChatRequest.query request) as [|c t] eqn:Eq.
  - contradiction Hstrip. reflexivity.
  - cbn [truthy negb orb]. unfold len.
    destruct (strip (c :: t)); [contradiction Hstrip; reflexivity|].
    reflexivity.
Qed.

Lemma chat_blank_run request w :
  blank (ChatRequest.query request) = true ->
  chat request w
  = (Raise (HTTPException 400 (lit "La requête ne peut pas être vide")), w).
Proof.
  intros Hblank. unfold chat, try_except, bind at 1.
  rewrite (strip_blank _ Hblank). cbn [len List.length Z.of_nat Z.eqb].
  rewrite orb_true_r. reflexivity.
Qed.

(** The endpoint on a valid request: the answer of the pipeline, or the
    keyword search when there is none. *)
Lemma chat_run request w :
  blank (ChatRequest.query request) = false ->
  chat request w =
  let query := strip (ChatRequest.query request) in
  match delegate query w with
  | (Ok (Some a), w1) => (Ok (response_of query a), w1)
  | (Ok None, w1) =>
    match keyword_fallback query (ChatRequest.top_k request) w1 with
    | (Ok a, w2) => (Ok (response_of query a), w2)
    | (Raise e, w2) => (Raise e, w2)
    end
  | (Raise e, w1) => (Raise e, w1)
  end.
Proof.
  intros Hblank. unfold chat, try_except. unfold bind at 1.
  rewrite (chat_valid request Hblank). unfold ret at 1. unfold bind at 1.
  cbv zeta. rewrite delegate_run.
  destruct (rag_system w) as [rag|].
  - destruct (rag_chat rag _ w) as [[r|e] w1].
    + reflexivity.
    + unfold bind at 1.
      destruct (keyword_fallback_run (strip (ChatRequest.query request))
                  (ChatRequest.top_k request)
                  (set_log w1 (log w1 ++ [rag_error_log e]))) as (a & -> & _).
      reflexivity.
  - unfold bind at 1.
    destruct (keyword_fallback_run (strip (ChatRequest.query request))
                (ChatRequest.top_k request) w) as (a & -> & _).
    reflexivity.
Qed.

(** X14. Every chat request whose query is not blank is answered: the
    endpoint returns a response and raises nothing, whatever the pipeline
    does. In the response [message] repeats [response], [query] is the
    stripped query and [num_sources] is the number of sources; the
    collection and the source lines are as before. *)
Theorem chat_answers_every_query request w :
  blank (ChatRequest.query request) = false ->
  exists resp w',
    chat request w = (Ok resp, w') /\
    ChatResponse.message resp = ChatResponse.response resp /\
    ChatResponse.query resp = strip (ChatRequest.query request) /\
    ChatResponse.num_sources resp
      = Z.of_nat (List.length (ChatResponse.sources resp)) /\
    collection w' = collection w /\
    app_sources w' = app_sources w.
Proof.
  intros Hblank. rewrite (chat_run request w Hblank). cbv zeta.
  rewrite delegate_run. set (q := strip (ChatRequest.query request)).
  assert (Hfall : forall w1,
    collection w1 = collection w -> app_sources w1 = app_sources w ->
    exists resp w',
      match keyword_fallback q (ChatRequest.top_k request) w1 with
      | (Ok a, w2) => (Ok (response_of q a), w2)
      | (Raise e, w2) => (Raise e, w2)
      end = (Ok resp, w') /\
      ChatResponse.message resp = ChatResponse.response resp /\
      ChatResponse.query resp = q /\
      ChatResponse.num_sources resp
        = Z.of_nat (List.length (ChatResponse.sources resp)) /\
      collection w' = collection w /\ app_sources w' = app_sources w).
  { intros w1 Hc Hs.
    destruct (keyword_fallback_run q (ChatRequest.top_k request) w1)
      as (a & -> & _ & Hnum & Hsrc).
    eexists. eexists. split; [reflexivity|].
    cbn [response_of ChatResponse.message ChatResponse.response
         ChatResponse.query ChatResponse.num_sources ChatResponse.sources].
    rewrite Hnum, Hsrc, length_map. auto. }
  destruct (rag_system w) as [rag|]; [|apply Hfall; reflexivity].
  assert (Hc := logs_only_collection (rag_chat rag q) w
                  (logs_only_rag_chat rag q)).
  assert (Hs := logs_only_sources (rag_chat rag q) w
                  (logs_only_rag_chat rag q)).
  destruct (rag_chat rag q w) as [[r|e] w1] eqn:Hrun; cbn [snd] in Hc, Hs.
  - eexists. eexists. split; [reflexivity|].
    cbn [response_of answer_of ChatResponse.message ChatResponse.response
         ChatResponse.query ChatResponse.num_sources ChatResponse.sources
         a_num_sources a_sources response_text].
    rewrite (rag_chat_counts rag q w r w1 Hrun). auto.
  - apply Hfall; assumption.
Qed.

(** X15. When the pipeline answers, [top_k] of the request plays no part:
    the endpoint never passes it on, and two requests that differ in it
    alone get the same response and leave the same world. *)
Theorem chat_ignores_top_k query k1 k2 w rag r :
  rag_system w = Some rag ->
  fst (rag_chat rag (strip query) w) = Ok r ->
  chat {| ChatRequest.query := query; ChatRequest.top_k := k1 |} w
  = chat {| ChatRequest.query := query; ChatRequest.top_k := k2 |} w.
Proof.
  intros Hrag Hrun. destruct (blank query) eqn:Hblank.
  - rewrite !chat_blank_run by exact Hblank. reflexivity.
  - rewrite !chat_run by exact Hblank. cbv zeta. cbn [ChatRequest.query].
    rewrite delegate_run, Hrag.
    destruct (rag_chat rag (strip query) w) as [[r'|e] w1];
      [reflexivity|discriminate].
Qed.

(** X12. For every [max_results] the keyword search returns the first
    [max(1, max_results)] of the lines, in stored order, that contain a
    lowercased word of the query: never more than that many, and only
    lines of the list. *)
Theorem find_relevant_snippets_exact query sources max_results :
  find_relevant_snippets query sources max_results
  = firstn (Nat.max 1 (Z.to_nat max_results))
      (filter (selected (map lower (findall_words query))) sources)
  /\ (Z.of_nat (List.length
                  (find_relevant_snippets query sources max_results))
      <= Z.max 1 max_results)%Z
  /\ Forall (fun line => In line sources)
            (find_relevant_snippets query sources max_results).
Proof.
  assert (Heq := find_relevant_snippets_filter query sources max_results).
  split; [exact Heq|]. rewrite Heq. split.
  - rewrite length_firstn. lia.
  - apply Forall_forall. intros line Hin.
    assert (Hsub := firstn_skipn (Nat.max 1 (Z.to_nat max_results))
      (filter (selected (map lower (findall_words query))) sources)).
    assert (Hin' : In line
      (filter (selected (map lower (findall_words query))) sources)).
    { rewrite <- Hsub. apply in_or_app. left. exact Hin. }
    apply filter_In in Hin'. tauto.
Qed.

Lemma emit_run_short cur : (List.length cur < 3)%nat -> emit_run cur = [].
Proof.
  intros Hc. unfold emit_run.
  destruct (Nat.leb_spec 3 (List.length cur)); [lia|reflexivity].
Qed.

Lemma findall_words_from_short : forall s cur,
  (List.length s + List.length cur < 3)%nat -> findall_words_from s cur = [].
Proof.
  induction s as [|c s IH]; intros cur Hlen; cbn [findall_words_from].
  - apply emit_run_short. simpl in Hlen. lia.
  - simpl in Hlen. destruct (isword c).
    + apply IH. simpl. lia.
    + rewrite emit_run_short by lia. apply IH. simpl. lia.
Qed.

Lemma scan_sources_no_word : forall sources max_results,
  scan_sources [] sources max_results [] = [].
Proof.
  induction sources as [|line rest IH]; intros max_results; [reflexivity|].
  cbn [scan_sources existsb]. apply IH.
Qed.

(** X13. A query of fewer than three code points has no word of three:
    the keyword search returns nothing for it, whatever the lines. *)
Theorem find_relevant_snippets_short_query query sources max_results :
  (List.length query < 3)%nat ->
  find_relevant_snippets query sources max_results = [].
Proof.
  intros Hlen. unfold find_relevant_snippets, findall_words.
  rewrite findall_words_from_short by (simpl; lia).
  apply scan_sources_no_word.
Qed.

End MainMore.

Lemma rag_chat_outcome_witness :
  exists r w',
    rag_chat Demo.rag (lit "Quelle est la capitale?") Demo.world = (Ok r, w') /\
    (exists docs,
       fst (retrieve_documents Demo.rag (lit "Quelle est la capitale?") None
              Demo.world) = Ok docs /\
       cr_sources r = map source_of docs) /\
    cr_query r = Some (lit "Quelle est la capitale?") /\
    cr_num_sources r = Some (Z.of_nat (List.length (cr_sources r))) /\
    (cr_context_used r = true <-> cr_sources r <> []) /\
    Forall source_similarity_ok (cr_sources r) /\
    collection w' = collection Demo.world.
Proof.
  eexists. eexists. split; [vm_compute; reflexivity|].
  apply (rag_chat_outcome Demo.rag (lit "Quelle est la capitale?") Demo.world).
  vm_compute. reflexivity.
Defined.

Lemma _build_context_keeps_texts_witness :
  contains (r_text Demo.one_match)
    (_build_context [List.hd Demo.one_match Demo.matches; Demo.one_match])
  = true.
Proof.
  apply (_build_context_keeps_texts
           [List.hd Demo.one_match Demo.matches; Demo.one_match]
           Demo.one_match).
  right. left. reflexivity.
Defined.

Lemma _generate_with_template_excerpt_witness :
  (forall query', _generate_with_template query' Demo.doc_1
                  = _generate_with_template (lit "Quelle est la capitale?")
                      Demo.doc_1) /\
  List.length (_generate_with_template (lit "Quelle est la capitale?")
                 Demo.doc_1)
  = (42 + Nat.min 200 (List.length Demo.doc_1))%nat /\
  (len (_generate_with_template (lit "Quelle est la capitale?") Demo.doc_1)
   <= 242)%Z /\
  ((List.length Demo.doc_1 <= 200)%nat ->
   contains Demo.doc_1
     (_generate_with_template (lit "Quelle est la capitale?") Demo.doc_1)
   = true).
Proof.
  apply (_generate_with_template_excerpt (lit "Quelle est la capitale?")
           Demo.doc_1).
  intros E. apply (f_equal (@List.length N)) in E. vm_compute in E.
  discriminate E.
Defined.

Lemma chat_answers_every_query_witness :
  exists resp w',
    chat Demo.capital_request Demo.world = (Ok resp, w') /\
    ChatResponse.message resp = ChatResponse.response resp /\
    ChatResponse.query resp = strip (ChatRequest.query Demo.capital_request) /\
    ChatResponse.num_sources resp
      = Z.of_nat (List.length (ChatResponse.sources resp)) /\
    collection w' = collection Demo.world /\
    app_sources w' = app_sources Demo.world.
Proof.
  apply (chat_answers_every_query Demo.capital_request Demo.world).
  reflexivity.
Defined.

Lemma chat_ignores_top_k_witness :
  chat {| ChatRequest.query := lit "Quelle est la capitale?";
          ChatRequest.top_k := Some 1%Z |} Demo.world
  = chat {| ChatRequest.query := lit "Quelle est la capitale?";
            ChatRequest.top_k := Some 20%Z |} Demo.world.
Proof.
  eapply (chat_ignores_top_k (lit "Quelle est la capitale?") (Some 1%Z)
            (Some 20%Z) Demo.world Demo.rag).
  - reflexivity.
  - reflexivity.
Defined.

Lemma find_relevant_snippets_short_query_witness :
  find_relevant_snippets (lit "ok") Demo.lines 5 = [].
Proof.
  apply (find_relevant_snippets_short_query (lit "ok") Demo.lines 5).
  vm_compute. lia.
Defined.

(** With the pipeline loaded, the answer cites the two neighbours above
    the threshold and [top_k] of the request is not consulted. *)
Lemma chat_pipeline_scenario :
  exists resp w',
    chat Demo.capital_request Demo.world = (Ok resp, w') /\
    ChatResponse.num_sources resp = 2%Z /\
    ChatResponse.context_used resp = true /\
    ChatResponse.query resp = lit "Quelle est la capitale?".
Proof.
  eexists. eexists. split; [vm_compute; reflexivity|]. repeat split.
Qed.

(** ** Cleaning *)

Lemma collapse_whitespace_spaces : forall text in_run,
  Forall (fun c => isspace c = true -> c = 0x20%N)
         (DataLoaderM.collapse_whitespace text in_run).
Proof.
  induction text as [|c t IH]; intros in_run; [constructor|].
  cbn [DataLoaderM.collapse_whitespace].
  destruct (isspace c) eqn:Hc.
  - destruct in_run; [apply IH|]. constructor; [reflexivity|apply IH].
  - constructor; [congruence|apply IH].
Qed.

Lemma collapse_whitespace_length : forall text in_run,
  (List.length (DataLoaderM.collapse_whitespace text in_run)
   <= List.length text)%nat.
Proof.
  induction text as [|c t IH]; intros in_run; [simpl; lia|].
  cbn [DataLoaderM.collapse_whitespace].
  destruct (isspace c); [destruct in_run|]; simpl;
    [specialize (IH true)|specialize (IH true)|specialize (IH false)]; lia.
Qed.

Lemma Forall_remove_tags (P : N -> Prop) : forall text skip,
  Forall P text -> Forall P (DataLoaderM.remove_tags_from text skip).
Proof.
  induction text as [|c t IH]; intros skip Ht; [constructor|].
  inversion Ht as [|? ? Hc Ht']; subst.
  cbn [DataLoaderM.remove_tags_from]. destruct skip as [|k]; [|auto].
  destruct (c =? 0x3C)%N; [destruct (DataLoaderM.tag_body t)|];
    try constructor; auto.
Qed.

Lemma remove_tags_length : forall text skip,
  (List.length (DataLoaderM.remove_tags_from text skip)
   <= List.length text)%nat.
Proof.
  induction text as [|c t IH]; intros skip; [simpl; lia|].
  cbn [DataLoaderM.remove_tags_from]. destruct skip as [|k].
  - pose proof (IH 0%nat) as H0.
    destruct (c =? 0x3C)%N; [destruct (DataLoaderM.tag_body t) as [n|]|];
      [pose proof (IH n)| |]; simpl; lia.
  - specialize (IH k). simpl. lia.
Qed.

(** X18. A cleaned text holds no control character, its only whitespace
    is the plain space, stripping it again changes nothing, and it is never
    longer than the text it was made from. *)
Theorem clean_text_clean text :
  Forall (fun c => DataLoaderM.is_control c = false)
         (DataLoaderM.clean_text text) /\
  Forall (fun c => isspace c = true -> c = 0x20%N)
         (DataLoaderM.clean_text text) /\
  strip (DataLoaderM.clean_text text) = DataLoaderM.clean_text text /\
  (List.length (DataLoaderM.clean_text text) <= List.length text)%nat.
Proof.
  unfold DataLoaderM.clean_text. split; [|split; [|split]].
  - apply Forall_strip, Forall_remove_tags. apply Forall_forall.
    intros c Hc. apply filter_In in Hc. destruct Hc as [_ Hc].
    apply negb_true_iff in Hc. exact Hc.
  - apply Forall_strip, Forall_remove_tags.
    assert (Hs := collapse_whitespace_spaces text false).
    rewrite Forall_forall in Hs |- *. intros c Hc.
    apply filter_In in Hc. apply Hs. tauto.
  - apply strip_idem.
  - eapply Nat.le_trans; [apply strip_length|].
    eapply Nat.le_trans; [apply remove_tags_length|].
    eapply Nat.le_trans; [apply filter_length_le|].
    apply collapse_whitespace_length.
Qed.

(** ** Adding documents *)



(** [add_document] on a text without URL that is long enough. *)
Lemma add_document_long self text title category source_type w :
  long_enough text = true ->
  DataLoaderM.add_document self text title [] category source_type w
  = (Ok {| corpus_path := corpus_path self;
           dl_documents :=
             dl_documents self
             ++ [new_document (List.length (dl_documents self))
                   (now_isoformat w) text title [] category source_type];
           dl_sources := dl_sources self |},
     set_log w (log w ++ [(DEBUG, lit "Document ajouté: " ++ title)])).
Proof.
  unfold long_enough, DataLoaderM.add_document. intros Hl.
  apply negb_true_iff in Hl. rewrite Hl. reflexivity.
Qed.

Lemma add_each_long docs : forall self w,
  forallb (fun d => long_enough (fst (fst d))) docs = true ->
  exists self' records added,
    DataLoaderM.add_each self docs w
    = (Ok self', set_log w (log w ++ records)) /\
    corpus_path self' = corpus_path self /\
    dl_sources self' = dl_sources self /\
    dl_documents self' = dl_documents self ++ added /\
    List.length added = List.length docs /\
    List.length records = List.length docs /\
    (forall i d, nth_error added i = Some d ->
       exists text title category,
         nth_error docs i = Some (text, title, category) /\
         d = new_document (List.length (dl_documents self) + i)
               (now_isoformat w) text title [] category (lit "manual")).
Proof.
  induction docs as [|[[text title] category] rest IH]; intros self w Hlong.
  - exists self, [], []. unfold DataLoaderM.add_each, ret.
    rewrite !app_nil_r. repeat split; try reflexivity.
    + destruct w; reflexivity.
    + intros [|i] d; discriminate.
  - cbn [forallb fst] in Hlong. apply andb_true_iff in Hlong.
    destruct Hlong as [Hl Hrest].
    cbn [DataLoaderM.add_each]. unfold bind.
    rewrite (add_document_long self text title category (lit "manual") w Hl).
    match goal with |- context [DataLoaderM.add_each ?s rest ?x] =>
      destruct (IH s x Hrest)
        as (self2 & records & added & -> & Hp2 & Hs2 & Hd2 & Hla & Hlr & Hnth)
    end.
    cbn [corpus_path dl_sources dl_documents] in Hp2, Hs2, Hd2, Hnth.
    eexists self2, (_ :: records), (_ :: added).
    split; [cbn [log set_log]; rewrite <- app_assoc; reflexivity|].
    split; [exact Hp2|]. split; [exact Hs2|].
    split; [rewrite Hd2, <- app_assoc; reflexivity|].
    split; [simpl; lia|]. split; [simpl; lia|].
    intros [|i] d Hd.
    + injection Hd as <-. exists text, title, category.
      split; [reflexivity|]. rewrite Nat.add_0_r. reflexivity.
    + cbn [nth_error] in Hd |- *. destruct (Hnth i d Hd)
        as (text' & title' & category' & Hdoc & ->).
      exists text', title', category'. split; [exact Hdoc|].
      rewrite length_app. cbn [List.length now_isoformat set_log].
      f_equal. lia.
Qed.

Lemma sample_documents_long :
  forallb (fun d => long_enough (fst (fst d))) DataLoaderM.sample_documents
  = true.
Proof. vm_compute. reflexivity. Qed.

(** [add_sample_data] appends ten documents and logs eleven records. *)
Lemma add_sample_data_appends self w :
  exists self' records added,
    DataLoaderM.add_sample_data self w
    = (Ok self', set_log w (log w ++ records)) /\
    corpus_path self' = corpus_path self /\
    dl_sources self' = dl_sources self /\
    dl_documents self' = dl_documents self ++ added /\
    List.length added = 10%nat /\
    List.length records = 11%nat /\
    (forall i d, nth_error added i = Some d ->
       exists text title category,
         nth_error DataLoaderM.sample_documents i
         = Some (text, title, category) /\
         d = new_document (List.length (dl_documents self) + i)
               (now_isoformat w) text title [] category (lit "manual")).
Proof.
  unfold DataLoaderM.add_sample_data, bind.
  destruct (add_each_long DataLoaderM.sample_documents self w
              sample_documents_long)
    as (self1 & records & added & -> & Hp & Hs & Hd & Hla & Hlr & Hnth).
  unfold logger, ret. exists self1. eexists. exists added.
  split; [cbn [log set_log]; rewrite <- app_assoc; reflexivity|].
  split; [exact Hp|]. split; [exact Hs|]. split; [exact Hd|].
  split; [exact Hla|]. split; [|exact Hnth].
  rewrite length_app, Hlr. reflexivity.
Qed.


(** ** Corpus statistics, continued *)

Lemma sum_from xs : forall acc,
  fold_left Z.add xs acc = (acc + DataLoaderM.sum xs)%Z.
Proof.
  unfold DataLoaderM.sum. induction xs as [|x xs IH]; intros acc; simpl.
  - lia.
  - rewrite IH, (IH x). lia.
Qed.

Lemma sum_cons x xs : DataLoaderM.sum (x :: xs) = (x + DataLoaderM.sum xs)%Z.
Proof. unfold DataLoaderM.sum at 1. simpl. apply sum_from. Qed.

Lemma count_category_sum category : forall categories,
  DataLoaderM.sum (map snd (DataLoaderM.count_category category categories))
  = (DataLoaderM.sum (map snd categories) + 1)%Z.
Proof.
  induction categories as [|[k n] rest IH]; cbn [DataLoaderM.count_category].
  - reflexivity.
  - destruct (str_eqb k category); cbn [map snd]; rewrite !sum_cons;
      [|rewrite IH]; lia.
Qed.

Lemma count_category_keys category : forall categories,
  (forall k, In k (map fst (DataLoaderM.count_category category categories))
             -> k = category \/ In k (map fst categories)) /\
  (NoDup (map fst categories) ->
   NoDup (map fst (DataLoaderM.count_category category categories))).
Proof.
  induction categories as [|[k n] rest [IHin IHnd]];
    cbn [DataLoaderM.count_category].
  - split; [intros k [<-|[]]; auto|]. intros _. repeat constructor. intros [].
  - destruct (str_eqb k category) eqn:Hk; cbn [map fst].
    + split; [intros k' Hin; right; exact Hin|auto].
    + split.
      * intros k' [<-|Hin]; [right; left; reflexivity|].
        destruct (IHin k' Hin); [left|right; right]; assumption.
      * intros Hnd. inversion Hnd as [|? ? Hnotin Hnd']; subst.
        constructor; [|auto]. intros Hin. destruct (IHin k Hin) as [->|Hin'].
        -- assert (Ht : str_eqb category category = true)
             by (apply str_eqb_eq; reflexivity). congruence.
        -- contradiction.
Qed.

Lemma histogram_fold docs : forall categories,
  DataLoaderM.sum (map snd
    (fold_left (fun categories doc =>
                  DataLoaderM.count_category (DataLoaderM.category_of doc)
                    categories)
               docs categories))
  = (DataLoaderM.sum (map snd categories) + Z.of_nat (List.length docs))%Z /\
  (NoDup (map fst categories) ->
   NoDup (map fst
    (fold_left (fun categories doc =>
                  DataLoaderM.count_category (DataLoaderM.category_of doc)
                    categories)
               docs categories))).
Proof.
  induction docs as [|doc docs IH]; intros categories; cbn [fold_left].
  - split; [simpl; lia|auto].
  - destruct (IH (DataLoaderM.count_category (DataLoaderM.category_of doc)
                    categories)) as [Hsum Hnd].
    split.
    + rewrite Hsum, count_category_sum. cbn [List.length]. lia.
    + intros Hc. apply Hnd. apply count_category_keys. exact Hc.
Qed.

Lemma split_from_length : forall s cur,
  (List.length (split_from s cur)
   <= List.length s + match cur with [] => 0 | _ => 1 end)%nat.
Proof.
  induction s as [|c s IH]; intros cur; cbn [split_from].
  - destruct cur; simpl; lia.
  - destruct (isspace c).
    + destruct cur; [specialize (IH [])|specialize (IH [])]; simpl in *; lia.
    + specialize (IH (c :: cur)). simpl in *. destruct cur; lia.
Qed.

Lemma sum_le {A} (f g : A -> Z) xs :
  (forall x, (f x <= g x)%Z) ->
  (DataLoaderM.sum (map f xs) <= DataLoaderM.sum (map g xs))%Z.
Proof.
  intros Hfg. induction xs as [|x xs IH]; [reflexivity|].
  cbn [map]. rewrite !sum_cons. specialize (Hfg x). lia.
Qed.

Lemma sum_nonneg {A} (f : A -> Z) xs :
  (forall x, (0 <= f x)%Z) -> (0 <= DataLoaderM.sum (map f xs))%Z.
Proof.
  intros Hf. induction xs as [|x xs IH]; [reflexivity|].
  cbn [map]. rewrite sum_cons. specialize (Hf x). lia.
Qed.

(** X21. In the statistics the counts of the categories add up to the
    number of documents and no category is listed twice; the words are
    never more than the characters, and [sources] is the number of recorded
    URLs. *)
Theorem get_statistics_histogram self :
  exists stats,
    DataLoaderM.get_statistics self = Ok stats /\
    DataLoaderM.sum (map snd (DataLoaderM.categories stats))
      = DataLoaderM.total_documents stats /\
    NoDup (map fst (DataLoaderM.categories stats)) /\
    (0 <= DataLoaderM.total_words stats
       <= DataLoaderM.total_characters stats)%Z /\
    DataLoaderM.sources stats = Z.of_nat (List.length (dl_sources self)).
Proof.
  unfold DataLoaderM.get_statistics.
  destruct (if (0 <? _)%Z then _ else _) as [average|e] eqn:Havg.
  - cbn [rbind]. eexists. split; [reflexivity|].
    cbn [DataLoaderM.categories DataLoaderM.total_documents
         DataLoaderM.total_words DataLoaderM.total_characters
         DataLoaderM.sources].
    destruct (histogram_fold (dl_documents self) []) as [Hsum Hnd].
    split; [rewrite Hsum; reflexivity|]. split; [apply Hnd; constructor|].
    split; [|reflexivity]. split.
    + apply sum_nonneg. intros doc. lia.
    + apply sum_le. intros doc. unfold split, len.
      assert (Hs := split_from_length (doc_text doc) []). simpl in Hs. lia.
  - exfalso.
    destruct (Z.ltb_spec 0 (Z.of_nat (List.length (dl_documents self))))
      as [Hpos|_]; [|discriminate].
    unfold floordiv in Havg.
    destruct (Z.eqb_spec (Z.of_nat (List.length (dl_documents self))) 0);
      [lia|discriminate].
Qed.

(** ** The index *)

Section IndexMore.

Context `{Unicode}.

(** X10. [clear_database] never raises, and logs one record whatever
    the client does. When [delete_collection] raises the collection stays
    as it was, entries and all. When it returns and [create_collection]
    raises, the entries are gone and [self.collection] still names the
    deleted collection. When both return, the collection is the new one. *)
Theorem clear_database_never_raises self w :
  exists w',
    clear_database self w = (Ok tt, w') /\
    collection w'
    = match delete_collection self (collection w) with
      | Raise _ => collection w
      | Ok _ =>
        match create_collection self with
        | Raise _ => Deleted
        | Ok fresh => fresh
        end
      end /\
    List.length (log w') = (List.length (log w) + 1)%nat /\
    set_log (set_collection w' Deleted) []
    = set_log (set_collection w Deleted) [].
Proof.
  unfold clear_database, try_except, bind, get_collection, lift,
    put_collection, logger.
  destruct (delete_collection self (collection w)) as [[]|e];
    [destruct (create_collection self) as [fresh|e]|];
    eexists; (split; [reflexivity|]);
    cbn [collection set_log set_collection log];
    (split; [reflexivity|]); (split; [rewrite length_app; simpl; lia|]);
    reflexivity.
Qed.

(** X11. An exception [RAGSystem.load_corpus] raises is never a
    [FileNotFoundError] nor a [json.JSONDecodeError], wherever it was
    raised: by reading the file, by [len] of the value read, or inside
    [add_documents] by a lookup, the encoder or the collection. One of
    these two raised inside [add_documents] is swallowed like one raised by
    reading the file. *)
Theorem load_corpus_swallows self path w e w' :
  load_corpus self path w = (Raise e, w') ->
  tolerated e = false /\
  (files w path = Unreadable e \/
   exists v,
     files w path = Json v /\
     (py_len v = Raise e \/
      exists w0, add_documents self v w0 = (Raise e, w'))).
Proof.
  unfold load_corpus, try_except, bind at 1, read_json, tolerated.
  destruct (files w path) as [e0|v] eqn:Hf.
  - destruct (is_error FileNotFoundError e0) eqn:H1; [discriminate|].
    destruct (is_error JSONDecodeError e0) eqn:H2; [discriminate|].
    intros [= <- <-]. rewrite H1, H2. split; [reflexivity|]. left.
    reflexivity.
  - unfold bind at 1, lift.
    destruct (py_len v) as [n|e0] eqn:Hlen.
    + unfold bind at 1, logger at 1.
      destruct (add_documents self v _) as [[[]|e0] w1] eqn:Hadd;
        [discriminate|].
      destruct (is_error FileNotFoundError e0) eqn:H1; [discriminate|].
      destruct (is_error JSONDecodeError e0) eqn:H2; [discriminate|].
      intros [= <- <-]. rewrite H1, H2. split; [reflexivity|]. right.
      exists v. split; [reflexivity|]. right. eexists. exact Hadd.
    + destruct (is_error FileNotFoundError e0) eqn:H1; [discriminate|].
      destruct (is_error JSONDecodeError e0) eqn:H2; [discriminate|].
      intros [= <- <-]. rewrite H1, H2. split; [reflexivity|]. right.
      exists v. split; [reflexivity|]. left. exact Hlen.
Qed.

(** ** Computations that only touch the index *)

Lemma index_only_fields {A} (c : M A) w :
  index_only c ->
  rag_system (snd (c w)) = rag_system w /\
  data_loader (snd (c w)) = data_loader w /\
  files (snd (c w)) = files w.
Proof.
  intros Hc. specialize (Hc w).
  repeat split;
    [apply (f_equal rag_system) in Hc | apply (f_equal data_loader) in Hc
    |apply (f_equal files) in Hc]; exact Hc.
Qed.

Lemma index_only_ret {A} (a : A) : index_only (ret a).
Proof. intros w. reflexivity. Qed.

Lemma index_only_lift {A} (r : result A) : index_only (lift r).
Proof. intros w. reflexivity. Qed.

Lemma index_only_logger lv msg : index_only (logger lv msg).
Proof. intros w. reflexivity. Qed.

Lemma index_only_get_collection : index_only get_collection.
Proof. intros w. reflexivity. Qed.

Lemma index_only_put_collection c : index_only (put_collection c).
Proof. intros w. reflexivity. Qed.

Lemma index_only_read_json path : index_only (read_json path).
Proof. intros w. unfold read_json. destruct (files w path); reflexivity. Qed.

Lemma index_only_bind {A B} (c : M A) (k : A -> M B) :
  index_only c -> (forall a, index_only (k a)) -> index_only (bind c k).
Proof.
  intros Hc Hk w. unfold bind. specialize (Hc w).
  destruct (c w) as [[a|e] w1]; simpl in Hc |- *.
  - rewrite Hk. exact Hc.
  - exact Hc.
Qed.

Lemma index_only_try_except {A} (c : M A) (h : exn -> option (M A)) :
  index_only c -> (forall e k, h e = Some k -> index_only k) ->
  index_only (try_except c h).
Proof.
  intros Hc Hh w. unfold try_except. specialize (Hc w).
  destruct (c w) as [[a|e] w1]; simpl in Hc |- *; [exact Hc|].
  destruct (h e) as [k|] eqn:Hk; [|exact Hc].
  rewrite (Hh e k Hk). exact Hc.
Qed.

Create HintDb index.

#[local] Hint Resolve index_only_ret index_only_lift index_only_logger
  index_only_get_collection index_only_put_collection index_only_read_json
  index_only_bind : index.

Lemma index_only_add_documents self documents :
  index_only (add_documents self documents).
Proof. unfold add_documents. cbv zeta. auto 20 with index. Qed.

Lemma index_only_load_corpus self path : index_only (load_corpus self path).
Proof.
  unfold load_corpus. apply index_only_try_except.
  - apply index_only_bind; [auto with index|intros docs].
    apply index_only_bind; [auto with index|intros n].
    apply index_only_bind; [auto with index|intros _].
    apply index_only_add_documents.
  - intros e k. destruct (is_error FileNotFoundError e);
      [|destruct (is_error JSONDecodeError e)];
      intros [= <-]; auto with index.
Qed.

(** ** The reinitialisation endpoint *)

(** After a [save_corpus] that returned the file holds the documents. *)
Lemma save_corpus_returned self w w' :
  DataLoaderM.save_corpus self w = (Ok tt, w') ->
  files w' (corpus_path self) = JsonDocuments (dl_documents self) /\
  data_loader w' = data_loader w.
Proof.
  unfold DataLoaderM.save_corpus, DataLoaderM.write_json.
  unfold bind at 1. unfold bind at 1, get_world.
  assert (Hrefl : str_eqb (corpus_path self) (corpus_path self) = true)
    by (apply str_eqb_eq; reflexivity).
  destruct (write_refused w (corpus_path self)) as [e|]; [discriminate|].
  destruct (write_interrupted w (corpus_path self) (dl_documents self))
    as [[e truncated]|]; [discriminate|].
  unfold DataLoaderM.put_file, logger. intros [= <-].
  cbn [files data_loader set_log set_files]. rewrite Hrefl.
  split; reflexivity.
Qed.

(** X16. [POST /api/init] answers 503, with nothing changed, when one of
    the two globals is unset, and otherwise "success" or 500. On "success"
    the loader holds ten documents more than before, the number reported is
    the number it holds, and the file under its path holds exactly those
    documents. *)
Theorem initialize_corpus_outcome w :
  match initialize_corpus w with
  | (Ok resp, w') =>
    exists rag loader loader',
      rag_system w = Some rag /\ data_loader w = Some loader /\
      data_loader w' = Some loader' /\
      List.length (dl_documents loader')
      = (List.length (dl_documents loader) + 10)%nat /\
      InitResponse.status resp = lit "success" /\
      InitResponse.documents_loaded resp
      = Z.of_nat (List.length (dl_documents loader')) /\
      files w' (corpus_path loader) = JsonDocuments (dl_documents loader')
  | (Raise e, w') =>
    (e = not_initialized /\ w' = w /\
     (rag_system w = None \/ data_loader w = None))
    \/ (e = init_error /\ rag_system w <> None /\ data_loader w <> None)
  end.
Proof.
  unfold initialize_corpus, bind at 1, get_world.
  destruct (rag_system w) as [rag|] eqn:Hrag;
    [|left; repeat split; left; reflexivity].
  destruct (data_loader w) as [loader|] eqn:Hloader;
    [|left; repeat split; right; reflexivity].
  unfold try_except, bind at 1.
  destruct (clear_database_run rag w) as (stored & records1 & ->).
  set (w1 := set_log (set_collection w stored) (log w ++ records1)).
  unfold bind at 1.
  destruct (add_sample_data_appends loader w1)
    as (loader' & records2 & added & -> & Hpath & _ & Hdocs & Hadded & _).
  unfold bind at 1, put_data_loader at 1. unfold bind at 1.
  match goal with |- context [DataLoaderM.save_corpus loader' ?x] =>
    set (w3 := x)
  end.
  destruct (DataLoaderM.save_corpus loader' w3) as [[[]|e] w4] eqn:Hsave;
    [|right; split; [reflexivity|split; discriminate]].
  destruct (save_corpus_returned loader' w3 w4 Hsave) as [Hfiles4 Hdl4].
  unfold bind at 1.
  destruct (index_only_fields (load_corpus rag Config.CORPUS_PATH) w4
              (index_only_load_corpus rag _)) as (_ & Hdl5 & Hfiles5).
  destruct (load_corpus rag Config.CORPUS_PATH w4) as [[[]|e] w5];
    cbn [snd] in Hdl5, Hfiles5.
  - unfold bind at 1, lift.
    destruct (get_statistics_returns loader') as (stats & -> & Htotal).
    unfold ret. exists rag, loader, loader'.
    split; [reflexivity|]. split; [reflexivity|].
    split; [rewrite Hdl5, Hdl4; reflexivity|].
    split; [rewrite Hdocs, length_app, Hadded; reflexivity|].
    split; [reflexivity|]. split; [exact Htotal|].
    rewrite Hfiles5, <- Hpath. exact Hfiles4.
  - right. split; [|split; discriminate]. reflexivity.
Qed.

End IndexMore.

Lemma load_corpus_swallows_witness :
  tolerated Demo.duplicate_ids = false /\
  (files Demo.world_with_corpus Config.CORPUS_PATH
   = Unreadable Demo.duplicate_ids \/
   exists v,
     files Demo.world_with_corpus Config.CORPUS_PATH = Json v /\
     (py_len v = Raise Demo.duplicate_ids \/
      exists w0,
        add_documents Demo.rag_rejecting v w0
        = (Raise Demo.duplicate_ids,
           snd (load_corpus Demo.rag_rejecting Config.CORPUS_PATH
                  Demo.world_with_corpus)))).
Proof.
  apply (load_corpus_swallows Demo.rag_rejecting Config.CORPUS_PATH
           Demo.world_with_corpus).
  vm_compute. reflexivity.
Defined.

(** Corpus files that hold JSON but no list of documents: [null] and a
    number have no length, a string is gone through character by
    character, and an object without "text" has no such key. The error is
    passed on each time. *)
Lemma load_corpus_not_documents :
  fst (load_corpus Demo.rag Config.CORPUS_PATH
         (Demo.world_with_file (Json JNull)))
  = Raise (Error TypeError (lit "object of type 'NoneType' has no len()"))
  /\ fst (load_corpus Demo.rag Config.CORPUS_PATH
            (Demo.world_with_file (Json (JInt 5))))
     = Raise (Error TypeError (lit "object of type 'int' has no len()"))
  /\ fst (load_corpus Demo.rag Config.CORPUS_PATH
            (Demo.world_with_file (Json (JString (lit "doc")))))
     = Raise (Error TypeError
                (lit "string indices must be integers, not 'str'"))
  /\ fst (load_corpus Demo.rag Config.CORPUS_PATH
            (Demo.world_with_file
               (Json (JArray [JObject [(lit "id", JString (lit "doc_1"))]]))))
     = Raise (Error KeyError (lit "'text'")).
Proof. repeat split. Qed.

(** A corpus file that holds one document: it is added to the
    collection. *)
Lemma load_corpus_one_document :
  collection
    (snd (load_corpus Demo.rag Config.CORPUS_PATH
            (Demo.world_with_file
               (JsonDocuments
                  [{| doc_id := lit "doc_9"; doc_text := Demo.doc_1;
                      doc_metadata :=
                        Some (Demo.metadata_of (lit "Ouagadougou")) |}]))))
  = Live (Demo.stored
          ++ [{| e_id := lit "doc_9"; e_embedding := [1; 0]%Q;
                 e_metadata := Demo.metadata_of (lit "Ouagadougou");
                 e_document := Demo.doc_1 |}]).
Proof. vm_compute. reflexivity. Qed.

(** The reinitialisation of the demonstration process stores ten
    documents under the path of its loader. *)
Lemma initialize_corpus_scenario :
  exists resp w' loader',
    initialize_corpus Demo.world = (Ok resp, w') /\
    InitResponse.documents_loaded resp = 10%Z /\
    data_loader w' = Some loader' /\
    List.length (dl_documents loader') = 10%nat /\
    files w' (lit "data/backup.json") = JsonDocuments (dl_documents loader').
Proof.
  eexists. eexists. eexists. split; [vm_compute; reflexivity|].
  split; [reflexivity|]. split; [reflexivity|].
  split; vm_compute; reflexivity.
Qed.

(** ** The startup handler *)

(** X17. The startup handler never raises and always sets the source
    lines: the non-blank lines of the file, stripped, or no line at all when
    the file cannot be read. No line kept is empty or has whitespace at an
    end. Two records are logged; the collection and the globals are
    untouched. *)
Theorem startup_event_sources read_text w :
  exists lines w',
    startup_event read_text w = (Ok tt, w') /\
    app_sources w' = Some lines /\
    Forall (fun line => line <> [] /\ strip line = line) lines /\
    lines = match read_text DATA_FILE with
            | Ok text => source_lines text
            | Raise _ => []
            end /\
    List.length (log w') = (List.length (log w) + 2)%nat /\
    collection w' = collection w /\
    rag_system w' = rag_system w /\ data_loader w' = data_loader w.
Proof.
  unfold startup_event, bind at 1, logger at 1. unfold bind at 1.
  unfold try_except, bind at 1, lift.
  destruct (read_text DATA_FILE) as [text|e].
  - unfold bind, logger, ret. eexists. eexists. split; [reflexivity|].
    cbn [app_sources set_app_sources set_log log collection rag_system
         data_loader].
    split; [reflexivity|]. split; [|split; [reflexivity|]].
    + unfold source_lines. apply Forall_forall. intros line Hin.
      apply in_map_iff in Hin. destruct Hin as (l & <- & Hl).
      apply filter_In in Hl. destruct Hl as [_ Hl].
      split; [destruct (strip l); [discriminate|discriminate]|apply strip_idem].
    + rewrite !length_app. simpl. split; [lia|]. auto.
  - unfold bind, logger, ret. eexists. eexists. split; [reflexivity|].
    cbn [app_sources set_app_sources set_log log collection rag_system
         data_loader].
    split; [reflexivity|]. split; [constructor|]. split; [reflexivity|].
    rewrite !length_app. simpl. split; [lia|]. auto.
Qed.

(** A file with a blank line, padded lines and Windows line ends. *)
Lemma startup_event_scenario :
  app_sources
    (snd (startup_event
            (fun _ => Ok (lit "  Cascade de Banfora " ++ [13; 10; 10]%N
                          ++ lit "FESPACO" ++ [10; 32; 9; 10]%N))
            Demo.offline))
  = Some [lit "Cascade de Banfora"; lit "FESPACO"].
Proof. vm_compute. reflexivity. Qed.

(** ** The chat service *)

Lemma split_sep_from_nonempty sep : forall s cur skip,
  split_sep_from sep s cur skip <> [].
Proof.
  induction s as [|c s IH]; intros cur skip; cbn [split_sep_from];
    [discriminate|].
  destruct skip; [|apply IH]. destruct (startswith sep (c :: s));
    [discriminate|apply IH].
Qed.

Lemma last_cons {A} (x : A) l d : l <> [] -> last (x :: l) d = last l d.
Proof. destruct l; [contradiction|reflexivity]. Qed.

Lemma snoc_split {A} (a : list A) c u v :
  a ++ [c] = u ++ v -> v <> [] -> exists v', v = v' ++ [c] /\ a = u ++ v'.
Proof.
  intros E Hv. destruct (exists_last Hv) as (v' & d & ->).
  rewrite app_assoc in E. apply app_inj_tail in E. destruct E as [-> ->].
  exists v'. split; reflexivity.
Qed.

(** The last piece of a split holds no separator. [cur] is the piece
    being read, reversed, and no separator starts inside it. *)
Lemma split_sep_from_last sep : sep <> [] -> forall s cur skip,
  (skip <> 0%nat -> cur = []) ->
  (forall u v, rev cur = u ++ v -> v <> [] ->
               startswith sep (v ++ s) = false) ->
  contains sep (last (split_sep_from sep s cur skip) []) = false.
Proof.
  intros Hsep. induction s as [|c s IH]; intros cur skip Hskip Hcur.
  - cbn [split_sep_from last]. apply contains_false. intros u v Hx.
    destruct v as [|d v].
    + destruct sep; [contradiction Hsep|]; reflexivity.
    + rewrite <- (app_nil_r (d :: v)). apply (Hcur u); [exact Hx|discriminate].
  - cbn [split_sep_from]. destruct skip as [|k].
    + destruct (startswith sep (c :: s)) eqn:Hs.
      * rewrite last_cons by apply split_sep_from_nonempty.
        apply IH; [reflexivity|].
        intros u v Hx Hv. destruct u; destruct v; try discriminate.
        exfalso; apply Hv; reflexivity.
      * apply IH; [intros C; exfalso; apply C; reflexivity|].
        intros u v Hx Hv. cbn [rev] in Hx.
        destruct (snoc_split _ _ _ _ Hx Hv) as (v' & -> & Hcur').
        rewrite <- app_assoc. cbn [app]. destruct v' as [|d v'].
        -- exact Hs.
        -- apply (Hcur u); [exact Hcur'|discriminate].
    + rewrite (Hskip (Nat.neq_succ_0 k)). apply IH; [reflexivity|].
      intros u v Hx Hv. destruct u; destruct v; try discriminate.
      exfalso; apply Hv; reflexivity.
Qed.

Lemma skipn_last_three {A} (older recent : list A) :
  List.length recent = 3%nat ->
  skipn (List.length (older ++ recent) - 3) (older ++ recent) = recent.
Proof.
  intros Hr. rewrite length_app, Hr.
  replace (List.length older + 3 - 3)%nat with (List.length older) by lia.
  rewrite skipn_app, skipn_all, Nat.sub_diag. reflexivity.
Qed.

(** X23. When [get_response] returns, the history has grown by exactly
    the message and the answer, in that order and with their role
    prefixes; the answer is stripped and holds no "Assistant:" marker; the
    context is kept. It raises only what the model raised, or what reading
    its output raised. *)
Theorem get_response_outcome self user_message :
  match ChatServiceM.get_response self user_message with
  | Ok (answer, self') =>
    ChatServiceM.conversation_history self'
    = ChatServiceM.conversation_history self
      ++ [lit "User: " ++ user_message; lit "Assistant: " ++ answer] /\
    strip answer = answer /\
    contains (lit "Assistant:") answer = false /\
    ChatServiceM.context self' = ChatServiceM.context self
  | Raise e =>
    ChatServiceM.model self (ChatServiceM.full_context self user_message) 150 1
    = Raise e \/
    exists output,
      ChatServiceM.model self (ChatServiceM.full_context self user_message)
        150 1 = Ok output /\
      generated_text output = Raise e
  end.
Proof.
  unfold ChatServiceM.get_response.
  destruct (ChatServiceM.model self _ 150 1) as [output|e];
    cbn [rbind]; [|left; reflexivity].
  destruct (generated_text output) as [response|e] eqn:Hg; cbn [rbind].
  - cbn [ChatServiceM.conversation_history ChatServiceM.context].
    split; [reflexivity|]. split; [apply strip_idem|]. split; [|reflexivity].
    destruct (contains (lit "Assistant:") (strip _)) eqn:Hc; [|reflexivity].
    apply contains_strip_any in Hc. unfold split_sep in Hc.
    rewrite split_sep_from_last in Hc; [discriminate|discriminate| |].
    + intros C. exfalso; apply C; reflexivity.
    + intros u v Hx Hv. destruct u; destruct v; try discriminate.
      exfalso; apply Hv; reflexivity.
  - right. exists output. split; [reflexivity|exact Hg].
Qed.

(** X24. Only the last three entries of the history reach the model: a
    service with older entries before them builds the same prompt, and
    gives the same answer or raises the same exception. *)
Theorem full_context_window context model older recent user_message :
  List.length recent = 3%nat ->
  ChatServiceM.full_context
    {| ChatServiceM.context := context;
       ChatServiceM.conversation_history := older ++ recent;
       ChatServiceM.model := model |} user_message
  = ChatServiceM.full_context
      {| ChatServiceM.context := context;
         ChatServiceM.conversation_history := recent;
         ChatServiceM.model := model |} user_message
  /\ match ChatServiceM.get_response
             {| ChatServiceM.context := context;
                ChatServiceM.conversation_history := older ++ recent;
                ChatServiceM.model := model |} user_message,
           ChatServiceM.get_response
             {| ChatServiceM.context := context;
                ChatServiceM.conversation_history := recent;
                ChatServiceM.model := model |} user_message with
     | Ok (a1, _), Ok (a2, _) => a1 = a2
     | Raise e1, Raise e2 => e1 = e2
     | _, _ => False
     end.
Proof.
  intros Hr.
  assert (Hp : ChatServiceM.full_context
    {| ChatServiceM.context := context;
       ChatServiceM.conversation_history := older ++ recent;
       ChatServiceM.model := model |} user_message
  = ChatServiceM.full_context
      {| ChatServiceM.context := context;
         ChatServiceM.conversation_history := recent;
         ChatServiceM.model := model |} user_message).
  { unfold ChatServiceM.full_context, ChatServiceM.last_three.
    cbn [ChatServiceM.conversation_history ChatServiceM.context].
    rewrite (skipn_last_three older recent Hr).
    rewrite Hr. reflexivity. }
  split; [exact Hp|].
  unfold ChatServiceM.get_response. rewrite Hp. cbn [ChatServiceM.model].
  destruct (model _ 150%Z 1%Z) as [output|e]; cbn [rbind]; [|reflexivity].
  destruct (generated_text output); cbn [rbind]; reflexivity.
Qed.

Lemma full_context_window_witness :
  ChatServiceM.full_context
    {| ChatServiceM.context := lit "Je suis un assistant touristique.";
       ChatServiceM.conversation_history :=
         Demo.older_messages ++ Demo.recent_messages;
       ChatServiceM.model := Demo.echo_model |} (lit "Et le FESPACO?")
  = ChatServiceM.full_context
      {| ChatServiceM.context := lit "Je suis un assistant touristique.";
         ChatServiceM.conversation_history := Demo.recent_messages;
         ChatServiceM.model := Demo.echo_model |} (lit "Et le FESPACO?")
  /\ match ChatServiceM.get_response
             {| ChatServiceM.context :=
                  lit "Je suis un assistant touristique.";
                ChatServiceM.conversation_history :=
                  Demo.older_messages ++ Demo.recent_messages;
                ChatServiceM.model := Demo.echo_model |}
             (lit "Et le FESPACO?"),
           ChatServiceM.get_response
             {| ChatServiceM.context :=
                  lit "Je suis un assistant touristique.";
                ChatServiceM.conversation_history := Demo.recent_messages;
                ChatServiceM.model := Demo.echo_model |}
             (lit "Et le FESPACO?") with
     | Ok (a1, _), Ok (a2, _) => a1 = a2
     | Raise e1, Raise e2 => e1 = e2
     | _, _ => False
     end.
Proof.
  apply (full_context_window (lit "Je suis un assistant touristique.")
           Demo.echo_model Demo.older_messages Demo.recent_messages
           (lit "Et le FESPACO?")).
  reflexivity.
Defined.

(** The answer of the demonstration model, cut after the last marker. *)
Lemma get_response_scenario :
  match ChatServiceM.get_response
          {| ChatServiceM.context := lit "Je suis un assistant touristique.";
             ChatServiceM.conversation_history := Demo.older_messages;
             ChatServiceM.model := Demo.echo_model |} (lit "Merci") with
  | Ok (answer, self') =>
    answer = lit "Bienvenue!" /\
    List.length (ChatServiceM.conversation_history self') = 4%nat
  | Raise _ => False
  end.
Proof. vm_compute. split; reflexivity. Qed.
